(** * NeuroLock: feature extraction, similarity matching and template store

    A shallow embedding of the C sources [utils.c], [capture.c],
    [feature_extraction.c], [hashing.c] and [template.c], together with the
    properties the specification states about them.

    Conventions of the embedding.
    - [float] is IEEE 754 binary32 and [double] is binary64, both taken from
      the standard library's [SpecFloat]; every operation is rounded to
      nearest-even in the type C gives it (no contraction, no excess
      precision).  [SpecFloat] has one NaN, so NaN payloads are not
      distinguished.
    - The data layout is LP64, little-endian: [size_t], [time_t] and [long]
      are 8 bytes, [int], [uint32_t], [float] and the enums are 4 bytes.
    - A pointer to a struct that a function tests against [NULL] is an
      [option]; array members are lists (the allocators never leave them
      [NULL]).  A pointer into a [float] array is the list suffix that starts
      at the pointed element.
    - Buffer overruns and out-of-range conversions are undefined behaviour in
      C; the embedding returns [Undefined] there.
    - The wall clock, the allocator, the C library's [cosf]/[sinf] and the
      outcome of [mkdir]/[fopen] are inputs of the functions that use them.
    - [log_message] only writes to [stderr] and is left out.
    - The release of storage ([eeg_data_free], [feature_vector_free],
      [hash_data_free], which wipe with [secure_wipe] and then call [free])
      is modelled on its own and is not part of the definitions of the
      functions that release their working storage ([extract_features],
      [template_authenticate], [template_create]): these describe a build in
      which [secure_wipe] is its loop alone, where the release does not
      change any result.  In a build with the second call of [secure_wipe]
      ([__GLIBC__] or [_WIN32]) every release of a non-empty buffer overruns
      it; [extract_features_with_release] states what this means for the
      pipeline. *)

From Stdlib Require Import ZArith List Bool Lia String Ascii Strings.Byte.
From Stdlib Require Import Floats.SpecFloat.
From stdpp Require Import base gmap strings list.

Open Scope Z_scope.

(** ** Floating-point formats *)

Definition f32 : Type := spec_float.
Definition f64 : Type := spec_float.

Module F32.
Definition prec : Z := 24.
Definition emax : Z := 128.
Definition add : f32 -> f32 -> f32 := SFadd prec emax.
Definition sub : f32 -> f32 -> f32 := SFsub prec emax.
Definition mul : f32 -> f32 -> f32 := SFmul prec emax.
Definition div : f32 -> f32 -> f32 := SFdiv prec emax.
Definition sqrt : f32 -> f32 := SFsqrt prec emax.
Definition valid : f32 -> bool := valid_binary prec emax.
(** [(float)n] for an integer [n]. *)
Definition of_Z (n : Z) : f32 := binary_normalize prec emax n 0 false.
(** The literal [num/den] written in decimal with suffix [f]. *)
Definition lit (num den : positive) : f32 :=
  div (S754_finite false num 0) (S754_finite false den 0).
Definition zero : f32 := S754_zero false.
Definition one : f32 := S754_finite false 8388608 (-23).
Definition minus_one : f32 := S754_finite true 8388608 (-23).
End F32.

Module F64.
Definition prec : Z := 53.
Definition emax : Z := 1024.
Definition mul : f64 -> f64 -> f64 := SFmul prec emax.
Definition div : f64 -> f64 -> f64 := SFdiv prec emax.
Definition of_Z (n : Z) : f64 := binary_normalize prec emax n 0 false.
Definition lit (num den : positive) : f64 :=
  div (S754_finite false num 0) (S754_finite false den 0).
(** The implicit conversion [float -> double] is exact. *)
Definition of_f32 (x : f32) : f64 := x.
(** The conversion [double -> float] rounds to nearest-even. *)
Definition to_f32 (x : f64) : f32 :=
  match x with
  | S754_finite s m e => binary_round F32.prec F32.emax s m e
  | _ => x
  end.
(** The cast [(size_t)x]: the fractional part is discarded; the cast is
    undefined when the integral part is not a [size_t] value. *)
Definition to_size_t (x : f64) : option Z :=
  match x with
  | S754_zero _ => Some 0
  | S754_finite s m e =>
      let t := if 0 <=? e then Zpos m * 2 ^ e else Zpos m / 2 ^ (- e) in
      if s then (if t =? 0 then Some 0 else None)
      else if t <? 2 ^ 64 then Some t else None
  | _ => None
  end.
End F64.

(** C's comparisons: [<] and [>=] are false when an operand is NaN. *)
Definition flt (x y : spec_float) : bool := SFltb x y.
Definition fge (x y : spec_float) : bool := SFleb y x.

(** ** Integers and bytes *)

Definition wrap64 (z : Z) : Z := z mod 2 ^ 64.
Definition to_signed (bits : Z) (z : Z) : Z :=
  if z mod 2 ^ bits <? 2 ^ (bits - 1) then z mod 2 ^ bits else z mod 2 ^ bits - 2 ^ bits.

Definition byte_of_Z (z : Z) : byte :=
  match Byte.of_N (Z.to_N (z mod 256)) with
  | Some b => b
  | None => x00
  end.
Definition Z_of_byte (b : byte) : Z := Z.of_N (Byte.to_N b).

(** Little-endian image of the low [n] bytes of [z], and its inverse. *)
Fixpoint le_encode (n : nat) (z : Z) : list byte :=
  match n with
  | O => []
  | S k => byte_of_Z z :: le_encode k (z / 256)
  end.
Fixpoint le_decode (bs : list byte) : Z :=
  match bs with
  | [] => 0
  | b :: r => Z_of_byte b + 256 * le_decode r
  end.

(** The binary32 interchange encoding. *)
Definition f32_to_bits (x : f32) : Z :=
  match x with
  | S754_zero s => if s then 2 ^ 31 else 0
  | S754_infinity s => (if s then 2 ^ 31 else 0) + 255 * 2 ^ 23
  | S754_nan => 255 * 2 ^ 23 + 2 ^ 22
  | S754_finite s m e =>
      (if s then 2 ^ 31 else 0) +
      (if Zpos m <? 2 ^ 23 then Zpos m else (e + 150) * 2 ^ 23 + (Zpos m - 2 ^ 23))
  end.
Definition f32_of_bits (w : Z) : f32 :=
  let s := Z.testbit w 31 in
  let E := (w / 2 ^ 23) mod 256 in
  let fr := w mod 2 ^ 23 in
  if E =? 0 then
    match fr with
    | Zpos m => S754_finite s m (-149)
    | _ => S754_zero s
    end
  else if E =? 255 then
    (if fr =? 0 then S754_infinity s else S754_nan)
  else
    match fr + 2 ^ 23 with
    | Zpos m => S754_finite s m (E - 150)
    | _ => S754_nan
    end.

Definition f32_bytes (x : f32) : list byte := le_encode 4 (f32_to_bits x).

(** The memory image of a [float] array, and the floats held by an image. *)
Definition floats_bytes (l : list f32) : list byte := flat_map f32_bytes l.
Fixpoint bytes_floats (n : nat) (bs : list byte) : list f32 :=
  match n with
  | O => []
  | S k => f32_of_bits (le_decode (take 4 bs)) :: bytes_floats k (drop 4 bs)
  end.

(** ** Outcomes of C code *)

(** [Done a]: the code runs to completion with result [a].
    [Undefined]: the code has undefined behaviour. *)
Inductive outcome (A : Type) : Type :=
  | Done (a : A)
  | Undefined.
Arguments Done {A} a.
Arguments Undefined {A}.

Definition obind {A B : Type} (o : outcome A) (k : A -> outcome B) : outcome B :=
  match o with
  | Done a => k a
  | Undefined => Undefined
  end.
Notation "x <- c1 ;;; c2" := (obind c1 (fun x => c2))
  (at level 90, c1 at level 89, right associativity).

Definition of_cast (o : option Z) : outcome Z :=
  match o with
  | Some z => Done z
  | None => Undefined
  end.

(** [for (i = start; i < start + count; i++) s = body i s;] *)
Fixpoint for_range {St : Type} (start count : nat) (body : nat -> St -> St) (s : St) : St :=
  match count with
  | O => s
  | S c => for_range (S start) c body (body start s)
  end.
Definition for_loop {St : Type} (count : nat) (body : nat -> St -> St) (s : St) : St :=
  for_range 0 count body s.

(** [p[i]] for a pointer [p] into a [float] array. *)
Definition rd (p : list f32) (i : nat) : f32 := nth i p F32.zero.

(** ** config.h *)

Definition SAMPLING_RATE : Z := 256.
Definition NUM_CHANNELS : Z := 8.
Definition FEATURE_VECTOR_SIZE : Z := 40.
Definition WINDOW_SIZE : Z := 256.
Definition DELTA_LOW : f64 := F64.lit 5 10.
Definition DELTA_HIGH : f64 := F64.lit 4 1.
Definition THETA_LOW : f64 := F64.lit 4 1.
Definition THETA_HIGH : f64 := F64.lit 8 1.
Definition ALPHA_LOW : f64 := F64.lit 8 1.
Definition ALPHA_HIGH : f64 := F64.lit 13 1.
Definition BETA_LOW : f64 := F64.lit 13 1.
Definition BETA_HIGH : f64 := F64.lit 30 1.
Definition GAMMA_LOW : f64 := F64.lit 30 1.
Definition GAMMA_HIGH : f64 := F64.lit 100 1.
Definition HIGHPASS_CUTOFF : f64 := F64.lit 5 10.
Definition LOWPASS_CUTOFF : f64 := F64.lit 50 1.
Definition NOTCH_FREQ : f64 := F64.lit 50 1.
Definition SIMILARITY_THRESHOLD : f64 := F64.lit 85 100.
Definition SALT_LENGTH : Z := 32.
Definition HASH_OUTPUT_SIZE : Z := 32.
Definition TEMPLATE_DIR : string := "./templates".
Definition TEMPLATE_EXTENSION : string := ".nlt".
Definition M_PI : f64 := F64.lit 314159265358979323846 100000000000000000000.

(** [MentalTask] is a C enum, stored and reloaded as a 4-byte [int]. *)
Definition MentalTask : Type := Z.
Definition TASK_EYES_CLOSED_REST : MentalTask := 0.
Definition TASK_EYES_OPEN_REST : MentalTask := 1.
Definition TASK_MOTOR_IMAGERY : MentalTask := 3.
Definition TASK_VISUAL_IMAGERY : MentalTask := 4.

(** ** Data structures *)

Module EEGData.
Record t : Type := mk {
  data : list f32;          (* [channels * samples] *)
  num_channels : Z;
  num_samples : Z;
  sampling_rate : f32;
  timestamp : Z;
  task_type : MentalTask
}.
(** The buffer holds what the dimensions announce. *)
Definition wf (d : t) : Prop :=
  0 <= num_channels d /\ 0 <= num_samples d /\
  Z.of_nat (length (data d)) = num_channels d * num_samples d /\
  num_channels d * num_samples d * 4 < 2 ^ 64.
End EEGData.

Module FeatureVector.
Record t : Type := mk {
  features : list f32;
  size : Z;
  task_type : MentalTask;
  timestamp : Z
}.
Definition wf (v : t) : Prop := Z.of_nat (length (features v)) = size v.
End FeatureVector.

Module HashData.
Record t : Type := mk {
  hash : list byte;
  hash_size : Z;
  salt : list byte;
  salt_size : Z
}.
Definition wf (h : t) : Prop :=
  Z.of_nat (length (hash h)) = hash_size h /\
  Z.of_nat (length (salt h)) = salt_size h.
End HashData.

Module Template.
Record t : Type := mk {
  username : list byte;                    (* char[64] *)
  hash : option HashData.t;
  features : option FeatureVector.t;
  task_type : MentalTask;
  created_at : Z;
  last_used : Z;
  version : Z
}.
End Template.

Module AuthResult.
Record t : Type := mk {
  authenticated : Z;
  similarity_score : f32;
  timestamp : Z;
  attempts : Z
}.
End AuthResult.

(** ** utils.c: numeric primitives *)

Definition calculate_mean (data : list f32) (size : Z) : f32 :=
  if size =? 0 then F32.zero
  else
    let sum := for_loop (Z.to_nat size) (fun i sum => F32.add sum (rd data i)) F32.zero in
    F32.div sum (F32.of_Z size).

Definition calculate_std_dev (data : list f32) (size : Z) : f32 :=
  if size =? 0 then F32.zero
  else
    let mean := calculate_mean data size in
    let sum_sq_diff :=
      for_loop (Z.to_nat size)
        (fun i acc => let diff := F32.sub (rd data i) mean in F32.add acc (F32.mul diff diff))
        F32.zero in
    F32.sqrt (F32.div sum_sq_diff (F32.of_Z size)).

Definition dot_product (vec1 vec2 : list f32) (size : Z) : f32 :=
  for_loop (Z.to_nat size)
    (fun i result => F32.add result (F32.mul (rd vec1 i) (rd vec2 i))) F32.zero.

Definition vector_magnitude (vec : list f32) (size : Z) : f32 :=
  F32.sqrt (for_loop (Z.to_nat size)
              (fun i sum_sq => F32.add sum_sq (F32.mul (rd vec i) (rd vec i))) F32.zero).

(** ** The program, over its environment *)

Section Program.

(** [alloc_ok n]: the allocator serves a request for [n] bytes. *)
Variable alloc_ok : Z -> bool.
(** The C library's single-precision cosine and sine. *)
Variables cosf sinf : f32 -> f32.

(** [calloc(nmemb, size)] fails when the product overflows [size_t]. *)
Definition calloc_ok (nmemb size : Z) : bool :=
  (nmemb * size <? 2 ^ 64) && alloc_ok (nmemb * size).

Definition sizeof_EEGData : Z := 48.
Definition sizeof_FeatureVector : Z := 32.
Definition sizeof_HashData : Z := 32.

(** *** capture.c: [eeg_data_alloc] *)

Definition eeg_data_alloc (num_channels num_samples : Z) : option EEGData.t :=
  if negb (alloc_ok sizeof_EEGData) then None
  else
    let n := wrap64 (num_channels * num_samples) in
    if negb (calloc_ok n 4) then None
    else Some (EEGData.mk (replicate (Z.to_nat n) F32.zero) num_channels num_samples
                          (F32.of_Z SAMPLING_RATE) 0 TASK_EYES_CLOSED_REST).

(** *** feature_extraction.c: preprocessing stages *)

Definition filter_bandpass (data : option EEGData.t) (low_freq high_freq : f32)
  : Z * option EEGData.t :=
  match data with
  | None => (-1, None)
  | Some d => (0, Some d)
  end.

Definition filter_notch (data : option EEGData.t) (notch_freq : f32)
  : Z * option EEGData.t :=
  match data with
  | None => (-1, None)
  | Some d => (0, Some d)
  end.

Definition remove_eye_artifacts (data : option EEGData.t) : Z * option EEGData.t :=
  match data with
  | None => (-1, None)
  | Some d => (0, Some d)
  end.

(** One iteration of the channel loop of [normalize_signal], on the whole
    sample buffer. *)
Definition normalize_channel (num_samples : Z) (ch : nat) (buf : list f32) : list f32 :=
  let base := (ch * Z.to_nat num_samples)%nat in
  let channel_data := drop base buf in
  let mean := calculate_mean channel_data num_samples in
  let std_dev := calculate_std_dev channel_data num_samples in
  let std_dev := if flt std_dev (F32.lit 1 1000000) then F32.one else std_dev in
  for_loop (Z.to_nat num_samples)
    (fun i b => <[(base + i)%nat := F32.div (F32.sub (rd (drop base b) i) mean) std_dev]> b)
    buf.

Definition normalize_signal (data : option EEGData.t) : outcome (Z * option EEGData.t) :=
  match data with
  | None => Done (-1, None)
  | Some d =>
      let nc := EEGData.num_channels d in
      let ns := EEGData.num_samples d in
      if Z.of_nat (length (EEGData.data d)) <? nc * ns then Undefined
      else
        let buf := for_loop (Z.to_nat nc) (normalize_channel ns) (EEGData.data d) in
        Done (0, Some (EEGData.mk buf nc ns (EEGData.sampling_rate d)
                                  (EEGData.timestamp d) (EEGData.task_type d)))
  end.

(** *** feature_extraction.c: spectrum and band power *)

Definition fft_angle (k n : nat) (size : Z) : f32 :=
  F64.to_f32
    (F64.div
       (F64.mul (F64.mul (F64.mul (F64.of_f32 (F32.of_Z 2)) M_PI) (F64.of_Z (Z.of_nat k)))
                (F64.of_Z (Z.of_nat n)))
       (F64.of_Z size)).

Definition compute_fft (input output : list f32) (size : Z) : Z * list f32 :=
  (0,
   for_loop (Z.to_nat (size / 2))
     (fun k out =>
        let ri :=
          for_loop (Z.to_nat size)
            (fun n ri =>
               let angle := fft_angle k n size in
               (F32.add (fst ri) (F32.mul (rd input n) (cosf angle)),
                F32.sub (snd ri) (F32.mul (rd input n) (sinf angle))))
            (F32.zero, F32.zero) in
        <[k := F32.sqrt (F32.add (F32.mul (fst ri) (fst ri)) (F32.mul (snd ri) (snd ri)))]> out)
     output).

(** The loop [for (i = (size_t)(low / res); i < (size_t)(high / res) && i < fft_size; i++)]. *)
Definition band_power (fft_output : list f32) (fft_size : Z) (freq_resolution : f32)
           (low high : f64) : outcome f32 :=
  lo <- of_cast (F64.to_size_t (F64.div low (F64.of_f32 freq_resolution))) ;;;
  hi <- of_cast (F64.to_size_t (F64.div high (F64.of_f32 freq_resolution))) ;;;
  Done (for_range (Z.to_nat lo) (Z.to_nat (Z.min hi fft_size - lo))
          (fun i p => F32.add p (F32.mul (rd fft_output i) (rd fft_output i))) F32.zero).

(** The state of the channel loop of [extract_band_power]. *)
Record bp_state : Type := mk_bp {
  feature_idx : nat;
  out_features : list f32;
  fft_output : list f32
}.

(** [output->features[feature_idx++] = v] after computing [v] over one band. *)
Definition put_band (fft_size : Z) (res : f32) (low high : f64) (st : bp_state)
  : outcome bp_state :=
  v <- band_power (fft_output st) fft_size res low high ;;;
  if (feature_idx st <? length (out_features st))%nat then
    Done (mk_bp (S (feature_idx st)) (<[feature_idx st := v]> (out_features st))
                (fft_output st))
  else Undefined.

Definition band_power_channel (d : EEGData.t) (fft_size : Z) (ch : nat) (st : bp_state)
  : outcome bp_state :=
  let channel_data := drop (ch * Z.to_nat (EEGData.num_samples d))%nat (EEGData.data d) in
  if WINDOW_SIZE <=? EEGData.num_samples d then
    if Z.of_nat (length channel_data) <? WINDOW_SIZE then Undefined
    else
      let fft := snd (compute_fft channel_data (fft_output st) WINDOW_SIZE) in
      let res := F32.div (EEGData.sampling_rate d) (F32.of_Z WINDOW_SIZE) in
      let st := mk_bp (feature_idx st) (out_features st) fft in
      st <- put_band fft_size res DELTA_LOW DELTA_HIGH st ;;;
      st <- put_band fft_size res THETA_LOW THETA_HIGH st ;;;
      st <- put_band fft_size res ALPHA_LOW ALPHA_HIGH st ;;;
      st <- put_band fft_size res BETA_LOW BETA_HIGH st ;;;
      put_band fft_size res GAMMA_LOW GAMMA_HIGH st
  else Done st.

Definition extract_band_power (data : option EEGData.t) (output : option FeatureVector.t)
  : outcome (Z * option FeatureVector.t) :=
  match data, output with
  | Some d, Some out =>
      let fft_size := WINDOW_SIZE / 2 in
      if negb (alloc_ok (fft_size * 4)) then Done (-1, Some out)
      else
        st <- for_loop (Z.to_nat (EEGData.num_channels d))
                (fun ch acc => st <- acc ;;; band_power_channel d fft_size ch st)
                (Done (mk_bp 0 (FeatureVector.features out)
                             (replicate (Z.to_nat fft_size) F32.zero))) ;;;
        Done (0, Some (FeatureVector.mk (out_features st) (FeatureVector.size out)
                                        (FeatureVector.task_type out)
                                        (FeatureVector.timestamp out)))
  | _, _ => Done (-1, output)
  end.

Definition extract_psd_features (data : option EEGData.t) (output : option FeatureVector.t)
  : outcome (Z * option FeatureVector.t) :=
  extract_band_power data output.

Definition extract_wavelet_features (data : option EEGData.t)
           (output : option FeatureVector.t) : Z * option FeatureVector.t :=
  (-1, output).

(** *** feature_extraction.c: the pipeline *)

(** [now_ms] is what [get_timestamp_ms()] returns during the call. *)
Definition extract_features (data : option EEGData.t) (output : option FeatureVector.t)
           (now_ms : Z) : outcome (Z * option FeatureVector.t) :=
  match data, output with
  | Some d, Some out =>
      let nc := EEGData.num_channels d in
      let ns := EEGData.num_samples d in
      match eeg_data_alloc nc ns with
      | None => Done (-1, Some out)
      | Some fd =>
          (* memcpy(filtered_data->data, data->data, nc * ns * sizeof(float)) *)
          let count := Z.to_nat (wrap64 (nc * ns * 4) / 4) in
          if (length (EEGData.data d) <? count)%nat then Undefined
          else
            let filtered_data :=
              EEGData.mk (take count (EEGData.data d) ++ drop count (EEGData.data fd))
                         nc ns (EEGData.sampling_rate d)
                         (EEGData.timestamp fd) (EEGData.task_type fd) in
            let s1 := filter_bandpass (Some filtered_data)
                        (F64.to_f32 HIGHPASS_CUTOFF) (F64.to_f32 LOWPASS_CUTOFF) in
            let s2 := filter_notch (snd s1) (F64.to_f32 NOTCH_FREQ) in
            let s3 := remove_eye_artifacts (snd s2) in
            s4 <- normalize_signal (snd s3) ;;;
            r <- extract_band_power (snd s4) (Some out) ;;;
            Done (fst r,
                  option_map
                    (fun o => FeatureVector.mk (FeatureVector.features o)
                                (FeatureVector.size o) (EEGData.task_type d) now_ms)
                    (snd r))
      end
  | _, _ => Done (-1, output)
  end.

Definition feature_vector_alloc (size : Z) : option FeatureVector.t :=
  if negb (alloc_ok sizeof_FeatureVector) then None
  else if negb (calloc_ok size 4) then None
  else Some (FeatureVector.mk (replicate (Z.to_nat size) F32.zero) size
                              TASK_EYES_CLOSED_REST 0).

(** *** feature_extraction.c: [average_feature_vectors] *)

(** [vectors] and [num_vectors] are the list and its length. *)
Definition average_feature_vectors (vectors : option (list FeatureVector.t))
           (output : option FeatureVector.t) (now_ms : Z)
  : outcome (Z * option FeatureVector.t) :=
  match vectors, output with
  | Some vs, Some out =>
      match vs with
      | [] => Done (-1, Some out)
      | v0 :: rest =>
          let size := FeatureVector.size v0 in
          if existsb (fun v => negb (FeatureVector.size v =? size)) rest
          then Done (-1, Some out)
          else if existsb (fun v => Z.of_nat (length (FeatureVector.features v)) <? size) vs
                  || (Z.of_nat (length (FeatureVector.features out)) <? size)
          then Undefined
          else
            let num_vectors := Z.of_nat (length vs) in
            let feats :=
              for_loop (Z.to_nat size)
                (fun j o =>
                   let sum :=
                     for_loop (length vs)
                       (fun i sum => F32.add sum (rd (FeatureVector.features (nth i vs v0)) j))
                       F32.zero in
                   <[j := F32.div sum (F32.of_Z num_vectors)]> o)
                (FeatureVector.features out) in
            Done (0, Some (FeatureVector.mk feats size (FeatureVector.task_type v0) now_ms))
      end
  | _, _ => Done (-1, output)
  end.

(** *** hashing.c: [hash_data_alloc] *)

Definition hash_data_alloc (hash_size salt_size : Z) : option HashData.t :=
  if negb (alloc_ok sizeof_HashData) then None
  else if negb (calloc_ok hash_size 1) then None
  else if negb (calloc_ok salt_size 1) then None
  else Some (HashData.mk (replicate (Z.to_nat hash_size) x00) hash_size
                         (replicate (Z.to_nat salt_size) x00) salt_size).

(** *** template.c: matching *)

Definition calculate_similarity (vec1 vec2 : option FeatureVector.t) : outcome f32 :=
  match vec1, vec2 with
  | Some v1, Some v2 =>
      let f1 := FeatureVector.features v1 in
      let f2 := FeatureVector.features v2 in
      if negb (FeatureVector.size v1 =? FeatureVector.size v2) then Done F32.minus_one
      else if (Z.of_nat (length f1) <? FeatureVector.size v1)
              || (Z.of_nat (length f2) <? FeatureVector.size v2)
      then Undefined
      else
        let dot := dot_product f1 f2 (FeatureVector.size v1) in
        let mag1 := vector_magnitude f1 (FeatureVector.size v1) in
        let mag2 := vector_magnitude f2 (FeatureVector.size v2) in
        if flt mag1 (F32.lit 1 1000000) || flt mag2 (F32.lit 1 1000000)
        then Done F32.minus_one
        else
          let similarity := F32.div dot (F32.mul mag1 mag2) in
          let similarity := if flt similarity F32.zero then F32.zero else similarity in
          let similarity := if flt F32.one similarity then F32.one else similarity in
          Done similarity
  | _, _ => Done F32.minus_one
  end.

(** [now_ms] is the reading of [get_timestamp_ms()], [now_s] that of
    [time(NULL)]. *)
Definition template_authenticate (trial : option EEGData.t) (template : option Template.t)
           (result : option AuthResult.t) (now_ms now_s : Z)
  : outcome (Z * option AuthResult.t) :=
  match trial, template, result with
  | Some tr, Some tpl, Some res =>
      match feature_vector_alloc FEATURE_VECTOR_SIZE with
      | None => Done (-1, Some res)
      | Some trial_features =>
          r <- extract_features (Some tr) (Some trial_features) now_ms ;;;
          if negb (fst r =? 0) then Done (-1, Some res)
          else
            similarity <- calculate_similarity (snd r) (Template.features tpl) ;;;
            let authenticated :=
              if fge (F64.of_f32 similarity) SIMILARITY_THRESHOLD then 1 else 0 in
            Done (0, Some (AuthResult.mk authenticated similarity now_s 1))
      end
  | _, _, _ => Done (-1, result)
  end.

End Program.

(** ** The template store (template.c) *)

(** The files: a map from path to content. *)
Definition no_files : gmap string (list byte) := ∅.

(** An open [FILE*] in read mode: the content and the cursor. *)
Record FILE : Type := mkFILE { f_bytes : list byte; f_pos : Z }.

(** [fread(buf, size, nmemb, fp)]: the bytes present at the cursor, at most
    [size * nmemb] of them, overwrite the start of [buf]; the cursor moves
    past them.  A short read leaves the rest of [buf] as it was. *)
Definition fread (buf : list byte) (size nmemb : Z) (fp : FILE) : list byte * FILE :=
  let got := take (Z.to_nat (size * nmemb)) (drop (Z.to_nat (f_pos fp)) (f_bytes fp)) in
  (got ++ drop (length got) buf, mkFILE (f_bytes fp) (f_pos fp + Z.of_nat (length got))).

(** [fseek(fp, offset, SEEK_CUR)]: a seek before the start of the file fails
    and leaves the cursor where it was. *)
Definition fseek_cur (fp : FILE) (offset : Z) : FILE :=
  if f_pos fp + offset <? 0 then fp else mkFILE (f_bytes fp) (f_pos fp + offset).

(** The I/O calls of a writer, and their effect on the files. *)
Inductive io_call : Type :=
  | IoOpenW (path : string)        (* fopen(path, "wb") *)
  | IoWrite (bytes : list byte)    (* fwrite on the open stream *)
  | IoClose.                       (* fclose *)

Record io_state : Type := mk_io {
  io_files : gmap string (list byte);
  io_open : option string
}.

Definition io_step (s : io_state) (c : io_call) : io_state :=
  match c with
  | IoOpenW path => mk_io (<[path := []]> (io_files s)) (Some path)
  | IoWrite bytes =>
      match io_open s with
      | Some path => mk_io (alter (fun content => content ++ bytes) path (io_files s)) (io_open s)
      | None => s
      end
  | IoClose => mk_io (io_files s) None
  end.

Definition io_run (calls : list io_call) (fs : gmap string (list byte))
  : gmap string (list byte) :=
  io_files (fold_left io_step calls (mk_io fs None)).

(** The [char username[64]] member as it lies in memory. *)
Definition username_bytes (u : list byte) : list byte := take 64 (u ++ replicate 64 x00).

Section Store.

Variable alloc_ok : Z -> bool.
(** [create_directory(TEMPLATE_DIR)] succeeds. *)
Variable create_directory_ok : bool.
(** [fopen(path, "wb")] succeeds. *)
Variable fopen_w_ok : string -> bool.

(** The sequence of [fwrite] calls of [template_save]. *)
Definition template_save_writes (t : Template.t) (fv : FeatureVector.t) (hd : HashData.t)
  : list (list byte) :=
  [ le_encode 4 (Template.version t);
    username_bytes (Template.username t);
    le_encode 4 (Template.task_type t);
    le_encode 8 (Template.created_at t);
    le_encode 8 (Template.last_used t);
    le_encode 8 (FeatureVector.size fv);
    floats_bytes (take (Z.to_nat (FeatureVector.size fv)) (FeatureVector.features fv));
    le_encode 8 (HashData.hash_size hd);
    take (Z.to_nat (HashData.hash_size hd)) (HashData.hash hd);
    le_encode 8 (HashData.salt_size hd);
    take (Z.to_nat (HashData.salt_size hd)) (HashData.salt hd) ].

(** All I/O calls of [template_save], in program order. *)
Definition template_save_calls (t : Template.t) (fv : FeatureVector.t) (hd : HashData.t)
           (filepath : string) : list io_call :=
  IoOpenW filepath :: map IoWrite (template_save_writes t fv hd) ++ [IoClose].

(** The members read through [template->features] and [template->hash]
    lie inside their buffers. *)
Definition save_in_bounds (fv : FeatureVector.t) (hd : HashData.t) : bool :=
  (FeatureVector.size fv <=? Z.of_nat (length (FeatureVector.features fv)))
  && (HashData.hash_size hd <=? Z.of_nat (length (HashData.hash hd)))
  && (HashData.salt_size hd <=? Z.of_nat (length (HashData.salt hd))).

Definition template_save (fs : gmap string (list byte)) (template : option Template.t)
           (filepath : option string) : outcome (Z * gmap string (list byte)) :=
  match template, filepath with
  | Some t, Some path =>
      if negb create_directory_ok then Done (-1, fs)
      else if negb (fopen_w_ok path) then Done (-1, fs)
      else
        match Template.features t, Template.hash t with
        | Some fv, Some hd =>
            if save_in_bounds fv hd
            then Done (0, io_run (template_save_calls t fv hd path) fs)
            else Undefined
        | _, _ => Undefined
        end
  | _, _ => Done (-1, fs)
  end.

(** The files when [template_save] is interrupted after its first [k] I/O
    calls. *)
Definition template_save_interrupted (k : nat) (fs : gmap string (list byte))
           (t : Template.t) (fv : FeatureVector.t) (hd : HashData.t) (path : string)
  : gmap string (list byte) :=
  io_run (take k (template_save_calls t fv hd path)) fs.

(** [garbage] holds the indeterminate initial values of the locals
    [feature_size], [hash_size] and [salt_size]. *)
Definition template_load (fs : gmap string (list byte)) (filepath : option string)
           (output : option Template.t) (garbage : Z * Z * Z) : Z * option Template.t :=
  match filepath, output with
  | Some path, Some out =>
      match fs !! path with
      | None => (-1, Some out)
      | Some content =>
          let fp := mkFILE content 0 in
          let '(b_version, fp) := fread (le_encode 4 (Template.version out)) 4 1 fp in
          let '(b_username, fp) := fread (username_bytes (Template.username out)) 1 64 fp in
          let '(b_task, fp) := fread (le_encode 4 (Template.task_type out)) 4 1 fp in
          let '(b_created, fp) := fread (le_encode 8 (Template.created_at out)) 8 1 fp in
          let '(b_last, fp) := fread (le_encode 8 (Template.last_used out)) 8 1 fp in
          let meta features hash :=
            Template.mk b_username hash features
                        (to_signed 32 (le_decode b_task))
                        (to_signed 64 (le_decode b_created))
                        (to_signed 64 (le_decode b_last))
                        (le_decode b_version) in
          let '(b_fsize, fp) := fread (le_encode 8 (fst (fst garbage))) 8 1 fp in
          let feature_size := le_decode b_fsize in
          match feature_vector_alloc alloc_ok feature_size with
          | None => (-1, Some (meta None (Template.hash out)))
          | Some fv0 =>
              let '(b_feats, fp) :=
                fread (floats_bytes (FeatureVector.features fv0)) 4 feature_size fp in
              let fv :=
                FeatureVector.mk (bytes_floats (Z.to_nat feature_size) b_feats)
                                 (FeatureVector.size fv0) (FeatureVector.task_type fv0)
                                 (FeatureVector.timestamp fv0) in
              let '(b_hsize, fp) := fread (le_encode 8 (snd (fst garbage))) 8 1 fp in
              let hash_size := le_decode b_hsize in
              let '(b_ssize, fp) := fread (le_encode 8 (snd garbage)) 8 1 fp in
              let salt_size := le_decode b_ssize in
              match hash_data_alloc alloc_ok hash_size salt_size with
              | None =>
                  (* [output->features] is freed here and left dangling; the
                     embedding keeps the wiped vector *)
                  (-1, Some (meta (Some (FeatureVector.mk
                                           (replicate (Z.to_nat feature_size) F32.zero)
                                           (FeatureVector.size fv) (FeatureVector.task_type fv)
                                           (FeatureVector.timestamp fv)))
                                  None))
              | Some hd =>
                  let fp := fseek_cur fp (- 8) in
                  let '(b_ssize2, fp) := fread (le_encode 8 (HashData.salt_size hd)) 8 1 fp in
                  let fp := fseek_cur fp (- to_signed 64 (wrap64 (8 * 2 + hash_size))) in
                  let '(b_hash, fp) := fread (HashData.hash hd) 1 hash_size fp in
                  let fp := fseek_cur fp 8 in
                  let '(b_salt, fp) := fread (HashData.salt hd) 1 salt_size fp in
                  (0, Some (meta (Some fv)
                                 (Some (HashData.mk b_hash (HashData.hash_size hd)
                                                    b_salt (le_decode b_ssize2)))))
              end
          end
      end
  | _, _ => (-1, output)
  end.

End Store.

(** ** Reference definitions, following the specification's wording *)

(** Single-precision sum of a list, accumulated from the left. *)
Definition fsum (l : list f32) : f32 := fold_left F32.add l F32.zero.





(** Arithmetic mean and population standard deviation of a list. *)
Definition mean_spec (l : list f32) : f32 :=
  F32.div (fsum l) (F32.of_Z (Z.of_nat (length l))).
Definition std_spec (l : list f32) : f32 :=
  F32.sqrt (F32.div (fsum (map (fun x => F32.mul (F32.sub x (mean_spec l))
                                                 (F32.sub x (mean_spec l))) l))
                    (F32.of_Z (Z.of_nat (length l)))).

(** The normalised value of a sample [x] of a channel [l]: centred on the
    mean and divided by the standard deviation, or by 1.0 when the standard
    deviation is below 1e-6. *)
Definition zscore (l : list f32) (x : f32) : f32 :=
  F32.div (F32.sub x (mean_spec l))
          (if flt (std_spec l) (F32.lit 1 1000000) then F32.one else std_spec l).



(** The samples of channel [ch]. *)
Definition channel (d : EEGData.t) (ch : nat) : list f32 :=
  take (Z.to_nat (EEGData.num_samples d))
       (drop (ch * Z.to_nat (EEGData.num_samples d))%nat (EEGData.data d)).

(** The ten casts [(size_t)(edge / freq_resolution)] of [extract_band_power]
    are defined at sampling rate [rate]. *)
Definition band_edges_defined (rate : f32) : bool :=
  forallb
    (fun edge =>
       match F64.to_size_t (F64.div edge (F64.of_f32 (F32.div rate (F32.of_Z WINDOW_SIZE)))) with
       | Some _ => true
       | None => false
       end)
    [DELTA_LOW; DELTA_HIGH; THETA_LOW; THETA_HIGH; ALPHA_LOW; ALPHA_HIGH;
     BETA_LOW; BETA_HIGH; GAMMA_LOW; GAMMA_HIGH].

(** The 8-byte field at offset [pos] of a file, as [fread] into a variable
    holding [old] leaves it: bytes missing from the file keep those of [old]. *)
Definition field_u64 (content : list byte) (pos : Z) (old : Z) : Z :=
  let got := take 8 (drop (Z.to_nat pos) content) in
  le_decode (got ++ drop (length got) (le_encode 8 old)).

(** ** Sample inputs *)

Definition always_served (_ : Z) : bool := true.
Definition short_trial : EEGData.t :=
  EEGData.mk (replicate 32 F32.one) 8 4 (F32.of_Z SAMPLING_RATE) 0 TASK_EYES_OPEN_REST.
Definition ones_template : Template.t :=
  Template.mk [] None
    (Some (FeatureVector.mk (replicate 40 F32.one) 40 TASK_EYES_OPEN_REST 0))
    TASK_EYES_OPEN_REST 0 0 1.
Definition blank_result : AuthResult.t := AuthResult.mk 0 F32.zero 0 0.


Definition constant_channel : EEGData.t :=
  EEGData.mk [F32.of_Z 5; F32.of_Z 5] 1 2 (F32.of_Z SAMPLING_RATE) 0 TASK_EYES_CLOSED_REST.
Definition two_channels : EEGData.t :=
  EEGData.mk [F32.of_Z 1; F32.of_Z 3; F32.of_Z 5; F32.of_Z 5] 2 2
             (F32.of_Z SAMPLING_RATE) 0 TASK_MOTOR_IMAGERY.
Definition bytes_of (l : list Z) : list byte := map byte_of_Z l.
Definition accept_any (_ : string) : bool := true.

(** A small template: two features, an 8-byte digest and a 3-byte salt. *)
Definition small_features : FeatureVector.t :=
  FeatureVector.mk [F32.one; F32.of_Z 2] 2 TASK_EYES_OPEN_REST 99.
Definition small_hash : HashData.t :=
  HashData.mk (bytes_of [3; 0; 0; 0; 0; 0; 0; 0; 9; 9]) 10 (bytes_of [5; 6; 7]) 3.
Definition small_template : Template.t :=
  Template.mk (username_bytes (bytes_of [97; 108])) (Some small_hash) (Some small_features)
              TASK_MOTOR_IMAGERY 1000 1001 1.
Definition blank_template : Template.t := Template.mk [] None None 0 0 0 0.
Definition small_record : list byte :=
  concat (template_save_writes small_template small_features small_hash).

(** A template as [template_create] builds it: 40 features, a 32-byte
    digest and a 32-byte salt. *)
Definition enrolled_features : FeatureVector.t :=
  FeatureVector.mk (map (fun i => F32.of_Z (Z.of_nat i)) (seq 1 40)) 40 TASK_EYES_CLOSED_REST 5.
Definition enrolled_hash : HashData.t :=
  HashData.mk
    (bytes_of [227; 176; 196; 66; 152; 252; 28; 20; 154; 251; 244; 200; 153; 111; 185; 36;
               39; 174; 65; 228; 100; 155; 147; 76; 164; 149; 153; 27; 120; 82; 184; 85])
    32
    (bytes_of (map Z.of_nat (seq 1 32)))
    32.
Definition enrolled_template : Template.t :=
  Template.mk (username_bytes (bytes_of [97; 108; 105; 99; 101]))
              (Some enrolled_hash) (Some enrolled_features)
              TASK_EYES_CLOSED_REST 1700000000 1700000000 1.
(** An allocator that serves requests below one terabyte. *)
Definition limited_alloc (n : Z) : bool := n <? 2 ^ 40.
(** What [template_load] returns for the small template's file. *)
Definition small_reloaded_hash : HashData.t :=
  HashData.mk (bytes_of [0; 0; 0; 0; 128; 63; 0; 0; 0; 64]) 10 (bytes_of [3; 0; 0]) 3.

(** ** hashing.c and template.c: comparing digests *)

(** [p[i]] for a pointer [p] into a [uint8_t] array, as an [int]. *)
Definition rdb (p : list byte) (i : nat) : Z := Z_of_byte (nth i p x00).

Definition hash_compare (hash1 hash2 : option HashData.t) : outcome Z :=
  match hash1, hash2 with
  | Some h1, Some h2 =>
      let size := HashData.hash_size h1 in
      if negb (size =? HashData.hash_size h2) then Done 0
      else if (Z.of_nat (length (HashData.hash h1)) <? size)
              || (Z.of_nat (length (HashData.hash h2)) <? size)
      then Undefined
      else
        let result :=
          for_loop (Z.to_nat size)
            (fun i result =>
               Z.lor result (Z.lxor (rdb (HashData.hash h1) i) (rdb (HashData.hash h2) i)))
            0 in
        Done (if result =? 0 then 1 else 0)
  | _, _ => Done 0
  end.

(** [while (xor_result) { distance += xor_result & 1; xor_result >>= 1; }]
    on a [uint8_t]: at most eight rounds. *)
Fixpoint count_set_bits (rounds : nat) (xor_result distance : Z) : Z :=
  match rounds with
  | O => distance
  | S r =>
      if xor_result =? 0 then distance
      else count_set_bits r (Z.shiftr xor_result 1) (distance + Z.land xor_result 1)
  end.

Definition INT_MAX : Z := 2 ^ 31 - 1.

(** The counter is an [int]: its overflow is undefined. *)
Definition calculate_hamming_distance (hash1 hash2 : option HashData.t) : outcome Z :=
  match hash1, hash2 with
  | Some h1, Some h2 =>
      let size := HashData.hash_size h1 in
      if negb (size =? HashData.hash_size h2) then Done (-1)
      else if (Z.of_nat (length (HashData.hash h1)) <? size)
              || (Z.of_nat (length (HashData.hash h2)) <? size)
      then Undefined
      else
        let distance :=
          for_loop (Z.to_nat size)
            (fun i distance =>
               count_set_bits 8
                 (Z.lxor (rdb (HashData.hash h1) i) (rdb (HashData.hash h2) i)) distance)
            0 in
        if INT_MAX <? distance then Undefined else Done distance
  | _, _ => Done (-1)
  end.

Definition digest_a : HashData.t := HashData.mk (bytes_of [1; 2; 3; 255]) 4 (bytes_of [9]) 1.
Definition digest_b : HashData.t := HashData.mk (bytes_of [1; 2; 7; 0]) 4 (bytes_of [8]) 1.

(** ** template.c: paths, existence and deletion *)

(** [snprintf(output, size, "%s/%s%s", TEMPLATE_DIR, username, TEMPLATE_EXTENSION)]
    writes at most [size - 1] characters and a terminator, and nothing when
    [size] is 0. *)
Definition template_get_filepath (username output : option string) (size : Z)
  : Z * option string :=
  match username, output with
  | Some u, Some out =>
      (0, Some (if size =? 0 then out
                else substring 0 (Z.to_nat (size - 1))
                               (TEMPLATE_DIR +:+ "/" +:+ u +:+ TEMPLATE_EXTENSION)))
  | _, _ => (-1, output)
  end.

(** The path that [template_exists] and [template_delete] compute in their
    [char filepath[512]]. *)
Definition default_filepath (username : string) : string :=
  match snd (template_get_filepath (Some username) (Some ""%string) 512) with
  | Some p => p
  | None => ""%string
  end.

(** utils.c: [file_exists], the result of [stat(filepath) == 0]. *)
Definition file_exists (fs : gmap string (list byte)) (filepath : string) : Z :=
  match fs !! filepath with
  | Some _ => 1
  | None => 0
  end.

Definition template_exists (fs : gmap string (list byte)) (username : string) : Z :=
  file_exists fs (default_filepath username).


Definition long_name (tail : string) : string :=
  string_of_list_ascii (replicate 499 "a"%char) +:+ tail.

(** ** hashing.c: [secure_wipe] *)

(** [extra_call] tells whether the build has the second call on the same
    arguments ([SecureZeroMemory] under [_WIN32], [explicit_bzero] under
    [__GLIBC__]).  The loop [while (size--) *p++ = 0;] leaves [size] at
    [SIZE_MAX], and that is the length the second call is given. *)
Definition secure_wipe (extra_call : bool) (ptr : option (list byte)) (size : Z)
  : outcome (option (list byte)) :=
  match ptr with
  | None => Done None
  | Some buf =>
      if size =? 0 then Done (Some buf)
      else if Z.of_nat (length buf) <? size then Undefined
      else
        let wiped := for_loop (Z.to_nat size) (fun i b => <[i := x00]> b) buf in
        let size := wrap64 (0 - 1) in
        if extra_call then
          (if Z.of_nat (length buf) <? size then Undefined
           else Done (Some (for_loop (Z.to_nat size) (fun i b => <[i := x00]> b) wiped)))
        else Done (Some wiped)
  end.

(** ** Reference definitions for the band-power layout *)

(** A value with a clear sign bit, or a NaN: such a value is never below
    zero. *)
Definition nonneg_or_nan (x : f32) : Prop :=
  match x with
  | S754_zero s | S754_infinity s | S754_finite s _ _ => s = false
  | S754_nan => True
  end.

(** The five bands in the order in which [extract_band_power] emits them. *)
Definition bands : list (f64 * f64) :=
  [(DELTA_LOW, DELTA_HIGH); (THETA_LOW, THETA_HIGH); (ALPHA_LOW, ALPHA_HIGH);
   (BETA_LOW, BETA_HIGH); (GAMMA_LOW, GAMMA_HIGH)].

(** The magnitude spectrum of the first 256 samples at [channel_data]. *)
Definition spectrum (cosf sinf : f32 -> f32) (channel_data : list f32) : list f32 :=
  snd (compute_fft cosf sinf channel_data (replicate (Z.to_nat (WINDOW_SIZE / 2)) F32.zero)
                   WINDOW_SIZE).

(** The power of band [b] of channel [ch]. *)
Definition band_value (cosf sinf : f32 -> f32) (d : EEGData.t) (ch b : nat) : outcome f32 :=
  match bands !! b with
  | Some (low, high) =>
      band_power
        (spectrum cosf sinf (drop (ch * Z.to_nat (EEGData.num_samples d))%nat (EEGData.data d)))
        (WINDOW_SIZE / 2)
        (F32.div (EEGData.sampling_rate d) (F32.of_Z WINDOW_SIZE)) low high
  | None => Undefined
  end.

Definition long_trial : EEGData.t :=
  EEGData.mk (replicate 256 F32.one) 1 256 (F32.of_Z SAMPLING_RATE) 0 TASK_EYES_OPEN_REST.

(** ** Reference definitions for the stored record *)

(** The members of a template hold values of their C types. *)
Definition storable (t : Template.t) (fv : FeatureVector.t) : Prop :=
  length (Template.username t) = 64%nat /\
  0 <= Template.version t < 2 ^ 32 /\
  - 2 ^ 31 <= Template.task_type t < 2 ^ 31 /\
  - 2 ^ 63 <= Template.created_at t < 2 ^ 63 /\
  - 2 ^ 63 <= Template.last_used t < 2 ^ 63 /\
  FeatureVector.wf fv /\
  Forall (fun x => F32.valid x = true) (FeatureVector.features fv).

(** ** capture.c: the device *)

Inductive DeviceStatus : Type :=
  | DEVICE_DISCONNECTED
  | DEVICE_CONNECTED
  | DEVICE_STREAMING
  | DEVICE_ERROR.

Definition status_eqb (a b : DeviceStatus) : bool :=
  match a, b with
  | DEVICE_DISCONNECTED, DEVICE_DISCONNECTED
  | DEVICE_CONNECTED, DEVICE_CONNECTED
  | DEVICE_STREAMING, DEVICE_STREAMING
  | DEVICE_ERROR, DEVICE_ERROR => true
  | _, _ => false
  end.

(** The two file-scope variables of capture.c. *)
Module Device.
Record t : Type := mk {
  device_status : DeviceStatus;
  device_name : list byte            (* char[256] *)
}.
End Device.

(** Their static initialisers. *)
Definition device_initial : Device.t := Device.mk DEVICE_DISCONNECTED (replicate 256 x00).

(** [strncpy(dst, src, n)], where [src] lists the characters of the source
    string before its terminator: [n] bytes are written, the characters and
    then zeros; the terminator is not written when the string has [n]
    characters or more. *)
Definition strncpy (dst src : list byte) (n : nat) : list byte :=
  take n (src ++ replicate n x00) ++ drop n dst.

Definition capture_init (s : Device.t) : Z * Device.t :=
  (0, Device.mk DEVICE_DISCONNECTED (Device.device_name s)).

Definition capture_connect (dev_name : option (list byte)) (s : Device.t) : Z * Device.t :=
  match dev_name with
  | None => (-1, s)
  | Some name => (0, Device.mk DEVICE_CONNECTED (strncpy (Device.device_name s) name 255))
  end.

Definition capture_get_status (s : Device.t) : DeviceStatus := Device.device_status s.

Definition capture_start_streaming (s : Device.t) : Z * Device.t :=
  if negb (status_eqb (Device.device_status s) DEVICE_CONNECTED) then (-1, s)
  else (0, Device.mk DEVICE_STREAMING (Device.device_name s)).

Definition capture_stop_streaming (s : Device.t) : Z * Device.t :=
  if negb (status_eqb (Device.device_status s) DEVICE_STREAMING) then (-1, s)
  else (0, Device.mk DEVICE_CONNECTED (Device.device_name s)).

Definition capture_disconnect (s : Device.t) : Z * Device.t :=
  let s :=
    if status_eqb (Device.device_status s) DEVICE_STREAMING
    then snd (capture_stop_streaming s) else s in
  (0, Device.mk DEVICE_DISCONNECTED (replicate 256 x00)).

Definition capture_cleanup (s : Device.t) : Device.t :=
  if negb (status_eqb (Device.device_status s) DEVICE_DISCONNECTED)
  then snd (capture_disconnect s) else s.

(** A call of the device interface, and a sequence of such calls. *)
Inductive capture_call : Type :=
  | CallInit
  | CallConnect (dev_name : option (list byte))
  | CallStartStreaming
  | CallStopStreaming
  | CallDisconnect
  | CallCleanup.

Definition capture_do (s : Device.t) (c : capture_call) : Device.t :=
  match c with
  | CallInit => snd (capture_init s)
  | CallConnect dev_name => snd (capture_connect dev_name s)
  | CallStartStreaming => snd (capture_start_streaming s)
  | CallStopStreaming => snd (capture_stop_streaming s)
  | CallDisconnect => snd (capture_disconnect s)
  | CallCleanup => capture_cleanup s
  end.

Definition capture_run (calls : list capture_call) (s : Device.t) : Device.t :=
  fold_left capture_do calls s.

(** The cast [(int)x]: the fractional part is discarded; the cast is
    undefined when the integral part is not an [int] value. *)
Definition float_to_int (x : f32) : option Z :=
  match x with
  | S754_zero _ => Some 0
  | S754_finite s m e =>
      let t := if 0 <=? e then Zpos m * 2 ^ e else Zpos m / 2 ^ (- e) in
      let v := if s then - t else t in
      if (- 2 ^ 31 <=? v) && (v <? 2 ^ 31) then Some v else None
  | _ => None
  end.

(** utils.c: [display_progress].  What it prints is left out; its two casts
    to [int] are not. *)
Definition display_progress (current total : Z) : outcome unit :=
  let bar_width := 40 in
  let progress := F32.div (F32.of_Z current) (F32.of_Z total) in
  pos <- of_cast (float_to_int (F32.mul (F32.of_Z bar_width) progress)) ;;;
  percent <- of_cast (float_to_int (F32.mul progress (F32.of_Z 100))) ;;;
  Done tt.

Section Capture.

Variable alloc_ok : Z -> bool.
(** The C library's [RAND_MAX], and the values [rand()] returns: [rand i] is
    the value of the call number [i] made by the function. *)
Variable RAND_MAX : Z.
Variable rand : nat -> Z.

(** [((float)rand() / RAND_MAX - 0.5f) * 100.0f] *)
Definition simulated_sample (r : Z) : f32 :=
  F32.mul (F32.sub (F32.div (F32.of_Z r) (F32.of_Z RAND_MAX)) (F32.lit 5 10)) (F32.of_Z 100).

(** The loop [for (int i = 0; i <= (int)duration; i++)] around
    [display_progress]; it cannot end when the bound is [INT_MAX]. *)
Definition progress_loop (d : Z) : outcome unit :=
  if d =? INT_MAX then Undefined
  else for_loop (Z.to_nat (d + 1))
         (fun i acc => _ <- acc ;;; display_progress (Z.of_nat i) d) (Done tt).

Definition capture_record (s : Device.t) (duration : f32) (task : MentalTask)
           (output : option EEGData.t) (now_ms : Z) : outcome (Z * option EEGData.t) :=
  match output with
  | None => Done (-1, None)
  | Some out =>
      if negb (status_eqb (Device.device_status s) DEVICE_STREAMING) then Done (-1, Some out)
      else
        num_samples <- of_cast (F64.to_size_t (F32.mul duration (F32.of_Z SAMPLING_RATE))) ;;;
        let num_channels := NUM_CHANNELS in
        match eeg_data_alloc alloc_ok num_channels num_samples with
        | None => Done (-1, Some out)
        | Some data =>
            let buf :=
              for_loop (Z.to_nat (wrap64 (num_channels * num_samples)))
                (fun i b => <[i := simulated_sample (rand i)]> b) (EEGData.data data) in
            d <- of_cast (float_to_int duration) ;;;
            _ <- progress_loop d ;;;
            Done (0, Some (EEGData.mk buf num_channels num_samples (F32.of_Z SAMPLING_RATE)
                                      now_ms task))
        end
  end.

End Capture.

Definition streaming_device : Device.t := Device.mk DEVICE_STREAMING (replicate 256 x00).
Definition blank_trial : EEGData.t := EEGData.mk [] 0 0 F32.zero 0 0.
Definition five_seconds : f32 := F32.of_Z 5.

(** The three float computations that [capture_record] makes on a duration
    of [n] whole seconds give what exact arithmetic gives: [256 n] samples,
    the bound [n] of the progress loop, and a progress display whose casts
    are all defined. *)
Definition whole_seconds_exact (n : nat) : bool :=
  let duration := F32.of_Z (Z.of_nat n) in
  match F64.to_size_t (F32.mul duration (F32.of_Z SAMPLING_RATE)), float_to_int duration with
  | Some ns, Some d =>
      (ns =? SAMPLING_RATE * Z.of_nat n) && (d =? Z.of_nat n)
      && match progress_loop d with Done _ => true | Undefined => false end
  | _, _ => false
  end.

(** ** Releasing storage (capture.c, feature_extraction.c, hashing.c) *)

Section Release.

(** Whether [secure_wipe] is built with its second call. *)
Variable extra_call : bool.

(** Each function returns the content of the buffers at the time they are
    handed to [free]. *)
Definition eeg_data_free (data : option EEGData.t) : outcome (option (list byte)) :=
  match data with
  | None => Done None
  | Some d =>
      secure_wipe extra_call (Some (floats_bytes (EEGData.data d)))
                  (wrap64 (EEGData.num_channels d * EEGData.num_samples d * 4))
  end.

Definition feature_vector_free (vector : option FeatureVector.t)
  : outcome (option (list byte)) :=
  match vector with
  | None => Done None
  | Some v =>
      secure_wipe extra_call (Some (floats_bytes (FeatureVector.features v)))
                  (wrap64 (FeatureVector.size v * 4))
  end.

Definition hash_data_free (data : option HashData.t)
  : outcome (option (list byte) * option (list byte)) :=
  match data with
  | None => Done (None, None)
  | Some h =>
      hash <- secure_wipe extra_call (Some (HashData.hash h)) (HashData.hash_size h) ;;;
      salt <- secure_wipe extra_call (Some (HashData.salt h)) (HashData.salt_size h) ;;;
      Done (hash, salt)
  end.

(** [extract_features] followed by the release of its working copy, the
    last step of the C function, which the definition of [extract_features]
    above leaves out.  The working copy has the dimensions of the input. *)
Definition extract_features_with_release
           (alloc_ok : Z -> bool) (cosf sinf : f32 -> f32)
           (data : option EEGData.t) (output : option FeatureVector.t) (now_ms : Z)
  : outcome (Z * option FeatureVector.t) :=
  r <- extract_features alloc_ok cosf sinf data output now_ms ;;;
  match data, output with
  | Some d, Some _ =>
      match eeg_data_alloc alloc_ok (EEGData.num_channels d) (EEGData.num_samples d) with
      | None => Done r
      | Some fd =>
          _ <- eeg_data_free
                 (Some (EEGData.mk (EEGData.data fd) (EEGData.num_channels d)
                                   (EEGData.num_samples d) (EEGData.sampling_rate d)
                                   (EEGData.timestamp fd) (EEGData.task_type fd))) ;;;
          Done r
      end
  | _, _ => Done r
  end.

End Release.

(** ** hashing.c: [hash_to_hex] *)

(** The digit that [sprintf("%x")] prints for a value below 16. *)
Definition hex_digit (n : Z) : byte :=
  nth (Z.to_nat n)
      [x30; x31; x32; x33; x34; x35; x36; x37; x38; x39; x61; x62; x63; x64; x65; x66] x00.

(** [sprintf(output + i * 2, "%02x", hash->hash[i])] writes two digits and
    a terminator. *)
Definition hash_to_hex (hash : option HashData.t) (output : option (list byte))
  : outcome (Z * option (list byte)) :=
  match hash, output with
  | Some h, Some out =>
      let n := HashData.hash_size h in
      if Z.of_nat (length (HashData.hash h)) <? n then Undefined
      else if Z.of_nat (length out) <? 2 * n + 1 then Undefined
      else
        let out :=
          for_loop (Z.to_nat n)
            (fun i o =>
               let b := rdb (HashData.hash h) i in
               <[(2 * i + 2)%nat := x00]>
                 (<[(2 * i + 1)%nat := hex_digit (b mod 16)]>
                    (<[(2 * i)%nat := hex_digit (b / 16)]> o)))
            out in
        Done (0, Some (<[Z.to_nat (2 * n) := x00]> out))
  | _, _ => Done (-1, output)
  end.

(** Reference: the hexadecimal text of a byte string, and its reading. *)
Definition hex_of_bytes (l : list byte) : list byte :=
  flat_map (fun b => [hex_digit (Z_of_byte b / 16); hex_digit (Z_of_byte b mod 16)]) l.

Definition hex_value (c : byte) : Z :=
  let v := Z_of_byte c in
  if v <? 58 then v - 48 else v - 87.

Fixpoint bytes_of_hex (l : list byte) : list byte :=
  match l with
  | hi :: lo :: rest => byte_of_Z (16 * hex_value hi + hex_value lo) :: bytes_of_hex rest
  | _ => []
  end.

(** ** utils.c: whole-file input and output *)

Section Files.

Variable alloc_ok : Z -> bool.
Variable fopen_w_ok : string -> bool.



End Files.

(** ** utils.c: [get_timestamp_ms], from the fields of the [timespec] *)

Definition get_timestamp_ms (tv_sec tv_nsec : Z) : Z :=
  wrap64 (wrap64 (wrap64 tv_sec * 1000) + wrap64 tv_nsec / 1000000).

Definition small_vector : FeatureVector.t :=
  FeatureVector.mk [F32.one; F32.minus_one] 2 TASK_EYES_OPEN_REST 0.

(** ** hashing.c: salt and digest *)

(** What [/dev/urandom] does during a call of [generate_salt] (the branch
    for systems other than Windows). *)
Inductive urandom : Type :=
  | UrandomUnavailable                  (* [open] fails *)
  | UrandomError                        (* [read] returns -1 *)
  | UrandomBytes (bytes : list byte).   (* [read] delivers these bytes, at most
                                           as many as it is asked for *)

Definition generate_salt (dev : urandom) (salt : option (list byte)) (salt_size : Z)
  : outcome (Z * option (list byte)) :=
  match salt with
  | None => Done (-1, None)
  | Some buf =>
      if salt_size =? 0 then Done (-1, Some buf)
      else
        match dev with
        | UrandomUnavailable => Done (-1, Some buf)
        | UrandomError =>
            Done (if -1 =? to_signed 64 salt_size then 0 else -1, Some buf)
        | UrandomBytes bytes =>
            let got := take (Z.to_nat salt_size) bytes in
            if (length buf <? length got)%nat then Undefined
            else
              Done (if Z.of_nat (length got) =? to_signed 64 salt_size then 0 else -1,
                    Some (got ++ drop (length got) buf))
        end
  end.

(** The [salt] argument of the hashing functions: a buffer of its own, or
    the [salt] member of the [output] argument, which is what
    [template_create] passes. *)
Inductive salt_arg : Type :=
  | SaltBuffer (bytes : list byte)
  | SaltOfOutput.

Section Hashing.

(** OpenSSL's SHA-256 of a message given in two updates, and whether its
    context can be created and initialised. *)
Variable sha256 : list byte -> list byte.
Variable evp_ok : bool.
(** Whether [memcpy] with the same source and destination, undefined in
    ISO C, is a copy that changes nothing on the platform. *)
Variable memcpy_same_ok : bool.

Definition hash_features_sha256 (features : option FeatureVector.t) (salt : option salt_arg)
           (salt_size : Z) (output : option HashData.t) : outcome (Z * option HashData.t) :=
  match features, salt, output with
  | Some fv, Some sa, Some out =>
      if negb evp_ok then Done (-1, Some out)
      else
        let message := floats_bytes (FeatureVector.features fv) in
        let count := wrap64 (FeatureVector.size fv * 4) in
        let salt_bytes :=
          match sa with
          | SaltBuffer bytes => bytes
          | SaltOfOutput => HashData.salt out
          end in
        if (Z.of_nat (length message) <? count) || (Z.of_nat (length salt_bytes) <? salt_size)
        then Undefined
        else
          let digest :=
            sha256 (take (Z.to_nat count) message ++ take (Z.to_nat salt_size) salt_bytes) in
          if (length (HashData.hash out) <? length digest)%nat then Undefined
          else
            let hash := digest ++ drop (length digest) (HashData.hash out) in
            let hash_size := Z.of_nat (length digest) in
            match sa with
            | SaltBuffer bytes =>
                if Z.of_nat (length (HashData.salt out)) <? salt_size then Undefined
                else
                  Done (0, Some (HashData.mk hash hash_size
                                   (take (Z.to_nat salt_size) bytes
                                    ++ drop (Z.to_nat salt_size) (HashData.salt out))
                                   salt_size))
            | SaltOfOutput =>
                if (0 <? salt_size) && negb memcpy_same_ok then Undefined
                else Done (0, Some (HashData.mk hash hash_size (HashData.salt out) salt_size))
            end
  | _, _, _ => Done (-1, output)
  end.

Definition hash_features_blake3 (features : option FeatureVector.t) (salt : option salt_arg)
           (salt_size : Z) (output : option HashData.t) : outcome (Z * option HashData.t) :=
  Done (-1, output).

(** [USE_SHA256] is 1. *)
Definition hash_features (features : option FeatureVector.t) (salt : option salt_arg)
           (salt_size : Z) (output : option HashData.t) : outcome (Z * option HashData.t) :=
  hash_features_sha256 features salt salt_size output.

End Hashing.

(** ** template.c: [template_create] *)

(** A vector and a digest after [feature_vector_free] and [hash_data_free]
    when the pointer to them is left in place: wiped (and released). *)
Definition released_vector (v : FeatureVector.t) : FeatureVector.t :=
  FeatureVector.mk (replicate (length (FeatureVector.features v)) F32.zero)
                   (FeatureVector.size v) (FeatureVector.task_type v)
                   (FeatureVector.timestamp v).

Definition released_hash (h : HashData.t) : HashData.t :=
  HashData.mk (replicate (length (HashData.hash h)) x00) (HashData.hash_size h)
              (replicate (length (HashData.salt h)) x00) (HashData.salt_size h).

Section Enrolment.

Variable alloc_ok : Z -> bool.
Variables cosf sinf : f32 -> f32.
Variable sha256 : list byte -> list byte.
Variable evp_ok : bool.
Variable memcpy_same_ok : bool.

(** The loop over the trials; [None] when it leaves the function with -1.
    [clock k] is the reading of the clock during call number [k] of the
    functions that read it. *)
Fixpoint extract_trials (clock : nat -> Z) (i : nat) (trials : list (option EEGData.t))
  : outcome (option (list FeatureVector.t)) :=
  match trials with
  | [] => Done (Some [])
  | trial :: rest =>
      match feature_vector_alloc alloc_ok FEATURE_VECTOR_SIZE with
      | None => Done None
      | Some vector =>
          r <- extract_features alloc_ok cosf sinf trial (Some vector) (clock i) ;;;
          match snd r with
          | Some vector =>
              if negb (fst r =? 0) then Done None
              else
                vectors <- extract_trials clock (S i) rest ;;;
                Done (option_map (cons vector) vectors)
          | None => Done None
          end
      end
  end.

(** [trials] and [num_trials] are the list and its length; [now_s] is the
    reading of [time(NULL)]. *)
Definition template_create (username : option (list byte))
           (trials : option (list (option EEGData.t))) (task : MentalTask)
           (output : option Template.t) (dev : urandom) (clock : nat -> Z) (now_s : Z)
  : outcome (Z * option Template.t) :=
  match username, trials, output with
  | Some name, Some trials, Some out =>
      let num_trials := Z.of_nat (length trials) in
      let with_members features hash :=
        Template.mk (Template.username out) hash features (Template.task_type out)
                    (Template.created_at out) (Template.last_used out)
                    (Template.version out) in
      if num_trials =? 0 then Done (-1, Some out)
      else if negb (alloc_ok (wrap64 (num_trials * 8))) then Done (-1, Some out)
      else
        vectors <- extract_trials clock 0 trials ;;;
        match vectors with
        | None => Done (-1, Some out)
        | Some vectors =>
            match feature_vector_alloc alloc_ok FEATURE_VECTOR_SIZE with
            | None => Done (-1, Some (with_members None (Template.hash out)))
            | Some average =>
                r <- average_feature_vectors (Some vectors) (Some average)
                       (clock (length trials)) ;;;
                match snd r with
                | None => Done (-1, Some (with_members None (Template.hash out)))
                | Some average =>
                    if negb (fst r =? 0)
                    then Done (-1, Some (with_members (Some (released_vector average))
                                                      (Template.hash out)))
                    else
                      match hash_data_alloc alloc_ok HASH_OUTPUT_SIZE SALT_LENGTH with
                      | None =>
                          Done (-1, Some (with_members (Some (released_vector average)) None))
                      | Some hd =>
                          g <- generate_salt dev (Some (HashData.salt hd)) SALT_LENGTH ;;;
                          let hd :=
                            HashData.mk (HashData.hash hd) (HashData.hash_size hd)
                                        (default (HashData.salt hd) (snd g))
                                        (HashData.salt_size hd) in
                          if negb (fst g =? 0)
                          then Done (-1, Some (with_members (Some (released_vector average))
                                                            (Some (released_hash hd))))
                          else
                            h <- hash_features sha256 evp_ok memcpy_same_ok (Some average)
                                   (Some SaltOfOutput) SALT_LENGTH (Some hd) ;;;
                            let hd := default hd (snd h) in
                            if negb (fst h =? 0)
                            then Done (-1, Some (with_members
                                                   (Some (released_vector average))
                                                   (Some (released_hash hd))))
                            else
                              Done (0, Some (Template.mk
                                               (<[63%nat := x00]>
                                                  (strncpy (Template.username out) name 63))
                                               (Some hd) (Some average) task now_s now_s 1))
                      end
                end
            end
        end
  | _, _, _ => Done (-1, output)
  end.

End Enrolment.

(** The conditions under which the band loop is defined on a recording and
    an output of 40 slots. *)
Definition extractable (d : EEGData.t) : Prop :=
  EEGData.wf d /\
  (EEGData.num_samples d < WINDOW_SIZE \/
   (band_edges_defined (EEGData.sampling_rate d) = true /\
    5 * EEGData.num_channels d <= FEATURE_VECTOR_SIZE)).

Definition fake_digest (message : list byte) : list byte :=
  replicate 32 (nth 0 message x00).

(** ** main.c: [cmd_delete], and utils.c: [get_user_input] *)






(** ** main.c: enrolment and authentication from the command line *)

Definition CAPTURE_DURATION : Z := 5.
Definition NUM_ENROLMENT_TRIALS : Z := 3.
Definition sizeof_Template : Z := 112.

(** template.c: [template_alloc], a zeroed [Template]. *)
Definition template_alloc (alloc_ok : Z -> bool) : option Template.t :=
  if negb (calloc_ok alloc_ok 1 sizeof_Template) then None
  else Some (Template.mk (replicate 64 x00) None None 0 0 0 0).

(** [template_free] on a template that came from [template_alloc] and was
    then handed to a call of [template_create] or [template_load] that
    failed.  Both functions release what they have allocated before they
    return -1 but leave the pointers in the template, so a member that is
    not NULL points to released storage, and [template_free] reads and
    releases it a second time. *)
Definition template_free_after_failure (template : option Template.t) : outcome unit :=
  match template with
  | None => Done tt
  | Some t =>
      match Template.features t, Template.hash t with
      | None, None => Done tt
      | _, _ => Undefined
      end
  end.

Section Commands.

Variable alloc_ok : Z -> bool.
Variables cosf sinf : f32 -> f32.
Variable sha256 : list byte -> list byte.
Variable evp_ok : bool.
Variable memcpy_same_ok : bool.
Variable RAND_MAX : Z.
Variable create_directory_ok : bool.
Variable fopen_w_ok : string -> bool.
(** [rand k] is the value of the call number [k] of [rand()], [clock k] the
    reading number [k] of [get_timestamp_ms()], both counted from the start
    of the command. *)
Variable rand : nat -> Z.
Variable clock : nat -> Z.

(** The number of [rand()] calls of one [capture_record] of
    [CAPTURE_DURATION] seconds. *)
Definition samples_per_trial : nat :=
  Z.to_nat (NUM_CHANNELS * (SAMPLING_RATE * CAPTURE_DURATION)).

(** The capture loop of [cmd_enroll], from trial [i] on; [None] when it
    leaves the command with -1. *)
Fixpoint capture_trials (s : Device.t) (task : MentalTask) (i count : nat)
  : outcome (option (list EEGData.t)) :=
  match count with
  | O => Done (Some [])
  | S count =>
      match eeg_data_alloc alloc_ok NUM_CHANNELS (SAMPLING_RATE * CAPTURE_DURATION) with
      | None => Done None
      | Some slot =>
          r <- capture_record alloc_ok RAND_MAX
                 (fun j => rand (i * samples_per_trial + j)%nat) s
                 (F32.of_Z CAPTURE_DURATION) task (Some slot) (clock i) ;;;
          match snd r with
          | Some trial =>
              if negb (fst r =? 0) then Done None
              else
                rest <- capture_trials s task (S i) count ;;;
                Done (option_map (cons trial) rest)
          | None => Done None
          end
      end
  end.

(** The result lists the exit code, the files and the device. *)
Definition cmd_enroll (fs : gmap string (list byte)) (s : Device.t) (username : string)
           (device_name : option (list byte)) (task : MentalTask)
           (dev : urandom) (now_s : Z)
  : outcome (Z * gmap string (list byte) * Device.t) :=
  if negb (template_exists fs username =? 0) then Done (-1, fs, s)
  else
    let i := capture_init s in
    if negb (fst i =? 0) then Done (-1, fs, snd i)
    else
      let c := capture_connect device_name (snd i) in
      if negb (fst c =? 0) then Done (-1, fs, capture_cleanup (snd c))
      else
        let st := capture_start_streaming (snd c) in
        if negb (fst st =? 0) then Done (-1, fs, capture_cleanup (snd st))
        else
          let s := snd st in
          if negb (alloc_ok (NUM_ENROLMENT_TRIALS * 8)) then Done (-1, fs, capture_cleanup s)
          else
            trials <- capture_trials s task 0 (Z.to_nat NUM_ENROLMENT_TRIALS) ;;;
            match trials with
            | None => Done (-1, fs, capture_cleanup s)
            | Some trials =>
                match template_alloc alloc_ok with
                | None => Done (-1, fs, capture_cleanup s)
                | Some template =>
                    r <- template_create alloc_ok cosf sinf sha256 evp_ok memcpy_same_ok
                           (Some (list_byte_of_string username)) (Some (map Some trials))
                           task (Some template) dev
                           (fun k => clock (Z.to_nat NUM_ENROLMENT_TRIALS + k)%nat) now_s ;;;
                    if negb (fst r =? 0) then
                      _ <- template_free_after_failure (snd r) ;;;
                      Done (-1, fs, capture_cleanup s)
                    else
                      let filepath := default_filepath username in
                      w <- template_save create_directory_ok fopen_w_ok fs (snd r)
                             (Some filepath) ;;;
                      Done (if fst w =? 0 then 0 else -1, snd w, capture_cleanup s)
                end
            end.

(** [garbage] holds the indeterminate initial values of the locals of
    [template_load]. *)
Definition cmd_authenticate (fs : gmap string (list byte)) (s : Device.t) (username : string)
           (device_name : option (list byte)) (task : MentalTask)
           (garbage : Z * Z * Z) (now_s : Z)
  : outcome (Z * Device.t) :=
  if template_exists fs username =? 0 then Done (-1, s)
  else
    match template_alloc alloc_ok with
    | None => Done (-1, s)
    | Some template =>
        let filepath := default_filepath username in
        let l := template_load alloc_ok fs (Some filepath) (Some template) garbage in
        if negb (fst l =? 0) then
          _ <- template_free_after_failure (snd l) ;;;
          Done (-1, s)
        else
          match snd l with
          | None => Done (-1, s)
          | Some template =>
              let i := capture_init s in
              if negb (fst i =? 0) then Done (-1, snd i)
              else
                let c := capture_connect device_name (snd i) in
                if negb (fst c =? 0) then Done (-1, capture_cleanup (snd c))
                else
                  let st := capture_start_streaming (snd c) in
                  if negb (fst st =? 0) then Done (-1, capture_cleanup (snd st))
                  else
                    let s := snd st in
                    match eeg_data_alloc alloc_ok NUM_CHANNELS
                                         (SAMPLING_RATE * CAPTURE_DURATION) with
                    | None => Done (-1, capture_cleanup s)
                    | Some slot =>
                        r <- capture_record alloc_ok RAND_MAX rand s
                               (F32.of_Z CAPTURE_DURATION) (Template.task_type template)
                               (Some slot) (clock 0) ;;;
                        if negb (fst r =? 0) then Done (-1, capture_cleanup s)
                        else
                          a <- template_authenticate alloc_ok cosf sinf (snd r)
                                 (Some template) (Some blank_result) (clock 1) now_s ;;;
                          if negb (fst a =? 0) then Done (-1, capture_cleanup s)
                          else
                            match snd a with
                            | Some result =>
                                Done (if AuthResult.authenticated result =? 0 then -1 else 0,
                                      capture_cleanup s)
                            | None => Done (-1, capture_cleanup s)
                            end
                    end
          end
    end.

End Commands.
(** * Properties *)

(** ** Loops *)

Lemma for_range_seq {St : Type} (body : nat -> St -> St) (count start : nat) (s : St) :
  for_range start count body s = fold_left (fun acc i => body i acc) (seq start count) s.
Proof.
  revert start s. induction count as [|c IH]; intros start s; simpl; [reflexivity|].
  apply IH.
Qed.

Lemma for_range_snoc {St : Type} (body : nat -> St -> St) (count start : nat) (s : St) :
  for_range start (S count) body s = body (start + count)%nat (for_range start count body s).
Proof.
  rewrite !for_range_seq, seq_S, fold_left_app. reflexivity.
Qed.

Lemma for_range_ext {St : Type} (f g : nat -> St -> St) (count start : nat) (s : St) :
  (forall i x, (start <= i < start + count)%nat -> f i x = g i x) ->
  for_range start count f s = for_range start count g s.
Proof.
  revert start s. induction count as [|c IH]; intros start s H; simpl; [reflexivity|].
  rewrite H by lia. apply IH. intros i x Hi. apply H. lia.
Qed.

Lemma for_range_invariant {St : Type} (P : nat -> St -> Prop) (body : nat -> St -> St)
      (count start : nat) (s : St) :
  P start s ->
  (forall i x, (start <= i < start + count)%nat -> P i x -> P (S i) (body i x)) ->
  P (start + count)%nat (for_range start count body s).
Proof.
  revert start s. induction count as [|c IH]; intros start s H0 Hstep; simpl.
  - replace (start + 0)%nat with start by lia. exact H0.
  - replace (start + S c)%nat with (S start + c)%nat by lia.
    apply IH.
    + apply Hstep; [lia|exact H0].
    + intros i x Hi. apply Hstep. lia.
Qed.

Lemma for_loop_invariant {St : Type} (P : nat -> St -> Prop) (body : nat -> St -> St)
      (count : nat) (s : St) :
  P 0%nat s ->
  (forall i x, (i < count)%nat -> P i x -> P (S i) (body i x)) ->
  P count (for_loop count body s).
Proof.
  intros H0 Hstep. unfold for_loop.
  apply (for_range_invariant P body count 0 s H0).
  intros i x Hi. apply Hstep. lia.
Qed.

Lemma map_nth_seq (l : list f32) (n : nat) :
  (n <= length l)%nat -> map (rd l) (seq 0 n) = take n l.
Proof.
  induction n as [|n IH]; intros Hn; [reflexivity|].
  rewrite seq_S, map_app, IH by lia. simpl.
  destruct (lookup_lt_is_Some_2 l n) as [x Hx]; [lia|].
  rewrite (take_S_r l n x Hx). f_equal. f_equal.
  unfold rd. apply nth_lookup_Some with (d := F32.zero) in Hx. exact Hx.
Qed.

Lemma sum_loop_map (g : nat -> f32) (n : nat) :
  for_loop n (fun i s => F32.add s (g i)) F32.zero = fsum (map g (seq 0 n)).
Proof.
  unfold for_loop, fsum. rewrite for_range_seq.
  generalize F32.zero. generalize (seq 0 n).
  induction l as [|i l IH]; intros z; simpl; [reflexivity|apply IH].
Qed.

Lemma sum_loop_fsum (l : list f32) (n : nat) :
  (n <= length l)%nat ->
  for_loop n (fun i s => F32.add s (rd l i)) F32.zero = fsum (take n l).
Proof.
  intros Hn. rewrite (sum_loop_map (rd l)), map_nth_seq by exact Hn. reflexivity.
Qed.




(** ** Floating-point comparison and clamping *)

Lemma SFcompare_antisym (x y : spec_float) :
  SFcompare y x = option_map CompOpp (SFcompare x y).
Proof.
  destruct x as [sx|sx| |sx mx ex], y as [sy|sy| |sy my ey]; simpl;
    try reflexivity; try (destruct sx; reflexivity); try (destruct sy; reflexivity);
    try (destruct sx, sy; reflexivity).
  destruct sx, sy; simpl; try reflexivity;
    rewrite (Z.compare_antisym ex ey); destruct (ex ?= ey) eqn:E; simpl; try reflexivity;
    rewrite !Pos.compare_cont_spec, (Pos.compare_antisym mx my);
    destruct (mx ?= my)%positive; reflexivity.
Qed.


Lemma flt_not_fge (x y : spec_float) : flt x y = true -> fge x y = false.
Proof.
  unfold fge, flt, SFleb, SFltb. rewrite (SFcompare_antisym x y).
  destruct (SFcompare x y) as [[]|]; simpl; congruence.
Qed.





(** ** Similarity matching *)







(** ** Determinism of feature extraction *)


Lemma extract_features_unfold
      (alloc_ok : Z -> bool) (cosf sinf : f32 -> f32)
      (d : EEGData.t) (out : FeatureVector.t) (now_ms : Z) (fd : EEGData.t) :
  eeg_data_alloc alloc_ok (EEGData.num_channels d) (EEGData.num_samples d) = Some fd ->
  let count := Z.to_nat (wrap64 (EEGData.num_channels d * EEGData.num_samples d * 4) / 4) in
  (length (EEGData.data d) <? count)%nat = false ->
  extract_features alloc_ok cosf sinf (Some d) (Some out) now_ms
  = (s4 <- normalize_signal
             (Some (EEGData.mk (take count (EEGData.data d) ++ drop count (EEGData.data fd))
                               (EEGData.num_channels d) (EEGData.num_samples d)
                               (EEGData.sampling_rate d)
                               (EEGData.timestamp fd) (EEGData.task_type fd))) ;;;
     r <- extract_band_power alloc_ok cosf sinf (snd s4) (Some out) ;;;
     Done (fst r,
           option_map
             (fun o => FeatureVector.mk (FeatureVector.features o) (FeatureVector.size o)
                                        (EEGData.task_type d) now_ms)
             (snd r))).
Proof.
  intros Hfd count Hlen. unfold extract_features. rewrite Hfd. fold count. rewrite Hlen.
  reflexivity.
Qed.


(** ** Band power over short recordings *)

Lemma band_power_channel_short (cosf sinf : f32 -> f32) (d : EEGData.t) (fft_size : Z)
      (ch : nat) (st : bp_state) :
  EEGData.num_samples d < WINDOW_SIZE ->
  band_power_channel cosf sinf d fft_size ch st = Done st.
Proof.
  intros Hns. unfold band_power_channel.
  replace (WINDOW_SIZE <=? EEGData.num_samples d) with false; [reflexivity|].
  symmetry. apply Z.leb_gt. exact Hns.
Qed.

Lemma extract_band_power_short_unchanged
      (alloc_ok : Z -> bool) (cosf sinf : f32 -> f32)
      (d : EEGData.t) (out : FeatureVector.t) :
  EEGData.num_samples d < WINDOW_SIZE ->
  alloc_ok (WINDOW_SIZE / 2 * 4) = true ->
  extract_band_power alloc_ok cosf sinf (Some d) (Some out) = Done (0, Some out).
Proof.
  intros Hns Hal. unfold extract_band_power. rewrite Hal. simpl negb. cbv iota.
  set (st0 := mk_bp 0 (FeatureVector.features out) _).
  assert (for_loop (Z.to_nat (EEGData.num_channels d))
            (fun ch acc => st <- acc ;;; band_power_channel cosf sinf d (WINDOW_SIZE / 2) ch st)
            (Done st0) = Done st0) as ->.
  { apply (for_loop_invariant (fun _ x => x = Done st0)); [reflexivity|].
    intros i x _ ->. simpl. apply band_power_channel_short. exact Hns. }
  simpl. destruct out; reflexivity.
Qed.



(** ** The pipeline *)

Lemma put_band_done (fft_size : Z) (res : f32) (low high : f64) (st : bp_state) :
  F64.to_size_t (F64.div low (F64.of_f32 res)) <> None ->
  F64.to_size_t (F64.div high (F64.of_f32 res)) <> None ->
  (feature_idx st < length (out_features st))%nat ->
  exists st', put_band fft_size res low high st = Done st' /\
              feature_idx st' = S (feature_idx st) /\
              length (out_features st') = length (out_features st) /\
              fft_output st' = fft_output st.
Proof.
  intros Hlo Hhi Hidx. unfold put_band, band_power.
  destruct (F64.to_size_t (F64.div low (F64.of_f32 res))) as [lo|]; [|congruence].
  destruct (F64.to_size_t (F64.div high (F64.of_f32 res))) as [hi|]; [|congruence].
  simpl. apply Nat.ltb_lt in Hidx. rewrite Hidx.
  eexists. split; [reflexivity|]. simpl. rewrite length_insert. auto.
Qed.

Lemma band_power_channel_done (cosf sinf : f32 -> f32) (d : EEGData.t) (fft_size : Z)
      (ch : nat) (st : bp_state) :
  WINDOW_SIZE <= EEGData.num_samples d ->
  WINDOW_SIZE <= Z.of_nat (length (drop (ch * Z.to_nat (EEGData.num_samples d))%nat
                                        (EEGData.data d))) ->
  band_edges_defined (EEGData.sampling_rate d) = true ->
  (feature_idx st + 5 <= length (out_features st))%nat ->
  exists st', band_power_channel cosf sinf d fft_size ch st = Done st' /\
              feature_idx st' = (feature_idx st + 5)%nat /\
              length (out_features st') = length (out_features st).
Proof.
  intros Hns Hlen Hb Hidx. unfold band_power_channel.
  apply Z.leb_le in Hns. rewrite Hns.
  replace (Z.of_nat (length (drop (ch * Z.to_nat (EEGData.num_samples d))%nat (EEGData.data d)))
           <? WINDOW_SIZE) with false by (symmetry; apply Z.ltb_ge; exact Hlen).
  set (res := F32.div (EEGData.sampling_rate d) (F32.of_Z WINDOW_SIZE)) in *.
  assert (forall edge,
            In edge [DELTA_LOW; DELTA_HIGH; THETA_LOW; THETA_HIGH; ALPHA_LOW; ALPHA_HIGH;
                     BETA_LOW; BETA_HIGH; GAMMA_LOW; GAMMA_HIGH] ->
            F64.to_size_t (F64.div edge (F64.of_f32 res)) <> None) as Hedge.
  { intros edge Hin. unfold band_edges_defined in Hb.
    rewrite forallb_forall in Hb. specialize (Hb edge Hin). fold res in Hb.
    destruct (F64.to_size_t (F64.div edge (F64.of_f32 res))); congruence. }
  set (st0 := mk_bp (feature_idx st) (out_features st) _).
  assert (feature_idx st0 = feature_idx st) as I0 by reflexivity.
  assert (length (out_features st0) = length (out_features st)) as L0 by reflexivity.
  clearbody st0.
  assert (forall low high s,
            F64.to_size_t (F64.div low (F64.of_f32 res)) <> None ->
            F64.to_size_t (F64.div high (F64.of_f32 res)) <> None ->
            (feature_idx s < length (out_features s))%nat ->
            exists s', put_band fft_size res low high s = Done s' /\
                       feature_idx s' = S (feature_idx s) /\
                       length (out_features s') = length (out_features s)) as Hput.
  { intros low high s H1 H2 H3.
    destruct (put_band_done fft_size res low high s H1 H2 H3) as (s' & A & B & C & _).
    exists s'. auto. }
  destruct (Hput DELTA_LOW DELTA_HIGH st0) as (s1 & A1 & I1 & L1);
    [apply Hedge; cbn [In]; auto 12|apply Hedge; cbn [In]; auto 12|lia|].
  rewrite A1. cbn [obind].
  destruct (Hput THETA_LOW THETA_HIGH s1) as (s2 & A2 & I2 & L2);
    [apply Hedge; cbn [In]; auto 12|apply Hedge; cbn [In]; auto 12|lia|].
  rewrite A2. cbn [obind].
  destruct (Hput ALPHA_LOW ALPHA_HIGH s2) as (s3 & A3 & I3 & L3);
    [apply Hedge; cbn [In]; auto 12|apply Hedge; cbn [In]; auto 12|lia|].
  rewrite A3. cbn [obind].
  destruct (Hput BETA_LOW BETA_HIGH s3) as (s4 & A4 & I4 & L4);
    [apply Hedge; cbn [In]; auto 12|apply Hedge; cbn [In]; auto 12|lia|].
  rewrite A4. cbn [obind].
  destruct (Hput GAMMA_LOW GAMMA_HIGH s4) as (s5 & A5 & I5 & L5);
    [apply Hedge; cbn [In]; auto 12|apply Hedge; cbn [In]; auto 12|lia|].
  exists s5. split; [exact A5|]. lia.
Qed.

Lemma normalize_channel_length (ns : Z) (ch : nat) (buf : list f32) :
  length (normalize_channel ns ch buf) = length buf.
Proof.
  unfold normalize_channel.
  apply (for_loop_invariant (fun _ b => length b = length buf)); [reflexivity|].
  intros i b _ Hb. rewrite length_insert. exact Hb.
Qed.

Lemma normalize_loop_length (ns : Z) (n : nat) (buf : list f32) :
  length (for_loop n (normalize_channel ns) buf) = length buf.
Proof.
  apply (for_loop_invariant (fun _ b => length b = length buf)); [reflexivity|].
  intros i b _ Hb. rewrite normalize_channel_length. exact Hb.
Qed.

Lemma normalize_signal_done (d : EEGData.t) :
  EEGData.num_channels d * EEGData.num_samples d <= Z.of_nat (length (EEGData.data d)) ->
  exists buf,
    normalize_signal (Some d)
    = Done (0, Some (EEGData.mk buf (EEGData.num_channels d) (EEGData.num_samples d)
                                (EEGData.sampling_rate d) (EEGData.timestamp d)
                                (EEGData.task_type d))) /\
    buf = for_loop (Z.to_nat (EEGData.num_channels d))
                   (normalize_channel (EEGData.num_samples d)) (EEGData.data d) /\
    length buf = length (EEGData.data d).
Proof.
  intros H. unfold normalize_signal.
  replace (Z.of_nat (length (EEGData.data d))
           <? EEGData.num_channels d * EEGData.num_samples d) with false
    by (symmetry; apply Z.ltb_ge; exact H).
  eexists. split; [reflexivity|]. split; [reflexivity|]. apply normalize_loop_length.
Qed.

Lemma channel_loop_done (cosf sinf : f32 -> f32) (d : EEGData.t) (fft_size : Z)
      (count : nat) (st : bp_state) :
  WINDOW_SIZE <= EEGData.num_samples d ->
  (count * Z.to_nat (EEGData.num_samples d) <= length (EEGData.data d))%nat ->
  band_edges_defined (EEGData.sampling_rate d) = true ->
  (feature_idx st + 5 * count <= length (out_features st))%nat ->
  exists st',
    for_loop count (fun ch acc => s <- acc ;;; band_power_channel cosf sinf d fft_size ch s)
             (Done st) = Done st' /\
    feature_idx st' = (feature_idx st + 5 * count)%nat /\
    length (out_features st') = length (out_features st).
Proof.
  intros Hns Hlen Hb Hcap.
  apply (for_loop_invariant
           (fun i x => exists st', x = Done st' /\
                                   feature_idx st' = (feature_idx st + 5 * i)%nat /\
                                   length (out_features st') = length (out_features st))).
  - exists st. split; [reflexivity|]. split; [lia|reflexivity].
  - intros i x Hi (s & -> & Hidx & Hl). cbn [obind].
    destruct (band_power_channel_done cosf sinf d fft_size i s) as (s' & A & B & C).
    + exact Hns.
    + rewrite length_drop.
      assert (Z.to_nat WINDOW_SIZE <= Z.to_nat (EEGData.num_samples d))%nat by lia.
      assert ((i + 1) * Z.to_nat (EEGData.num_samples d)
              <= count * Z.to_nat (EEGData.num_samples d))%nat
        by (apply Nat.mul_le_mono_r; lia).
      unfold WINDOW_SIZE in *. lia.
    + exact Hb.
    + lia.
    + exists s'. split; [exact A|]. split; lia.
Qed.

Lemma extract_band_power_done (alloc_ok : Z -> bool) (cosf sinf : f32 -> f32)
      (d : EEGData.t) (out : FeatureVector.t) :
  alloc_ok (WINDOW_SIZE / 2 * 4) = true ->
  0 <= EEGData.num_channels d -> 0 <= EEGData.num_samples d ->
  EEGData.num_channels d * EEGData.num_samples d <= Z.of_nat (length (EEGData.data d)) ->
  EEGData.num_samples d < WINDOW_SIZE \/
  (band_edges_defined (EEGData.sampling_rate d) = true /\
   5 * EEGData.num_channels d <= Z.of_nat (length (FeatureVector.features out))) ->
  exists feats,
    extract_band_power alloc_ok cosf sinf (Some d) (Some out)
    = Done (0, Some (FeatureVector.mk feats (FeatureVector.size out)
                                      (FeatureVector.task_type out)
                                      (FeatureVector.timestamp out))) /\
    length feats = length (FeatureVector.features out).
Proof.
  intros Hal Hnc Hns Hlen [Hshort|[Hb Hcap]].
  - exists (FeatureVector.features out). split; [|reflexivity].
    rewrite extract_band_power_short_unchanged by assumption. destruct out; reflexivity.
  - destruct (Z_lt_le_dec (EEGData.num_samples d) WINDOW_SIZE) as [Hshort|Hlong].
    { exists (FeatureVector.features out). split; [|reflexivity].
      rewrite extract_band_power_short_unchanged by assumption. destruct out; reflexivity. }
    unfold extract_band_power. rewrite Hal. simpl negb. cbv iota.
    set (st0 := mk_bp 0 (FeatureVector.features out) _).
    destruct (channel_loop_done cosf sinf d (WINDOW_SIZE / 2)
                (Z.to_nat (EEGData.num_channels d)) st0) as (st' & A & B & C).
    + exact Hlong.
    + apply Nat2Z.inj_le. rewrite Nat2Z.inj_mul, !Z2Nat.id by lia. exact Hlen.
    + exact Hb.
    + simpl. lia.
    + rewrite A. cbn [obind]. exists (out_features st'). split; [reflexivity|exact C].
Qed.

Lemma memcpy_count (d : EEGData.t) :
  EEGData.wf d ->
  Z.to_nat (wrap64 (EEGData.num_channels d * EEGData.num_samples d * 4) / 4)
  = length (EEGData.data d).
Proof.
  intros (Hnc & Hns & Hlen & Hsz). unfold wrap64.
  rewrite Z.mod_small by (split; [apply Z.mul_nonneg_nonneg; [apply Z.mul_nonneg_nonneg|]; lia|lia]).
  rewrite Z.div_mul by lia. rewrite <- Hlen. apply Nat2Z.id.
Qed.




(** ** Normalisation *)

Lemma rd_lookup (l : list f32) (i : nat) (x : f32) : l !! i = Some x -> rd l i = x.
Proof. intros H. unfold rd. apply nth_lookup_Some with (d := F32.zero) in H. exact H. Qed.

Lemma calculate_mean_spec (l : list f32) (n : Z) :
  0 < n -> (Z.to_nat n <= length l)%nat ->
  calculate_mean l n = mean_spec (take (Z.to_nat n) l).
Proof.
  intros Hn Hl. unfold calculate_mean, mean_spec.
  replace (n =? 0) with false by (symmetry; apply Z.eqb_neq; lia).
  rewrite sum_loop_fsum by exact Hl.
  rewrite length_take, Nat.min_l, Z2Nat.id by lia. reflexivity.
Qed.

Lemma calculate_std_dev_spec (l : list f32) (n : Z) :
  0 < n -> (Z.to_nat n <= length l)%nat ->
  calculate_std_dev l n = std_spec (take (Z.to_nat n) l).
Proof.
  intros Hn Hl. unfold calculate_std_dev, std_spec.
  replace (n =? 0) with false by (symmetry; apply Z.eqb_neq; lia).
  rewrite calculate_mean_spec by assumption.
  set (m := mean_spec (take (Z.to_nat n) l)).
  rewrite (sum_loop_map (fun i => F32.mul (F32.sub (rd l i) m) (F32.sub (rd l i) m))).
  rewrite <- (map_nth_seq l (Z.to_nat n) Hl) at 1.
  rewrite map_map.
  rewrite length_take, Nat.min_l, Z2Nat.id by lia. reflexivity.
Qed.

(** The sample loop of one channel: the samples at [base .. base + n) are
    replaced by [f] of their old value, the others are untouched. *)
Lemma sample_loop_spec (f : f32 -> f32) (base n : nat) (buf : list f32) :
  (base + n <= length buf)%nat ->
  let r := for_loop n (fun i b => <[(base + i)%nat := f (rd (drop base b) i)]> b) buf in
  length r = length buf /\
  (forall i x, (i < n)%nat -> buf !! (base + i)%nat = Some x ->
               r !! (base + i)%nat = Some (f x)) /\
  (forall k, (k < base \/ base + n <= k)%nat -> r !! k = buf !! k).
Proof.
  intros Hlen.
  apply (for_loop_invariant
           (fun m b =>
              length b = length buf /\
              (forall i x, (i < m)%nat -> buf !! (base + i)%nat = Some x ->
                           b !! (base + i)%nat = Some (f x)) /\
              (forall k, (k < base \/ base + m <= k)%nat -> b !! k = buf !! k))).
  - split; [reflexivity|]. split; [intros; lia|reflexivity].
  - intros m b Hm (Hl & Hdone & Hrest).
    split; [rewrite length_insert; exact Hl|]. split.
    + intros i x Hi Hx.
      destruct (Nat.eq_dec i m) as [->|Hne].
      * rewrite list_lookup_insert_eq by lia.
        f_equal. f_equal. apply rd_lookup.
        rewrite lookup_drop, Hrest by lia. exact Hx.
      * rewrite list_lookup_insert_ne by lia. apply Hdone; [lia|exact Hx].
    + intros k Hk. rewrite list_lookup_insert_ne by lia. apply Hrest. lia.
Qed.

Lemma normalize_channel_spec (ns : Z) (ch : nat) (buf : list f32) :
  0 <= ns ->
  ((ch + 1) * Z.to_nat ns <= length buf)%nat ->
  let base := (ch * Z.to_nat ns)%nat in
  let c := take (Z.to_nat ns) (drop base buf) in
  let r := normalize_channel ns ch buf in
  length r = length buf /\
  (forall i x, (i < Z.to_nat ns)%nat -> buf !! (base + i)%nat = Some x ->
               r !! (base + i)%nat = Some (zscore c x)) /\
  (forall k, (k < base \/ base + Z.to_nat ns <= k)%nat -> r !! k = buf !! k).
Proof.
  intros Hns Hlen base c r.
  assert (base + Z.to_nat ns <= length buf)%nat as Hb by (subst base; lia).
  destruct (Z.eq_dec ns 0) as [->|Hpos].
  { subst r. unfold normalize_channel. simpl Z.to_nat. unfold for_loop. simpl.
    split; [reflexivity|]. split; [intros; lia|reflexivity]. }
  subst r. unfold normalize_channel. fold base.
  rewrite calculate_mean_spec, calculate_std_dev_spec
    by (try lia; rewrite length_drop; lia).
  fold c.
  exact (sample_loop_spec
           (fun x => F32.div (F32.sub x (mean_spec c))
                             (if flt (std_spec c) (F32.lit 1 1000000) then F32.one
                              else std_spec c))
           base (Z.to_nat ns) buf Hb).
Qed.

Lemma normalize_loop_spec (ns : Z) (data : list f32) (nc : nat) :
  0 <= ns ->
  (nc * Z.to_nat ns <= length data)%nat ->
  let r := for_loop nc (normalize_channel ns) data in
  length r = length data /\
  (forall ch i x, (ch < nc)%nat -> (i < Z.to_nat ns)%nat ->
     data !! (ch * Z.to_nat ns + i)%nat = Some x ->
     r !! (ch * Z.to_nat ns + i)%nat
     = Some (zscore (take (Z.to_nat ns) (drop (ch * Z.to_nat ns) data)) x)) /\
  (forall k, (nc * Z.to_nat ns <= k)%nat -> r !! k = data !! k).
Proof.
  intros Hns Hlen. set (n := Z.to_nat ns) in *.
  apply (for_loop_invariant
           (fun m b =>
              (m <= nc)%nat ->
              length b = length data /\
              (forall ch i x, (ch < m)%nat -> (i < n)%nat ->
                 data !! (ch * n + i)%nat = Some x ->
                 b !! (ch * n + i)%nat = Some (zscore (take n (drop (ch * n) data)) x)) /\
              (forall k, (m * n <= k)%nat -> b !! k = data !! k)));
    [| |lia].
  - intros _. split; [reflexivity|]. split; [intros; lia|reflexivity].
  - intros m b Hm IH _. destruct IH as (Hl & Hdone & Hrest); [lia|].
    assert ((m + 1) * n <= nc * n)%nat as Hmn by (apply Nat.mul_le_mono_r; lia).
    destruct (normalize_channel_spec ns m b Hns) as (Hl' & Hnew & Hkeep);
      [fold n; lia|]. fold n in Hnew, Hkeep.
    assert (take n (drop (m * n) b) = take n (drop (m * n) data)) as Hsame.
    { apply list_eq. intros j.
      destruct (Nat.lt_ge_cases j n) as [Hj|Hj].
      - rewrite !lookup_take_lt, !lookup_drop by exact Hj. apply Hrest. lia.
      - rewrite !lookup_take_ge by exact Hj. reflexivity. }
    rewrite Hsame in Hnew.
    split; [congruence|]. split.
    + intros ch i x Hch Hi Hx.
      destruct (Nat.eq_dec ch m) as [->|Hne].
      * apply Hnew; [exact Hi|]. rewrite Hrest by lia. exact Hx.
      * assert ((ch + 1) * n <= m * n)%nat by (apply Nat.mul_le_mono_r; lia).
        rewrite Hkeep by lia. apply Hdone; [lia|exact Hi|exact Hx].
    + intros k Hk. rewrite Hkeep by lia. apply Hrest. lia.
Qed.

Lemma normalize_signal_centres_constant_channel :
  flt (calculate_std_dev (EEGData.data constant_channel) 2) (F32.lit 1 1000000) = true /\
  normalize_signal (Some constant_channel)
  = Done (0, Some (EEGData.mk [F32.zero; F32.zero] 1 2 (F32.of_Z SAMPLING_RATE) 0
                              TASK_EYES_CLOSED_REST)) /\
  normalize_signal (Some constant_channel) <> Done (0, Some constant_channel).
Proof.
  split; [vm_compute; reflexivity|]. split; [vm_compute; reflexivity|].
  vm_compute. intros H. discriminate H.
Qed.

(** C8 (amended).  For every channel of a well-formed signal,
    [normalize_signal] replaces each sample [x] by (x - mean) / sd, where
    mean and sd are the channel's mean and standard deviation in single
    precision; a channel whose standard deviation is below 1e-6 is not
    skipped: the divisor is 1.0 there, so its samples are still centred on
    the mean. *)
Theorem normalize_signal_zscore (d : EEGData.t) :
  EEGData.wf d ->
  exists buf,
    normalize_signal (Some d)
    = Done (0, Some (EEGData.mk buf (EEGData.num_channels d) (EEGData.num_samples d)
                                (EEGData.sampling_rate d) (EEGData.timestamp d)
                                (EEGData.task_type d))) /\
    length buf = length (EEGData.data d) /\
    forall (ch i : nat) (x : f32),
      Z.of_nat ch < EEGData.num_channels d ->
      channel d ch !! i = Some x ->
      buf !! (ch * Z.to_nat (EEGData.num_samples d) + i)%nat = Some (zscore (channel d ch) x).
Proof.
  intros (Hnc & Hns & Hlen & Hsz).
  destruct (normalize_signal_done d) as (buf & E & Hbuf & Hl); [lia|].
  exists buf. split; [exact E|]. split; [exact Hl|].
  intros ch i x Hch Hx. unfold channel in *.
  set (n := Z.to_nat (EEGData.num_samples d)) in *.
  assert (i < n)%nat as Hi.
  { apply lookup_lt_Some in Hx. rewrite length_take in Hx. lia. }
  rewrite lookup_take_lt, lookup_drop in Hx by exact Hi.
  subst buf.
  destruct (normalize_loop_spec (EEGData.num_samples d) (EEGData.data d)
              (Z.to_nat (EEGData.num_channels d)) Hns) as (_ & Hz & _).
  - apply Nat2Z.inj_le. rewrite Nat2Z.inj_mul, !Z2Nat.id by lia. lia.
  - apply Hz; [lia|exact Hi|exact Hx].
Qed.

Lemma normalize_signal_zscore_witness :
  EEGData.wf two_channels /\
  exists buf,
    normalize_signal (Some two_channels)
    = Done (0, Some (EEGData.mk buf 2 2 (F32.of_Z SAMPLING_RATE) 0 TASK_MOTOR_IMAGERY)) /\
    length buf = 4%nat /\
    buf !! 1%nat = Some (zscore [F32.of_Z 1; F32.of_Z 3] (F32.of_Z 3)) /\
    buf !! 2%nat = Some (zscore [F32.of_Z 5; F32.of_Z 5] (F32.of_Z 5)).
Proof.
  assert (EEGData.wf two_channels) as W by (repeat split; vm_compute; congruence).
  split; [exact W|].
  destruct (normalize_signal_zscore two_channels W) as (buf & E & L & Z).
  exists buf. split; [exact E|]. split; [exact L|]. split.
  - apply (Z 0%nat 1%nat); [reflexivity|reflexivity].
  - apply (Z 1%nat 0%nat); [reflexivity|reflexivity].
Defined.

(** ** Division by 1.0 *)


Lemma bounded_cases (m : positive) (e : Z) :
  bounded F32.prec F32.emax m e = true ->
  Z.max (Zpos (digits2_pos m) + e - 24) (-149) = e /\ e <= 104.
Proof.
  unfold bounded, canonical_mantissa, fexp, emin, F32.prec, F32.emax.
  intros H. apply andb_true_iff in H. destruct H as [H1 H2].
  apply Z.eqb_eq in H1. apply Z.leb_le in H2. split; [exact H1|exact H2].
Qed.








(** ** Averaging *)

Lemma fill_loop_spec (g : nat -> f32) (n : nat) (buf : list f32) :
  (n <= length buf)%nat ->
  let r := for_loop n (fun j o => <[j := g j]> o) buf in
  length r = length buf /\
  (forall j, (j < n)%nat -> r !! j = Some (g j)) /\
  (forall k, (n <= k)%nat -> r !! k = buf !! k).
Proof.
  intros Hn.
  apply (for_loop_invariant
           (fun m b => length b = length buf /\
                       (forall j, (j < m)%nat -> b !! j = Some (g j)) /\
                       (forall k, (m <= k)%nat -> b !! k = buf !! k))).
  - split; [reflexivity|]. split; [intros; lia|reflexivity].
  - intros m b Hm (Hl & Hd & Hr).
    split; [rewrite length_insert; exact Hl|]. split.
    + intros j Hj. destruct (Nat.eq_dec j m) as [->|Hne].
      * apply list_lookup_insert_eq. lia.
      * rewrite list_lookup_insert_ne by lia. apply Hd. lia.
    + intros k Hk. rewrite list_lookup_insert_ne by lia. apply Hr. lia.
Qed.



Lemma existsb_false_Forall {A : Type} (f : A -> bool) (l : list A) :
  Forall (fun v => f v = false) l -> existsb f l = false.
Proof. induction 1 as [|v l Hv _ IH]; simpl; [reflexivity|]. rewrite Hv, IH. reflexivity. Qed.




(** ** Saving a template *)

Lemma io_run_writes (fs : gmap string (list byte)) (path : string)
      (ws : list (list byte)) (k : nat) (c : list byte) :
  io_files (fold_left io_step (take k (map IoWrite ws ++ [IoClose]))
                      (mk_io (<[path := c]> fs) (Some path)))
  = <[path := c ++ concat (take k ws)]> fs.
Proof.
  revert k c. induction ws as [|w ws IH]; intros k c.
  - destruct k as [|k]; simpl; [rewrite app_nil_r; reflexivity|].
    rewrite take_nil. simpl. rewrite app_nil_r. reflexivity.
  - destruct k as [|k]; [simpl; rewrite app_nil_r; reflexivity|].
    cbn [map app take fold_left io_step io_open io_files concat].
    rewrite alter_insert_eq, IH, app_assoc. reflexivity.
Qed.

Lemma template_save_interrupted_prefix (fs : gmap string (list byte)) (t : Template.t)
      (fv : FeatureVector.t) (hd : HashData.t) (path : string) (k : nat) :
  template_save_interrupted (S k) fs t fv hd path
  = <[path := concat (take k (template_save_writes t fv hd))]> fs.
Proof.
  unfold template_save_interrupted, template_save_calls, io_run.
  cbn [take fold_left io_step io_files].
  apply (io_run_writes fs path (template_save_writes t fv hd) k []).
Qed.

Lemma template_save_complete
      (create_directory_ok : bool) (fopen_w_ok : string -> bool)
      (fs : gmap string (list byte)) (t : Template.t)
      (fv : FeatureVector.t) (hd : HashData.t) (path : string) :
  Template.features t = Some fv -> Template.hash t = Some hd ->
  save_in_bounds fv hd = true ->
  create_directory_ok = true -> fopen_w_ok path = true ->
  template_save create_directory_ok fopen_w_ok fs (Some t) (Some path)
  = Done (0, <[path := concat (template_save_writes t fv hd)]> fs).
Proof.
  intros Hfv Hhd Hb -> Hop. unfold template_save. rewrite Hop, Hfv, Hhd, Hb. cbn [negb].
  change (io_run (template_save_calls t fv hd path) fs)
    with (template_save_interrupted 13 fs t fv hd path).
  rewrite template_save_interrupted_prefix. reflexivity.
Qed.




(** ** Loading a template *)

Lemma Z_of_byte_nonneg (b : byte) : 0 <= Z_of_byte b.
Proof. unfold Z_of_byte. lia. Qed.

Lemma le_decode_nonneg (bs : list byte) : 0 <= le_decode bs.
Proof.
  induction bs as [|b bs IH]; simpl; [lia|].
  pose proof (Z_of_byte_nonneg b). lia.
Qed.

Lemma fread_spec (buf : list byte) (size nmemb : Z) (fp : FILE) :
  0 <= f_pos fp <= Z.of_nat (length (f_bytes fp)) -> 0 <= size * nmemb ->
  f_bytes (snd (fread buf size nmemb fp)) = f_bytes fp /\
  f_pos (snd (fread buf size nmemb fp))
  = Z.min (f_pos fp + size * nmemb) (Z.of_nat (length (f_bytes fp))).
Proof.
  intros Hp Hn. unfold fread. cbn [snd f_bytes f_pos]. split; [reflexivity|].
  rewrite length_take, length_drop. lia.
Qed.

Lemma fread_u64 (old : Z) (fp : FILE) :
  le_decode (fst (fread (le_encode 8 old) 8 1 fp)) = field_u64 (f_bytes fp) (f_pos fp) old.
Proof. reflexivity. Qed.

Lemma template_load_accepts_truncated_file :
  fst (template_load always_served (<["f"%string := []]> no_files) (Some "f"%string)
                     (Some blank_template) (0, 0, 0)) = 0 /\
  length small_record = 133%nat /\
  fst (template_load always_served (<["f"%string := take 100 small_record]> no_files)
                     (Some "f"%string) (Some blank_template) (0, 0, 0)) = 0.
Proof. repeat split; vm_compute; reflexivity. Qed.

Lemma fread_eq (buf : list byte) (size nmemb : Z) (c : list byte) (p : Z) :
  0 <= p <= Z.of_nat (length c) -> 0 <= size * nmemb ->
  fread buf size nmemb (mkFILE c p)
  = (take (Z.to_nat (size * nmemb)) (drop (Z.to_nat p) c)
     ++ drop (length (take (Z.to_nat (size * nmemb)) (drop (Z.to_nat p) c))) buf,
     mkFILE c (Z.min (p + size * nmemb) (Z.of_nat (length c)))).
Proof.
  intros Hp Hn. unfold fread. cbn [f_bytes f_pos]. f_equal. f_equal.
  rewrite length_take, length_drop. lia.
Qed.

(** C3 (amended).  [template_load] puts no bound on the length fields and
    does not look at the result of any read: the feature count is the 8-byte
    field at offset 88, the hash and salt lengths are the two 8-byte fields
    that follow the feature data, each taken as read (bytes missing from a
    short file keep what the variable held), and each is handed to the
    allocator as it is.  The function returns -1 exactly when the file does
    not exist or the allocator refuses one of these requests, and 0
    otherwise, truncated and malformed files included. *)
Theorem template_load_unchecked
        (alloc_ok : Z -> bool) (fs : gmap string (list byte)) (path : string)
        (out : Template.t) (g1 g2 g3 : Z) :
  fst (template_load alloc_ok fs (Some path) (Some out) (g1, g2, g3))
  = match fs !! path with
    | None => -1
    | Some content =>
        let len := Z.of_nat (length content) in
        let feature_size := field_u64 content (Z.min 88 len) g1 in
        let after := Z.min (Z.min 96 len + 4 * feature_size) len in
        let hash_size := field_u64 content after g2 in
        let salt_size := field_u64 content (Z.min (after + 8) len) g3 in
        match feature_vector_alloc alloc_ok feature_size with
        | None => -1
        | Some _ =>
            match hash_data_alloc alloc_ok hash_size salt_size with
            | None => -1
            | Some _ => 0
            end
        end
    end.
Proof.
  unfold template_load.
  destruct (fs !! path) as [content|]; [|reflexivity].
  cbv zeta. set (len := Z.of_nat (length content)).
  assert (0 <= len) as Hlen by (subst len; lia).
  cbn [fst snd].
  do 6 (rewrite fread_eq by (fold len; lia); cbv beta iota).
  fold len.
  replace (Z.min (Z.min (Z.min (Z.min (Z.min (0 + 4 * 1) len + 1 * 64) len + 4 * 1) len
                               + 8 * 1) len + 8 * 1) len) with (Z.min 88 len) by lia.
  change (le_decode (take (Z.to_nat (8 * 1)) (drop (Z.to_nat (Z.min 88 len)) content)
                     ++ drop (length (take (Z.to_nat (8 * 1))
                                           (drop (Z.to_nat (Z.min 88 len)) content)))
                             (le_encode 8 g1)))
    with (field_u64 content (Z.min 88 len) g1).
  set (feature_size := field_u64 content (Z.min 88 len) g1).
  assert (0 <= feature_size) as Hfs by apply le_decode_nonneg.
  destruct (feature_vector_alloc alloc_ok feature_size) as [fv0|]; [|reflexivity].
  do 3 (rewrite fread_eq by (fold len; lia); cbv beta iota).
  fold len.
  replace (Z.min (Z.min 88 len + 8 * 1) len) with (Z.min 96 len) by lia.
  set (after := Z.min (Z.min 96 len + 4 * feature_size) len).
  change (le_decode (take (Z.to_nat (8 * 1)) (drop (Z.to_nat after) content)
                     ++ drop (length (take (Z.to_nat (8 * 1)) (drop (Z.to_nat after) content)))
                             (le_encode 8 g2)))
    with (field_u64 content after g2).
  change (le_decode (take (Z.to_nat (8 * 1))
                          (drop (Z.to_nat (Z.min (after + 8 * 1) len)) content)
                     ++ drop (length (take (Z.to_nat (8 * 1))
                                           (drop (Z.to_nat (Z.min (after + 8 * 1) len)) content)))
                             (le_encode 8 g3)))
    with (field_u64 content (Z.min (after + 8 * 1) len) g3).
  replace (after + 8 * 1) with (after + 8) by lia.
  destruct (hash_data_alloc alloc_ok _ _) as [hd|]; [|reflexivity].
  repeat match goal with
         | |- context [fread ?b ?s ?n ?fp] => destruct (fread b s n fp) as [? ?]
         end.
  reflexivity.
Qed.

(** C1 (evaluation).  Saving a template and loading the file back does not
    reproduce the hash and the salt.  For a template as enrolment builds it,
    [template_load] takes the first eight bytes of the digest for the salt
    length and the allocation fails, so the file cannot be loaded at all;
    for a small template whose digest starts with a small number the load
    succeeds, with the username, task and features of the saved template but
    with a hash made of the bytes that precede the hash length in the file
    and a salt made of the first bytes of the digest. *)
Theorem template_load_after_save_loses_hash :
  (exists fs,
     template_save true accept_any no_files (Some enrolled_template) (Some "al.nlt"%string)
     = Done (0, fs) /\
     fst (template_load limited_alloc fs (Some "al.nlt"%string) (Some blank_template)
                        (0, 0, 0)) = -1) /\
  (exists fs t,
     template_save true accept_any no_files (Some small_template) (Some "al.nlt"%string)
     = Done (0, fs) /\
     template_load always_served fs (Some "al.nlt"%string) (Some blank_template) (0, 0, 0)
     = (0, Some t) /\
     Template.username t = Template.username small_template /\
     Template.task_type t = Template.task_type small_template /\
     option_map FeatureVector.features (Template.features t)
     = Some (FeatureVector.features small_features) /\
     Template.hash t = Some small_reloaded_hash /\
     Template.hash small_template = Some small_hash /\
     HashData.hash small_reloaded_hash <> HashData.hash small_hash /\
     HashData.salt small_reloaded_hash <> HashData.salt small_hash).
Proof.
  split.
  - eexists. split.
    + apply (template_save_complete true accept_any no_files enrolled_template
               enrolled_features enrolled_hash); reflexivity.
    + vm_compute. reflexivity.
  - eexists. eexists. split.
    + apply (template_save_complete true accept_any no_files small_template
               small_features small_hash); reflexivity.
    + split; [vm_compute; reflexivity|].
      repeat split; try (vm_compute; reflexivity); vm_compute; intros H; discriminate H.
Qed.

(** * Further properties of the code *)

(** ** Digest comparison *)

Lemma Z_of_byte_inj (a b : byte) : Z_of_byte a = Z_of_byte b -> a = b.
Proof.
  unfold Z_of_byte. intros H. apply N2Z.inj in H.
  pose proof (Byte.of_to_N a) as Ha. rewrite H, Byte.of_to_N in Ha. congruence.
Qed.

Lemma Z_of_byte_range (b : byte) : 0 <= Z_of_byte b < 256.
Proof. unfold Z_of_byte. pose proof (Byte.to_N_bounded b). lia. Qed.

Lemma rdb_lookup (l : list byte) (i : nat) (b : byte) : l !! i = Some b -> rdb l i = Z_of_byte b.
Proof. intros H. unfold rdb. f_equal. apply nth_lookup_Some with (d := x00) in H. exact H. Qed.

Lemma take_S_eq (l1 l2 : list byte) (m : nat) :
  (m < length l1)%nat -> (m < length l2)%nat ->
  (take (S m) l1 = take (S m) l2 <-> take m l1 = take m l2 /\ rdb l1 m = rdb l2 m).
Proof.
  intros H1 H2.
  destruct (lookup_lt_is_Some_2 l1 m H1) as [a Ha].
  destruct (lookup_lt_is_Some_2 l2 m H2) as [b Hb].
  rewrite (take_S_r l1 m a Ha), (take_S_r l2 m b Hb).
  rewrite (rdb_lookup l1 m a Ha), (rdb_lookup l2 m b Hb).
  split.
  - intros H. apply app_inj_2 in H; [|reflexivity]. destruct H as [-> H].
    injection H as ->. auto.
  - intros [-> H]. apply Z_of_byte_inj in H. subst. reflexivity.
Qed.

Lemma xor_accumulate_zero (l1 l2 : list byte) (n : nat) :
  (n <= length l1)%nat -> (n <= length l2)%nat ->
  let result := for_loop n (fun i result => Z.lor result (Z.lxor (rdb l1 i) (rdb l2 i))) 0 in
  0 <= result /\ (result = 0 <-> take n l1 = take n l2).
Proof.
  intros H1 H2.
  apply (for_loop_invariant
           (fun m r => 0 <= r /\ (r = 0 <-> take m l1 = take m l2))).
  - split; [lia|]. split; reflexivity.
  - intros m r Hm [Hr Hiff].
    assert (0 <= Z.lxor (rdb l1 m) (rdb l2 m)) as Hx.
    { apply Z.lxor_nonneg. unfold rdb.
      pose proof (Z_of_byte_range (nth m l1 x00)). pose proof (Z_of_byte_range (nth m l2 x00)).
      split; intros; lia. }
    split; [apply Z.lor_nonneg; split; assumption|].
    rewrite Z.lor_eq_0_iff, Z.lxor_eq_0_iff, Hiff.
    symmetry. apply take_S_eq; lia.
Qed.

Lemma hash_compare_wf (h1 h2 : HashData.t) :
  HashData.wf h1 -> HashData.wf h2 ->
  exists r, hash_compare (Some h1) (Some h2) = Done r /\
            (r = 0 \/ r = 1) /\
            (r = 1 <-> HashData.hash h1 = HashData.hash h2).
Proof.
  intros [W1 _] [W2 _]. unfold hash_compare.
  destruct (HashData.hash_size h1 =? HashData.hash_size h2) eqn:Es; cbn [negb].
  - apply Z.eqb_eq in Es.
    replace (Z.of_nat (length (HashData.hash h1)) <? HashData.hash_size h1) with false
      by (symmetry; apply Z.ltb_ge; lia).
    replace (Z.of_nat (length (HashData.hash h2)) <? HashData.hash_size h1) with false
      by (symmetry; apply Z.ltb_ge; lia).
    cbn [orb].
    destruct (xor_accumulate_zero (HashData.hash h1) (HashData.hash h2)
                (Z.to_nat (HashData.hash_size h1))) as [Hr Hiff]; [lia|lia|].
    rewrite (firstn_all2 (HashData.hash h1)), (firstn_all2 (HashData.hash h2)) in Hiff by lia.
    eexists. split; [reflexivity|].
    destruct (_ =? 0) eqn:E0.
    + apply Z.eqb_eq in E0. split; [right; reflexivity|]. split; [intros _|reflexivity].
      apply Hiff. exact E0.
    + apply Z.eqb_neq in E0. split; [left; reflexivity|]. split; [discriminate|].
      intros H. apply Hiff in H. contradiction.
  - apply Z.eqb_neq in Es. exists 0. split; [reflexivity|]. split; [left; reflexivity|].
    split; [discriminate|]. intros H. exfalso. apply Es. rewrite <- W1, <- W2, H. reflexivity.
Qed.

(** [hash_compare] on two well-formed digests returns 1 when the hashes are
    the same bytes (whatever the salts) and 0 when they are not; a digest
    compares equal to itself, and a NULL argument gives 0. *)
Theorem hash_compare_equal_iff (h1 h2 : HashData.t) :
  HashData.wf h1 -> HashData.wf h2 ->
  (exists r, hash_compare (Some h1) (Some h2) = Done r /\
             (r = 0 \/ r = 1) /\
             (r = 1 <-> HashData.hash h1 = HashData.hash h2)) /\
  hash_compare (Some h1) (Some h1) = Done 1 /\
  hash_compare (Some h1) None = Done 0 /\
  hash_compare None (Some h2) = Done 0.
Proof.
  intros W1 W2. split; [exact (hash_compare_wf h1 h2 W1 W2)|].
  split; [|split; reflexivity].
  destruct (hash_compare_wf h1 h1 W1 W1) as (r & E & _ & Hr).
  rewrite E. f_equal. apply Hr. reflexivity.
Qed.

Lemma hash_compare_equal_iff_witness :
  (exists r, hash_compare (Some digest_a) (Some digest_b) = Done r /\
             (r = 0 \/ r = 1) /\
             (r = 1 <-> HashData.hash digest_a = HashData.hash digest_b)) /\
  hash_compare (Some digest_a) (Some digest_a) = Done 1.
Proof.
  destruct (hash_compare_equal_iff digest_a digest_b) as (H1 & H2 & _);
    [split; reflexivity|split; reflexivity|].
  split; [exact H1|exact H2].
Defined.

Lemma land_1_range (x : Z) : 0 <= Z.land x 1 <= 1.
Proof.
  assert (Z.land x 1 = x mod 2) as ->.
  { change 1 with (Z.ones 1). rewrite Z.land_ones by lia. reflexivity. }
  pose proof (Z.mod_pos_bound x 2). lia.
Qed.

Lemma count_set_bits_bounds (rounds : nat) (x d : Z) :
  d <= count_set_bits rounds x d <= d + Z.of_nat rounds.
Proof.
  revert x d. induction rounds as [|r IH]; intros x d; simpl count_set_bits; [lia|].
  destruct (x =? 0); [lia|].
  specialize (IH (Z.shiftr x 1) (d + Z.land x 1)).
  pose proof (land_1_range x). lia.
Qed.

Lemma count_set_bits_zero (rounds : nat) (x d : Z) :
  0 <= x < 2 ^ Z.of_nat rounds ->
  (count_set_bits rounds x d = d <-> x = 0).
Proof.
  revert x d. induction rounds as [|r IH]; intros x d Hx.
  - simpl in *. split; [lia|reflexivity].
  - simpl count_set_bits. destruct (x =? 0) eqn:E.
    + apply Z.eqb_eq in E. split; [intros _; exact E|reflexivity].
    + apply Z.eqb_neq in E. split; [|contradiction].
      intros H. exfalso.
      pose proof (count_set_bits_bounds r (Z.shiftr x 1) (d + Z.land x 1)) as Hb.
      pose proof (land_1_range x) as Hl.
      assert (Z.land x 1 = 0) as Hl0 by lia.
      rewrite Hl0, Z.add_0_r in H.
      rewrite Z.shiftr_div_pow2 in H by lia. change (2 ^ 1) with 2 in H.
      apply IH in H.
      * change 1 with (Z.ones 1) in Hl0. rewrite Z.land_ones in Hl0 by lia.
        change (2 ^ 1) with 2 in Hl0.
        pose proof (Z.div_mod x 2). lia.
      * rewrite Nat2Z.inj_succ, Z.pow_succ_r in Hx by lia.
        split; [apply Z.div_pos; lia|apply Z.div_lt_upper_bound; lia].
Qed.

Lemma lxor_byte_range (a b : Z) :
  0 <= a < 256 -> 0 <= b < 256 -> 0 <= Z.lxor a b < 2 ^ 8.
Proof.
  intros Ha Hb.
  assert (0 <= Z.lxor a b) as H0 by (apply Z.lxor_nonneg; split; intros; lia).
  split; [exact H0|].
  destruct (Z.eq_dec (Z.lxor a b) 0) as [->|Hne]; [reflexivity|].
  apply Z.log2_lt_pow2; [lia|].
  pose proof (Z.log2_lxor a b ltac:(lia) ltac:(lia)) as Hl.
  assert (forall c, 0 <= c < 256 -> Z.log2 c < 8) as Hlog.
  { intros c Hc. destruct (Z.eq_dec c 0) as [->|Hn]; [reflexivity|].
    apply Z.log2_lt_pow2; lia. }
  pose proof (Hlog a Ha). pose proof (Hlog b Hb). lia.
Qed.

Lemma hamming_accumulate (l1 l2 : list byte) (n : nat) :
  (n <= length l1)%nat -> (n <= length l2)%nat ->
  let distance :=
    for_loop n (fun i distance => count_set_bits 8 (Z.lxor (rdb l1 i) (rdb l2 i)) distance) 0 in
  0 <= distance <= 8 * Z.of_nat n /\ (distance = 0 <-> take n l1 = take n l2).
Proof.
  intros H1 H2.
  apply (for_loop_invariant
           (fun m d => 0 <= d <= 8 * Z.of_nat m /\ (d = 0 <-> take m l1 = take m l2))).
  - split; [lia|]. split; reflexivity.
  - intros m d Hm [Hd Hiff].
    pose proof (count_set_bits_bounds 8 (Z.lxor (rdb l1 m) (rdb l2 m)) d) as Hb.
    change (Z.of_nat 8) with 8 in Hb.
    split; [lia|].
    rewrite (take_S_eq l1 l2 m) by lia. rewrite <- Hiff, <- (Z.lxor_eq_0_iff (rdb l1 m) (rdb l2 m)).
    assert (0 <= Z.lxor (rdb l1 m) (rdb l2 m) < 2 ^ Z.of_nat 8) as Hx.
    { apply lxor_byte_range; unfold rdb; apply Z_of_byte_range. }
    split.
    + intros H0. assert (d = 0) as -> by lia. split; [reflexivity|].
      apply (count_set_bits_zero 8 _ 0 Hx). exact H0.
    + intros [-> Hz]. rewrite Hz. reflexivity.
Qed.

(** [calculate_hamming_distance] on two well-formed digests of the same size
    (small enough for the [int] counter) returns a distance between 0 and 8
    times the size, and the distance is 0 exactly when the hashes are the
    same bytes, that is, exactly when [hash_compare] returns 1; digests of
    different sizes give -1. *)
Theorem calculate_hamming_distance_spec (h1 h2 : HashData.t) :
  HashData.wf h1 -> HashData.wf h2 ->
  8 * HashData.hash_size h1 <= INT_MAX ->
  (HashData.hash_size h1 <> HashData.hash_size h2 ->
   calculate_hamming_distance (Some h1) (Some h2) = Done (-1)) /\
  (HashData.hash_size h1 = HashData.hash_size h2 ->
   exists d, calculate_hamming_distance (Some h1) (Some h2) = Done d /\
             0 <= d <= 8 * HashData.hash_size h1 /\
             (d = 0 <-> HashData.hash h1 = HashData.hash h2) /\
             (d = 0 <-> hash_compare (Some h1) (Some h2) = Done 1)).
Proof.
  intros W1 W2 Hsmall. split.
  - intros Hne. unfold calculate_hamming_distance.
    replace (HashData.hash_size h1 =? HashData.hash_size h2) with false
      by (symmetry; apply Z.eqb_neq; exact Hne).
    reflexivity.
  - intros Hs.
    destruct (hash_compare_wf h1 h2 W1 W2) as (r & Er & _ & Hr).
    destruct W1 as [W1 _], W2 as [W2 _].
    unfold calculate_hamming_distance.
    rewrite (proj2 (Z.eqb_eq _ _) Hs). cbn [negb].
    replace (Z.of_nat (length (HashData.hash h1)) <? HashData.hash_size h1) with false
      by (symmetry; apply Z.ltb_ge; lia).
    replace (Z.of_nat (length (HashData.hash h2)) <? HashData.hash_size h1) with false
      by (symmetry; apply Z.ltb_ge; lia).
    cbn [orb].
    destruct (hamming_accumulate (HashData.hash h1) (HashData.hash h2)
                (Z.to_nat (HashData.hash_size h1))) as [Hd Hiff]; [lia|lia|].
    rewrite (firstn_all2 (HashData.hash h1)), (firstn_all2 (HashData.hash h2)) in Hiff by lia.
    rewrite Z2Nat.id in Hd by lia.
    replace (INT_MAX <? _) with false by (symmetry; apply Z.ltb_ge; lia).
    eexists. split; [reflexivity|]. split; [exact Hd|]. split; [exact Hiff|].
    rewrite Hiff, <- Hr, Er. split; [intros ->; reflexivity|congruence].
Qed.

Lemma calculate_hamming_distance_spec_witness :
  exists d, calculate_hamming_distance (Some digest_a) (Some digest_b) = Done d /\
            0 <= d <= 8 * 4 /\
            (d = 0 <-> HashData.hash digest_a = HashData.hash digest_b) /\
            (d = 0 <-> hash_compare (Some digest_a) (Some digest_b) = Done 1).
Proof.
  apply (calculate_hamming_distance_spec digest_a digest_b);
    [split; reflexivity|split; reflexivity|vm_compute; discriminate|reflexivity].
Defined.

(** ** Similarity is symmetric *)

Lemma F32_mul_comm (x y : f32) : F32.mul x y = F32.mul y x.
Proof.
  unfold F32.mul.
  destruct x as [sx|sx| |sx mx ex], y as [sy|sy| |sy my ey]; simpl;
    try reflexivity; try (rewrite xorb_comm; reflexivity).
  rewrite xorb_comm, Pos.mul_comm, Z.add_comm. reflexivity.
Qed.

Lemma dot_product_comm (a b : list f32) (n : Z) : dot_product a b n = dot_product b a n.
Proof.
  unfold dot_product, for_loop. apply for_range_ext.
  intros i x _. rewrite F32_mul_comm. reflexivity.
Qed.

(** [calculate_similarity] gives the same result, bit for bit, when its two
    arguments are exchanged. *)
Theorem calculate_similarity_symmetric (vec1 vec2 : option FeatureVector.t) :
  calculate_similarity vec1 vec2 = calculate_similarity vec2 vec1.
Proof.
  destruct vec1 as [v1|], vec2 as [v2|]; try reflexivity.
  unfold calculate_similarity. rewrite (Z.eqb_sym (FeatureVector.size v2)).
  destruct (FeatureVector.size v1 =? FeatureVector.size v2) eqn:Es; [|reflexivity].
  apply Z.eqb_eq in Es. cbn [negb].
  rewrite (orb_comm (Z.of_nat (length (FeatureVector.features v2)) <? _)).
  destruct (_ || _); [reflexivity|].
  rewrite (orb_comm (flt (vector_magnitude (FeatureVector.features v2) _) _)).
  rewrite (dot_product_comm (FeatureVector.features v2)), Es.
  rewrite (F32_mul_comm (vector_magnitude (FeatureVector.features v2) _)).
  reflexivity.
Qed.

(** ** Template paths *)

Lemma string_length_app (a b : string) :
  String.length (a +:+ b) = (String.length a + String.length b)%nat.
Proof. induction a as [|c a IH]; simpl; [reflexivity|]. rewrite IH. reflexivity. Qed.

Lemma substring_all (s : string) (n : nat) :
  (String.length s <= n)%nat -> substring 0 n s = s.
Proof.
  revert n. induction s as [|c s IH]; intros n Hn.
  - destruct n; reflexivity.
  - destruct n as [|n]; simpl in *; [lia|]. rewrite IH by lia. reflexivity.
Qed.

Lemma substring_app_l (p s : string) (n : nat) :
  substring 0 (String.length p + n) (p +:+ s) = p +:+ substring 0 n s.
Proof. induction p as [|c p IH]; simpl; [reflexivity|]. rewrite IH. reflexivity. Qed.

Lemma substring_app_short (s e : string) (n : nat) :
  (n <= String.length s)%nat -> substring 0 n (s +:+ e) = substring 0 n s.
Proof.
  revert n. induction s as [|c s IH]; intros n Hn; simpl in *.
  - assert (n = 0%nat) as -> by lia. destruct e; reflexivity.
  - destruct n as [|n]; [reflexivity|]. rewrite IH by lia. reflexivity.
Qed.

Lemma list_ascii_app (a b : string) :
  list_ascii_of_string (a +:+ b) = list_ascii_of_string a ++ list_ascii_of_string b.
Proof. induction a as [|c a IH]; simpl; [reflexivity|]. rewrite IH. reflexivity. Qed.

Lemma string_app_inj_r (a b e : string) : a +:+ e = b +:+ e -> a = b.
Proof.
  intros H. apply (f_equal list_ascii_of_string) in H.
  rewrite !list_ascii_app in H. apply app_inv_tail in H.
  rewrite <- (string_of_list_ascii_of_string a), <- (string_of_list_ascii_of_string b), H.
  reflexivity.
Qed.

Lemma default_filepath_fits (u : string) :
  (String.length u <= 495)%nat ->
  default_filepath u = TEMPLATE_DIR +:+ "/" +:+ u +:+ TEMPLATE_EXTENSION.
Proof.
  intros Hu. unfold default_filepath, template_get_filepath. cbn [snd Z.eqb].
  apply substring_all.
  rewrite !string_length_app. change (Z.to_nat (512 - 1)) with 511%nat.
  change (String.length TEMPLATE_DIR) with 11%nat.
  change (String.length "/") with 1%nat.
  change (String.length TEMPLATE_EXTENSION) with 4%nat. lia.
Qed.

Lemma default_filepath_long (u : string) :
  (499 <= String.length u)%nat ->
  default_filepath u = "./templates/" +:+ substring 0 499 u.
Proof.
  intros Hu. unfold default_filepath, template_get_filepath. cbn [snd Z.eqb].
  change (Z.to_nat (512 - 1)) with (String.length "./templates/" + 499)%nat.
  change (TEMPLATE_DIR +:+ "/" +:+ u +:+ TEMPLATE_EXTENSION)
    with ("./templates/" +:+ (u +:+ TEMPLATE_EXTENSION)).
  rewrite substring_app_l, substring_app_short by exact Hu. reflexivity.
Qed.

(** The path computed for a user is [./templates/<username>.nlt] when the
    username has at most 495 characters, and then two different usernames
    never share a path. *)
Theorem default_filepath_injective (u1 u2 : string) :
  (String.length u1 <= 495)%nat -> (String.length u2 <= 495)%nat ->
  default_filepath u1 = ("./templates/" +:+ u1 +:+ ".nlt")%string /\
  (default_filepath u1 = default_filepath u2 -> u1 = u2).
Proof.
  intros H1 H2. rewrite (default_filepath_fits u1 H1). split; [reflexivity|].
  rewrite (default_filepath_fits u2 H2).
  change (TEMPLATE_DIR +:+ "/" +:+ u1 +:+ TEMPLATE_EXTENSION)
    with (("./templates/" +:+ (u1 +:+ ".nlt"))%string).
  change (TEMPLATE_DIR +:+ "/" +:+ u2 +:+ TEMPLATE_EXTENSION)
    with (("./templates/" +:+ (u2 +:+ ".nlt"))%string).
  intros H. apply String.app_inj in H. apply string_app_inj_r in H. exact H.
Qed.

Lemma default_filepath_injective_witness :
  default_filepath "alice" = "./templates/alice.nlt"%string /\
  (default_filepath "alice" = default_filepath "bob" -> "alice"%string = "bob"%string).
Proof.
  apply (default_filepath_injective "alice" "bob"); simpl; lia.
Defined.

(** The 512-byte path buffer cuts long names: for usernames of 499
    characters or more the path keeps only the first 499 characters (and no
    extension), so two such usernames with the same first 499 characters get
    the same path. *)
Theorem default_filepath_truncates (u1 u2 : string) :
  (499 <= String.length u1)%nat -> (499 <= String.length u2)%nat ->
  substring 0 499 u1 = substring 0 499 u2 ->
  default_filepath u1 = default_filepath u2 /\
  String.length (default_filepath u1) = 511%nat.
Proof.
  intros H1 H2 H. rewrite (default_filepath_long u1 H1), (default_filepath_long u2 H2), H.
  split; [reflexivity|].
  rewrite string_length_app. change (String.length "./templates/") with 12%nat.
  assert (forall (s : string) n, (n <= String.length s)%nat ->
                                 String.length (substring 0 n s) = n) as Hlen.
  { intros s. induction s as [|c s IH]; intros n Hn; simpl in *.
    - assert (n = 0%nat) as -> by lia. reflexivity.
    - destruct n as [|n]; [reflexivity|]. simpl. rewrite IH by lia. reflexivity. }
  rewrite Hlen by exact H2. reflexivity.
Qed.

Lemma default_filepath_truncates_witness :
  long_name "x" <> long_name "y" /\
  default_filepath (long_name "x") = default_filepath (long_name "y").
Proof.
  split; [vm_compute; intros H; discriminate H|].
  apply (default_filepath_truncates (long_name "x") (long_name "y"));
    vm_compute; try reflexivity; lia.
Defined.

(** ** Existence and deletion *)




(** ** Wiping *)

Lemma zero_loop_spec (n : nat) (buf : list byte) :
  (n <= length buf)%nat ->
  for_loop n (fun i b => <[i := x00]> b) buf = replicate n x00 ++ drop n buf.
Proof.
  intros Hn.
  assert (forall m, (m <= n)%nat ->
            for_loop m (fun i b => <[i := x00]> b) buf = replicate m x00 ++ drop m buf) as H.
  { intros m Hm.
    apply (for_loop_invariant
             (fun k b => (k <= n)%nat -> b = replicate k x00 ++ drop k buf)); [| |exact Hm].
    - intros _. reflexivity.
    - intros k b Hk IH _. rewrite IH by lia.
      rewrite insert_app_r_alt by (rewrite length_replicate; lia).
      rewrite length_replicate, Nat.sub_diag.
      destruct (lookup_lt_is_Some_2 buf k) as [x Hx]; [lia|].
      rewrite (drop_S buf x k Hx). cbn [insert list_insert].
      rewrite replicate_S_end, <- app_assoc. reflexivity. }
  apply H. lia.
Qed.

(** [secure_wipe] on a buffer of at least [size > 0] bytes: in a build
    without the second call it returns with the first [size] bytes set to 0
    and the rest untouched; in a build with the second call ([_WIN32] or
    [__GLIBC__]) that call is given the length [SIZE_MAX] left by the loop
    and overruns the buffer.  A NULL pointer or a zero size changes
    nothing. *)
Theorem secure_wipe_spec (extra_call : bool) (buf : list byte) (size : Z) :
  0 < size <= Z.of_nat (length buf) -> Z.of_nat (length buf) < 2 ^ 64 - 1 ->
  secure_wipe false (Some buf) size
  = Done (Some (replicate (Z.to_nat size) x00 ++ drop (Z.to_nat size) buf)) /\
  secure_wipe true (Some buf) size = Undefined /\
  secure_wipe extra_call (Some buf) 0 = Done (Some buf) /\
  secure_wipe extra_call None size = Done None.
Proof.
  intros Hs Hl. unfold secure_wipe.
  replace (size =? 0) with false by (symmetry; apply Z.eqb_neq; lia).
  replace (Z.of_nat (length buf) <? size) with false by (symmetry; apply Z.ltb_ge; lia).
  change (wrap64 (0 - 1)) with (2 ^ 64 - 1).
  replace (Z.of_nat (length buf) <? 2 ^ 64 - 1) with true by (symmetry; apply Z.ltb_lt; lia).
  rewrite zero_loop_spec by lia. cbn [Z.eqb].
  repeat split; reflexivity.
Qed.

Lemma secure_wipe_spec_witness :
  secure_wipe false (Some (bytes_of [7; 8; 9])) 2 = Done (Some (bytes_of [0; 0; 9])) /\
  secure_wipe true (Some (bytes_of [7; 8; 9])) 2 = Undefined.
Proof.
  destruct (secure_wipe_spec true (bytes_of [7; 8; 9]) 2) as (H1 & H2 & _);
    [simpl; lia|simpl; lia|].
  split; [exact H1|exact H2].
Defined.

(** ** Signs of squares, sums and roots *)

Lemma round_aux_nonneg (mx ex : Z) (lx : location) :
  nonneg_or_nan (binary_round_aux F32.prec F32.emax false mx ex lx).
Proof.
  unfold binary_round_aux.
  destruct (shr_fexp F32.prec F32.emax mx ex lx) as [mrs' e'].
  destruct (shr_fexp F32.prec F32.emax _ e' loc_Exact) as [mrs'' e''].
  destruct (shr_m mrs''); simpl; [reflexivity| |exact I].
  destruct (e'' <=? F32.emax - F32.prec); reflexivity.
Qed.

Lemma mul_self_nonneg (x : f32) : nonneg_or_nan (F32.mul x x).
Proof.
  destruct x as [s|s| |s m e]; simpl; try apply xorb_nilpotent; [exact I|].
  unfold F32.mul, SFmul. rewrite xorb_nilpotent. apply round_aux_nonneg.
Qed.

Lemma add_nonneg (x y : f32) :
  nonneg_or_nan x -> nonneg_or_nan y -> nonneg_or_nan (F32.add x y).
Proof.
  destruct x as [sx|sx| |sx mx ex], y as [sy|sy| |sy my ey]; simpl;
    intros Hx Hy; subst; try reflexivity; try exact I.
  unfold F32.add, SFadd, cond_Zopp, binary_normalize.
  change (Z.pos ?a + Z.pos ?b) with (Z.pos (a + b)).
  unfold binary_round.
  destruct (shl_align _ _ _) as [mz ez]. apply round_aux_nonneg.
Qed.

Lemma sqrt_nonneg (x : f32) : nonneg_or_nan x -> nonneg_or_nan (F32.sqrt x).
Proof.
  destruct x as [s|s| |s m e]; simpl; intros Hx; subst; try reflexivity; try exact I.
  unfold F32.sqrt, SFsqrt.
  destruct (SFsqrt_core_binary F32.prec F32.emax (Z.pos m) e) as [[mz ez] lz].
  apply round_aux_nonneg.
Qed.

Lemma nonneg_not_below_zero (x : f32) : nonneg_or_nan x -> flt x F32.zero = false.
Proof. destruct x as [s|s| |s m e]; simpl; intros Hx; subst; reflexivity. Qed.

Lemma sum_squares_nonneg (g : nat -> f32) (start count : nat) :
  nonneg_or_nan
    (for_range start count (fun i p => F32.add p (F32.mul (g i) (g i))) F32.zero).
Proof.
  apply (for_range_invariant (fun _ p => nonneg_or_nan p)); [reflexivity|].
  intros i p _ Hp. apply add_nonneg; [exact Hp|apply mul_self_nonneg].
Qed.

Lemma div_nonneg (x y : f32) :
  nonneg_or_nan x -> nonneg_or_nan y -> nonneg_or_nan (F32.div x y).
Proof.
  destruct x as [sx|sx| |sx mx ex], y as [sy|sy| |sy my ey]; simpl;
    intros Hx Hy; subst; try reflexivity; try exact I.
  unfold F32.div, SFdiv.
  destruct (SFdiv_core_binary F32.prec F32.emax (Z.pos mx) ex (Z.pos my) ey) as [[mz ez] lz].
  apply round_aux_nonneg.
Qed.

Lemma of_Z_nonneg (n : Z) : 0 <= n -> nonneg_or_nan (F32.of_Z n).
Proof.
  intros Hn. unfold F32.of_Z, binary_normalize.
  destruct n as [|p|p]; [reflexivity| |lia].
  unfold binary_round. destruct (shl_align _ _ _) as [mz ez]. apply round_aux_nonneg.
Qed.

(** What the numeric primitives built on sums of squares return is never
    below zero: a band power, a vector magnitude and a standard deviation
    each have a clear sign bit or are NaN. *)
Theorem sums_of_squares_nonneg
        (fft_output : list f32) (fft_size : Z) (res : f32) (low high : f64)
        (vec : list f32) (size : Z) :
  0 <= size ->
  (forall v, band_power fft_output fft_size res low high = Done v ->
             nonneg_or_nan v /\ flt v F32.zero = false) /\
  nonneg_or_nan (vector_magnitude vec size) /\
  flt (vector_magnitude vec size) F32.zero = false /\
  nonneg_or_nan (calculate_std_dev vec size) /\
  flt (calculate_std_dev vec size) F32.zero = false.
Proof.
  intros Hsize.
  assert (nonneg_or_nan (vector_magnitude vec size)) as Hm.
  { unfold vector_magnitude, for_loop. apply sqrt_nonneg.
    apply (sum_squares_nonneg (rd vec)). }
  assert (nonneg_or_nan (calculate_std_dev vec size)) as Hs.
  { unfold calculate_std_dev. destruct (size =? 0); [reflexivity|].
    apply sqrt_nonneg, div_nonneg; [|apply of_Z_nonneg; exact Hsize].
    unfold for_loop.
    apply (sum_squares_nonneg
             (fun i => F32.sub (rd vec i) (calculate_mean vec size)) 0 (Z.to_nat size)). }
  split; [|split; [exact Hm|split; [apply nonneg_not_below_zero; exact Hm|
                                    split; [exact Hs|apply nonneg_not_below_zero; exact Hs]]]].
  unfold band_power. intros v H.
  destruct (F64.to_size_t (F64.div low (F64.of_f32 res))) as [lo|]; [|discriminate].
  destruct (F64.to_size_t (F64.div high (F64.of_f32 res))) as [hi|]; [|discriminate].
  simpl in H. injection H as <-.
  pose proof (sum_squares_nonneg (rd fft_output) (Z.to_nat lo)
                                 (Z.to_nat (Z.min hi fft_size - lo))) as Hn.
  split; [exact Hn|apply nonneg_not_below_zero; exact Hn].
Qed.

Lemma sums_of_squares_nonneg_witness :
  nonneg_or_nan (vector_magnitude [F32.of_Z (-3); F32.of_Z 4] 2) /\
  flt (calculate_std_dev [F32.of_Z (-3); F32.of_Z 4] 2) F32.zero = false.
Proof.
  destruct (sums_of_squares_nonneg [] 128 F32.one DELTA_LOW DELTA_HIGH
              [F32.of_Z (-3); F32.of_Z 4] 2) as (_ & H1 & _ & _ & H2); [lia|].
  split; [exact H1|exact H2].
Defined.

(** ** Layout of the band powers *)

Lemma fill_loop_full (g : nat -> f32) (buf : list f32) :
  for_loop (length buf) (fun k out => <[k := g k]> out) buf = map g (seq 0 (length buf)).
Proof.
  destruct (fill_loop_spec g (length buf) buf (Nat.le_refl _)) as (Hl & Hset & _).
  apply list_eq. intros j.
  destruct (Nat.lt_ge_cases j (length buf)) as [Hj|Hj].
  - rewrite Hset by exact Hj. rewrite list_lookup_fmap, lookup_seq_lt by exact Hj.
    reflexivity.
  - rewrite !lookup_ge_None_2; [reflexivity| |lia].
    rewrite length_map, length_seq. exact Hj.
Qed.

Lemma fill_loop_any (g : nat -> f32) (buf : list f32) (n : nat) :
  length buf = n -> for_loop n (fun k out => <[k := g k]> out) buf = map g (seq 0 n).
Proof. intros <-. apply fill_loop_full. Qed.

Lemma compute_fft_overwrites (cosf sinf : f32 -> f32) (input out1 out2 : list f32) (size : Z) :
  length out1 = Z.to_nat (size / 2) -> length out2 = Z.to_nat (size / 2) ->
  compute_fft cosf sinf input out1 size = compute_fft cosf sinf input out2 size.
Proof.
  intros H1 H2. unfold compute_fft. f_equal.
  rewrite (fill_loop_any _ out1 _ H1), (fill_loop_any _ out2 _ H2). reflexivity.
Qed.

Lemma compute_fft_length (cosf sinf : f32 -> f32) (input out : list f32) (size : Z) :
  length (snd (compute_fft cosf sinf input out size)) = length out.
Proof.
  unfold compute_fft. cbn [snd].
  apply (for_loop_invariant (fun _ o => length o = length out)); [reflexivity|].
  intros k o _ Ho. rewrite length_insert. exact Ho.
Qed.

Lemma lookup_insert_same (l : list f32) (i j : nat) (x : f32) :
  i = j -> (j < length l)%nat -> <[i := x]> l !! j = Some x.
Proof. intros -> Hj. apply list_lookup_insert_eq. exact Hj. Qed.

Lemma put_band_value (fft_size : Z) (res : f32) (low high : f64) (st : bp_state) (v : f32) :
  band_power (fft_output st) fft_size res low high = Done v ->
  (feature_idx st < length (out_features st))%nat ->
  put_band fft_size res low high st
  = Done (mk_bp (S (feature_idx st)) (<[feature_idx st := v]> (out_features st))
                (fft_output st)).
Proof.
  intros Hv Hidx. unfold put_band. rewrite Hv. cbn [obind].
  apply Nat.ltb_lt in Hidx. rewrite Hidx. reflexivity.
Qed.

Lemma band_power_defined (fft : list f32) (fft_size : Z) (res : f32) (low high : f64) :
  F64.to_size_t (F64.div low (F64.of_f32 res)) <> None ->
  F64.to_size_t (F64.div high (F64.of_f32 res)) <> None ->
  exists v, band_power fft fft_size res low high = Done v.
Proof.
  intros Hlo Hhi. unfold band_power.
  destruct (F64.to_size_t (F64.div low (F64.of_f32 res))); [|congruence].
  destruct (F64.to_size_t (F64.div high (F64.of_f32 res))); [|congruence].
  eexists. reflexivity.
Qed.

Lemma band_power_channel_values (cosf sinf : f32 -> f32) (d : EEGData.t)
      (ch : nat) (st : bp_state) :
  WINDOW_SIZE <= EEGData.num_samples d ->
  WINDOW_SIZE <= Z.of_nat (length (drop (ch * Z.to_nat (EEGData.num_samples d))%nat
                                        (EEGData.data d))) ->
  band_edges_defined (EEGData.sampling_rate d) = true ->
  (feature_idx st + 5 <= length (out_features st))%nat ->
  length (fft_output st) = Z.to_nat (WINDOW_SIZE / 2) ->
  exists st',
    band_power_channel cosf sinf d (WINDOW_SIZE / 2) ch st = Done st' /\
    feature_idx st' = (feature_idx st + 5)%nat /\
    length (out_features st') = length (out_features st) /\
    length (fft_output st') = Z.to_nat (WINDOW_SIZE / 2) /\
    (forall b, (b < 5)%nat ->
       exists v, band_value cosf sinf d ch b = Done v /\
                 out_features st' !! (feature_idx st + b)%nat = Some v) /\
    (forall k, (k < feature_idx st \/ feature_idx st + 5 <= k)%nat ->
       out_features st' !! k = out_features st !! k).
Proof.
  intros Hns Hlen Hb Hidx Hfft. unfold band_power_channel.
  apply Z.leb_le in Hns. rewrite Hns.
  replace (Z.of_nat (length (drop (ch * Z.to_nat (EEGData.num_samples d))%nat (EEGData.data d)))
           <? WINDOW_SIZE) with false by (symmetry; apply Z.ltb_ge; exact Hlen).
  set (cd := drop (ch * Z.to_nat (EEGData.num_samples d))%nat (EEGData.data d)).
  set (res := F32.div (EEGData.sampling_rate d) (F32.of_Z WINDOW_SIZE)) in *.
  assert (snd (compute_fft cosf sinf cd (fft_output st) WINDOW_SIZE) = spectrum cosf sinf cd)
    as Hspec.
  { unfold spectrum. f_equal. apply compute_fft_overwrites; [exact Hfft|].
    apply length_replicate. }
  rewrite Hspec.
  assert (length (spectrum cosf sinf cd) = Z.to_nat (WINDOW_SIZE / 2)) as Hsl.
  { unfold spectrum. rewrite compute_fft_length. apply length_replicate. }
  assert (forall edge,
            In edge [DELTA_LOW; DELTA_HIGH; THETA_LOW; THETA_HIGH; ALPHA_LOW; ALPHA_HIGH;
                     BETA_LOW; BETA_HIGH; GAMMA_LOW; GAMMA_HIGH] ->
            F64.to_size_t (F64.div edge (F64.of_f32 res)) <> None) as Hedge.
  { intros edge Hin. unfold band_edges_defined in Hb.
    rewrite forallb_forall in Hb. specialize (Hb edge Hin). fold res in Hb.
    destruct (F64.to_size_t (F64.div edge (F64.of_f32 res))); congruence. }
  set (fft := spectrum cosf sinf cd) in *.
  destruct (band_power_defined fft (WINDOW_SIZE / 2) res DELTA_LOW DELTA_HIGH) as [v0 E0];
    [apply Hedge; cbn [In]; auto 12|apply Hedge; cbn [In]; auto 12|].
  destruct (band_power_defined fft (WINDOW_SIZE / 2) res THETA_LOW THETA_HIGH) as [v1 E1];
    [apply Hedge; cbn [In]; auto 12|apply Hedge; cbn [In]; auto 12|].
  destruct (band_power_defined fft (WINDOW_SIZE / 2) res ALPHA_LOW ALPHA_HIGH) as [v2 E2];
    [apply Hedge; cbn [In]; auto 12|apply Hedge; cbn [In]; auto 12|].
  destruct (band_power_defined fft (WINDOW_SIZE / 2) res BETA_LOW BETA_HIGH) as [v3 E3];
    [apply Hedge; cbn [In]; auto 12|apply Hedge; cbn [In]; auto 12|].
  destruct (band_power_defined fft (WINDOW_SIZE / 2) res GAMMA_LOW GAMMA_HIGH) as [v4 E4];
    [apply Hedge; cbn [In]; auto 12|apply Hedge; cbn [In]; auto 12|].
  set (i := feature_idx st) in *. set (f := out_features st) in *.
  rewrite (put_band_value _ _ _ _ (mk_bp i f fft) v0 E0) by (cbn; lia).
  cbn [obind feature_idx out_features fft_output].
  rewrite (put_band_value _ _ _ _ (mk_bp (S i) _ fft) v1 E1)
    by (cbn [feature_idx out_features]; rewrite !length_insert; lia).
  cbn [obind feature_idx out_features fft_output].
  rewrite (put_band_value _ _ _ _ (mk_bp (S (S i)) _ fft) v2 E2)
    by (cbn [feature_idx out_features]; rewrite !length_insert; lia).
  cbn [obind feature_idx out_features fft_output].
  rewrite (put_band_value _ _ _ _ (mk_bp (S (S (S i))) _ fft) v3 E3)
    by (cbn [feature_idx out_features]; rewrite !length_insert; lia).
  cbn [obind feature_idx out_features fft_output].
  rewrite (put_band_value _ _ _ _ (mk_bp (S (S (S (S i)))) _ fft) v4 E4)
    by (cbn [feature_idx out_features]; rewrite !length_insert; lia).
  eexists. split; [reflexivity|]. cbn [feature_idx out_features fft_output].
  split; [lia|]. split; [rewrite !length_insert; reflexivity|]. split; [exact Hsl|]. split.
  - intros b Hb5. unfold band_value. fold cd res fft.
    assert (b = 0 \/ b = 1 \/ b = 2 \/ b = 3 \/ b = 4)%nat as Hcases by lia.
    destruct Hcases as [->|[->|[->|[->| ->]]]]; cbn [bands lookup list_lookup].
    + exists v0. split; [exact E0|].
      repeat (rewrite list_lookup_insert_ne by lia).
      apply lookup_insert_same; [lia|rewrite ?length_insert; lia].
    + exists v1. split; [exact E1|].
      repeat (rewrite list_lookup_insert_ne by lia).
      apply lookup_insert_same; [lia|rewrite ?length_insert; lia].
    + exists v2. split; [exact E2|].
      repeat (rewrite list_lookup_insert_ne by lia).
      apply lookup_insert_same; [lia|rewrite ?length_insert; lia].
    + exists v3. split; [exact E3|].
      repeat (rewrite list_lookup_insert_ne by lia).
      apply lookup_insert_same; [lia|rewrite ?length_insert; lia].
    + exists v4. split; [exact E4|].
      apply lookup_insert_same; [lia|rewrite ?length_insert; lia].
  - intros k Hk. repeat (rewrite list_lookup_insert_ne by lia). reflexivity.
Qed.

Lemma band_power_nonneg (fft : list f32) (fft_size : Z) (res : f32) (low high : f64) (v : f32) :
  band_power fft fft_size res low high = Done v -> nonneg_or_nan v.
Proof.
  unfold band_power. intros H.
  destruct (F64.to_size_t (F64.div low (F64.of_f32 res))) as [lo|]; [|discriminate].
  destruct (F64.to_size_t (F64.div high (F64.of_f32 res))) as [hi|]; [|discriminate].
  simpl in H. injection H as <-.
  apply (sum_squares_nonneg (rd fft)).
Qed.

(** With at least 256 samples per channel, [extract_band_power] returns 0
    and fills the output channel-major, band-minor: slot [5 * ch + b] holds
    the power of band [b] (delta, theta, alpha, beta, gamma) computed from
    the spectrum of the first 256 samples of channel [ch], a value that is
    never below zero; slots from [5 * num_channels] on keep what they held. *)
Theorem extract_band_power_layout
        (alloc_ok : Z -> bool) (cosf sinf : f32 -> f32)
        (d : EEGData.t) (out : FeatureVector.t) :
  alloc_ok (WINDOW_SIZE / 2 * 4) = true ->
  0 <= EEGData.num_channels d -> WINDOW_SIZE <= EEGData.num_samples d ->
  EEGData.num_channels d * EEGData.num_samples d <= Z.of_nat (length (EEGData.data d)) ->
  band_edges_defined (EEGData.sampling_rate d) = true ->
  5 * EEGData.num_channels d <= Z.of_nat (length (FeatureVector.features out)) ->
  exists feats,
    extract_band_power alloc_ok cosf sinf (Some d) (Some out)
    = Done (0, Some (FeatureVector.mk feats (FeatureVector.size out)
                                      (FeatureVector.task_type out)
                                      (FeatureVector.timestamp out))) /\
    length feats = length (FeatureVector.features out) /\
    (forall ch b, Z.of_nat ch < EEGData.num_channels d -> (b < 5)%nat ->
       exists v, band_value cosf sinf d ch b = Done v /\
                 feats !! (5 * ch + b)%nat = Some v /\
                 nonneg_or_nan v) /\
    (forall k, 5 * EEGData.num_channels d <= Z.of_nat k ->
       feats !! k = FeatureVector.features out !! k).
Proof.
  intros Hal Hnc Hns Hlen Hb Hcap.
  unfold extract_band_power. rewrite Hal. cbn [negb].
  set (nc := Z.to_nat (EEGData.num_channels d)).
  set (n := Z.to_nat (EEGData.num_samples d)).
  set (f0 := FeatureVector.features out).
  assert (nc * n <= length (EEGData.data d))%nat as Hlen'.
  { apply Nat2Z.inj_le. subst nc n. rewrite Nat2Z.inj_mul, !Z2Nat.id by (unfold WINDOW_SIZE in *; lia).
    exact Hlen. }
  assert (exists st,
            for_loop nc
              (fun ch acc => s <- acc ;;; band_power_channel cosf sinf d (WINDOW_SIZE / 2) ch s)
              (Done (mk_bp 0 f0 (replicate (Z.to_nat (WINDOW_SIZE / 2)) F32.zero)))
            = Done st /\
            length (out_features st) = length f0 /\
            (forall ch b, (ch < nc)%nat -> (b < 5)%nat ->
               exists v, band_value cosf sinf d ch b = Done v /\
                         out_features st !! (5 * ch + b)%nat = Some v) /\
            (forall k, (5 * nc <= k)%nat -> out_features st !! k = f0 !! k)) as Hloop.
  { assert (forall m, (m <= nc)%nat ->
              exists st,
                for_loop m
                  (fun ch acc =>
                     s <- acc ;;; band_power_channel cosf sinf d (WINDOW_SIZE / 2) ch s)
                  (Done (mk_bp 0 f0 (replicate (Z.to_nat (WINDOW_SIZE / 2)) F32.zero)))
                = Done st /\
                feature_idx st = (5 * m)%nat /\
                length (out_features st) = length f0 /\
                length (fft_output st) = Z.to_nat (WINDOW_SIZE / 2) /\
                (forall ch b, (ch < m)%nat -> (b < 5)%nat ->
                   exists v, band_value cosf sinf d ch b = Done v /\
                             out_features st !! (5 * ch + b)%nat = Some v) /\
                (forall k, (5 * m <= k)%nat -> out_features st !! k = f0 !! k)) as Hm.
    { intros m Hm.
      apply (for_loop_invariant
               (fun m x =>
                  (m <= nc)%nat ->
                  exists st, x = Done st /\
                    feature_idx st = (5 * m)%nat /\
                    length (out_features st) = length f0 /\
                    length (fft_output st) = Z.to_nat (WINDOW_SIZE / 2) /\
                    (forall ch b, (ch < m)%nat -> (b < 5)%nat ->
                       exists v, band_value cosf sinf d ch b = Done v /\
                                 out_features st !! (5 * ch + b)%nat = Some v) /\
                    (forall k, (5 * m <= k)%nat -> out_features st !! k = f0 !! k)));
        [| |exact Hm].
      - intros _. eexists. split; [reflexivity|]. cbn [feature_idx out_features fft_output].
        split; [lia|]. split; [reflexivity|]. split; [apply length_replicate|].
        split; [intros; lia|reflexivity].
      - intros k x Hk IH Hk'. destruct IH as (st & -> & Hi & Hl & Hf & Hv & Hr); [lia|].
        cbn [obind].
        destruct (band_power_channel_values cosf sinf d k st Hns)
          as (st' & E & Hi' & Hl' & Hf' & Hv' & Hr').
        + rewrite length_drop. fold n.
          assert ((k + 1) * n <= nc * n)%nat by (apply Nat.mul_le_mono_r; lia).
          assert (Z.to_nat WINDOW_SIZE <= n)%nat by (subst n; lia).
          unfold WINDOW_SIZE in *. lia.
        + exact Hb.
        + subst nc. unfold f0 in *. lia.
        + exact Hf.
        + exists st'. split; [exact E|]. split; [lia|]. split; [congruence|].
          split; [exact Hf'|]. split.
          * intros ch b Hch Hb5. destruct (Nat.eq_dec ch k) as [->|Hne].
            -- destruct (Hv' b Hb5) as (v & Ev & Hv2). exists v. split; [exact Ev|].
               rewrite <- Hv2. f_equal. lia.
            -- rewrite Hr' by lia. apply Hv; [lia|exact Hb5].
          * intros j Hj. rewrite Hr' by lia. apply Hr. lia. }
    destruct (Hm nc (Nat.le_refl _)) as (st & E & _ & Hl & _ & Hv & Hr).
    exists st. auto. }
  destruct Hloop as (st & E & Hl & Hv & Hr).
  rewrite E. cbn [obind]. exists (out_features st).
  split; [reflexivity|]. split; [exact Hl|]. split.
  - intros ch b Hch Hb5. destruct (Hv ch b) as (v & Ev & Hv2); [subst nc; lia|exact Hb5|].
    exists v. split; [exact Ev|]. split; [exact Hv2|].
    unfold band_value in Ev. destruct (bands !! b) as [[lo hi]|]; [|discriminate].
    exact (band_power_nonneg _ _ _ _ _ _ Ev).
  - intros k Hk. apply Hr. subst nc. lia.
Qed.

Lemma extract_band_power_layout_witness :
  exists feats,
    extract_band_power always_served id id (Some long_trial)
      (Some (FeatureVector.mk (replicate 40 F32.zero) 40 TASK_EYES_CLOSED_REST 0))
    = Done (0, Some (FeatureVector.mk feats 40 TASK_EYES_CLOSED_REST 0)) /\
    (exists v, band_value id id long_trial 0 2 = Done v /\ feats !! 2%nat = Some v) /\
    feats !! 5%nat = Some F32.zero.
Proof.
  destruct (extract_band_power_layout always_served id id long_trial
              (FeatureVector.mk (replicate 40 F32.zero) 40 TASK_EYES_CLOSED_REST 0))
    as (feats & E & _ & Hv & Hr);
    [reflexivity|vm_compute; discriminate|vm_compute; discriminate|vm_compute; discriminate
     |vm_compute; reflexivity|vm_compute; discriminate|].
  exists feats. split; [exact E|]. split.
  - destruct (Hv 0%nat 2%nat) as (v & Ev & Hl & _); [reflexivity|lia|].
    exists v. split; [exact Ev|exact Hl].
  - rewrite (Hr 5%nat); [reflexivity|vm_compute; discriminate].
Defined.

(** ** Encodings *)

Lemma byte_of_Z_of_byte (b : byte) : byte_of_Z (Z_of_byte b) = b.
Proof.
  unfold byte_of_Z. pose proof (Z_of_byte_range b) as Hr.
  rewrite Z.mod_small by exact Hr. unfold Z_of_byte. rewrite N2Z.id, Byte.of_to_N.
  reflexivity.
Qed.

Lemma Z_of_byte_of_Z (z : Z) : Z_of_byte (byte_of_Z z) = z mod 256.
Proof.
  unfold byte_of_Z, Z_of_byte.
  pose proof (Z.mod_pos_bound z 256 ltac:(lia)) as Hr.
  destruct (Byte.of_N (Z.to_N (z mod 256))) as [b|] eqn:E.
  - apply Byte.to_of_N in E. rewrite E. lia.
  - exfalso. pose proof (Byte.of_N_None_iff (Z.to_N (z mod 256))) as Hn.
    apply Hn in E. lia.
Qed.

Lemma le_encode_length (n : nat) (z : Z) : length (le_encode n z) = n.
Proof. revert z. induction n as [|n IH]; intros z; simpl; [reflexivity|]. rewrite IH. reflexivity. Qed.

Lemma le_decode_encode (n : nat) (z : Z) :
  le_decode (le_encode n z) = z mod 2 ^ (8 * Z.of_nat n).
Proof.
  revert z. induction n as [|n IH]; intros z.
  - simpl. rewrite Z.mod_1_r. reflexivity.
  - cbn [le_encode le_decode]. rewrite IH, Z_of_byte_of_Z.
    replace (8 * Z.of_nat (S n)) with (8 + 8 * Z.of_nat n) by lia.
    rewrite Z.pow_add_r by lia. change (2 ^ 8) with 256.
    rewrite Z.rem_mul_r by lia. reflexivity.
Qed.

Lemma to_signed_wrap (bits z : Z) :
  0 < bits -> - 2 ^ (bits - 1) <= z < 2 ^ (bits - 1) -> to_signed bits (z mod 2 ^ bits) = z.
Proof.
  intros Hb Hz. unfold to_signed.
  assert (2 ^ bits = 2 * 2 ^ (bits - 1)) as Hp.
  { replace bits with (1 + (bits - 1)) at 1 by lia. rewrite Z.pow_add_r by lia. reflexivity. }
  rewrite Z.mod_mod by lia.
  destruct (Z.ltb_spec (z mod 2 ^ bits) (2 ^ (bits - 1))) as [Hlt|Hge].
  - destruct (Z.neg_nonneg_cases z) as [Hneg|Hpos].
    + exfalso. assert (z mod 2 ^ bits = z + 2 ^ bits) as E.
      { symmetry. apply (Z.mod_unique z (2 ^ bits) (-1)); lia. }
      lia.
    + apply Z.mod_small. lia.
  - destruct (Z.neg_nonneg_cases z) as [Hneg|Hpos].
    + assert (z mod 2 ^ bits = z + 2 ^ bits) as E.
      { symmetry. apply (Z.mod_unique z (2 ^ bits) (-1)); lia. }
      lia.
    + exfalso. rewrite Z.mod_small in Hge by lia. lia.
Qed.

Lemma digits2_pos_bounds (m : positive) :
  2 ^ (Z.pos (digits2_pos m) - 1) <= Z.pos m < 2 ^ Z.pos (digits2_pos m).
Proof.
  induction m as [m IH|m IH|]; cbn [digits2_pos]; [| |simpl; lia];
    rewrite Pos2Z.inj_succ;
    replace (Z.succ (Z.pos (digits2_pos m)) - 1) with (1 + (Z.pos (digits2_pos m) - 1)) by lia;
    unfold Z.succ; rewrite (Z.add_comm (Z.pos (digits2_pos m)) 1);
    rewrite !Z.pow_add_r by lia; change (2 ^ 1) with 2; lia.
Qed.

Lemma valid_finite_cases (m : positive) (e : Z) :
  bounded F32.prec F32.emax m e = true ->
  (Z.pos m < 2 ^ 23 /\ e = -149) \/
  (2 ^ 23 <= Z.pos m < 2 ^ 24 /\ -149 <= e <= 104).
Proof.
  intros Hb. destruct (bounded_cases m e Hb) as [Hc He].
  pose proof (digits2_pos_bounds m) as Hd.
  destruct (Z_lt_le_dec (Z.pos (digits2_pos m)) 24) as [Hlt|Hge].
  - left. split; [|lia].
    apply Z.lt_le_trans with (2 ^ Z.pos (digits2_pos m)); [lia|].
    apply Z.pow_le_mono_r; lia.
  - right. assert (Z.pos (digits2_pos m) = 24) as E by lia. rewrite E in Hd.
    change (2 ^ (24 - 1)) with (2 ^ 23) in Hd. lia.
Qed.

Lemma f32_bits_roundtrip (x : f32) : F32.valid x = true -> f32_of_bits (f32_to_bits x) = x.
Proof.
  intros Hv. destruct x as [s|s| |s m e]; [destruct s; reflexivity|destruct s; reflexivity
                                          |reflexivity|].
  simpl in Hv. unfold f32_to_bits, f32_of_bits.
  set (sb := if s then 2 ^ 31 else 0).
  assert (sb = 0 \/ sb = 2 ^ 31) as Hsb by (subst sb; destruct s; auto).
  assert (forall r, 0 <= r < 2 ^ 31 -> Z.testbit (sb + r) 31 = s) as Hsign.
  { intros r Hr. rewrite Z.testbit_odd, Z.shiftr_div_pow2 by lia.
    subst sb. destruct s.
    - replace ((2 ^ 31 + r) / 2 ^ 31) with 1; [reflexivity|].
      apply Z.div_unique with r; lia.
    - rewrite Z.add_0_l, Z.div_small by lia. reflexivity. }
  assert (forall r, 0 <= r < 2 ^ 31 -> ((sb + r) / 2 ^ 23) mod 256 = r / 2 ^ 23) as HE.
  { intros r Hr.
    assert (0 <= r / 2 ^ 23 < 256) as Hq
        by (split; [apply Z.div_pos; lia|apply Z.div_lt_upper_bound; lia]).
    destruct Hsb as [-> | ->].
    - rewrite Z.add_0_l. apply Z.mod_small. exact Hq.
    - change (2 ^ 31) with (256 * 2 ^ 23). rewrite Z.add_comm, Z.div_add by lia.
      rewrite Z.add_comm, Z.add_mod, Z.mod_same, Z.add_0_l, Z.mod_mod by lia.
      apply Z.mod_small. exact Hq. }
  assert (forall r, 0 <= r < 2 ^ 31 -> (sb + r) mod 2 ^ 23 = r mod 2 ^ 23) as Hfr.
  { intros r Hr. destruct Hsb as [-> | ->]; [reflexivity|].
    change (2 ^ 31) with (256 * 2 ^ 23). rewrite Z.add_comm, Z.mod_add by lia. reflexivity. }
  destruct (valid_finite_cases m e Hv) as [[Hm He]|[Hm He]].
  - replace (Z.pos m <? 2 ^ 23) with true by (symmetry; apply Z.ltb_lt; exact Hm).
    rewrite Hsign, HE, Hfr by lia.
    rewrite Z.div_small, Z.mod_small by lia. cbn [Z.eqb]. subst e. reflexivity.
  - replace (Z.pos m <? 2 ^ 23) with false by (symmetry; apply Z.ltb_ge; lia).
    set (r := (e + 150) * 2 ^ 23 + (Z.pos m - 2 ^ 23)).
    assert (0 <= r < 2 ^ 31) as Hr by (subst r; lia).
    rewrite Hsign, HE, Hfr by exact Hr.
    assert (r / 2 ^ 23 = e + 150) as Eq.
    { subst r. symmetry. apply Z.div_unique with (Z.pos m - 2 ^ 23); lia. }
    assert (r mod 2 ^ 23 = Z.pos m - 2 ^ 23) as Em.
    { subst r. symmetry. apply Z.mod_unique with (e + 150); lia. }
    rewrite Eq, Em.
    replace (e + 150 =? 0) with false by (symmetry; apply Z.eqb_neq; lia).
    replace (e + 150 =? 255) with false by (symmetry; apply Z.eqb_neq; lia).
    replace (Z.pos m - 2 ^ 23 + 2 ^ 23) with (Z.pos m) by lia.
    f_equal. lia.
Qed.

Lemma f32_to_bits_range (x : f32) : F32.valid x = true -> 0 <= f32_to_bits x < 2 ^ 32.
Proof.
  intros Hv. destruct x as [s|s| |s m e]; simpl f32_to_bits.
  - destruct s; lia.
  - destruct s; lia.
  - lia.
  - simpl in Hv. destruct (valid_finite_cases m e Hv) as [[Hm He]|[Hm He]].
    + replace (Z.pos m <? 2 ^ 23) with true by (symmetry; apply Z.ltb_lt; exact Hm).
      destruct s; lia.
    + replace (Z.pos m <? 2 ^ 23) with false by (symmetry; apply Z.ltb_ge; lia).
      destruct s; lia.
Qed.

Lemma floats_bytes_length (l : list f32) : length (floats_bytes l) = (4 * length l)%nat.
Proof.
  induction l as [|x l IH]; [reflexivity|].
  unfold floats_bytes in *. cbn [flat_map]. rewrite length_app, IH.
  unfold f32_bytes. rewrite le_encode_length. simpl. lia.
Qed.

Lemma bytes_floats_roundtrip (l : list f32) (rest : list byte) :
  Forall (fun x => F32.valid x = true) l ->
  bytes_floats (length l) (floats_bytes l ++ rest) = l.
Proof.
  induction 1 as [|x l Hx _ IH]; [reflexivity|].
  unfold floats_bytes in *. cbn [flat_map length bytes_floats].
  rewrite <- app_assoc.
  assert (length (f32_bytes x) = 4%nat) as H4 by apply le_encode_length.
  rewrite (take_app_length' _ _ 4 (eq_sym H4)), (drop_app_length' _ _ 4 (eq_sym H4)), IH.
  unfold f32_bytes. rewrite le_decode_encode.
  change (8 * Z.of_nat 4) with 32.
  rewrite Z.mod_small by (apply f32_to_bits_range; exact Hx).
  rewrite f32_bits_roundtrip by exact Hx. reflexivity.
Qed.

Lemma read_chunk (buf : list byte) (size nmemb : Z) (c pre w rest : list byte) (p : Z) :
  c = pre ++ w ++ rest -> p = Z.of_nat (length pre) ->
  size * nmemb = Z.of_nat (length w) -> length buf = length w ->
  fread buf size nmemb (mkFILE c p) = (w, mkFILE c (p + size * nmemb)).
Proof.
  intros -> -> Hn Hb. unfold fread. cbn [f_bytes f_pos].
  rewrite Nat2Z.id, drop_app_length, Hn, Nat2Z.id, take_app_length.
  rewrite <- Hb, drop_all, app_nil_r. reflexivity.
Qed.

Lemma username_bytes_length (u : list byte) : length (username_bytes u) = 64%nat.
Proof.
  unfold username_bytes. rewrite length_take, length_app, length_replicate. lia.
Qed.

Lemma username_bytes_id (u : list byte) : length u = 64%nat -> username_bytes u = u.
Proof.
  intros H. unfold username_bytes. rewrite <- H, take_app_length. reflexivity.
Qed.

(** ** What survives a save and a load *)

(** Loading the file that [template_save] wrote for a template whose members
    hold values of their C types gives back the version, the username, the
    task label and the two timestamps, and, when the load returns 0, the
    feature values and their count.  (The hash and the salt are not given
    back.) *)
Theorem template_reload_metadata
        (alloc_ok : Z -> bool) (fs : gmap string (list byte)) (path : string)
        (t : Template.t) (fv : FeatureVector.t) (hd : HashData.t)
        (out : Template.t) (g : Z * Z * Z) :
  storable t fv ->
  fs !! path = Some (concat (template_save_writes t fv hd)) ->
  feature_vector_alloc alloc_ok (FeatureVector.size fv) <> None ->
  exists t',
    snd (template_load alloc_ok fs (Some path) (Some out) g) = Some t' /\
    Template.version t' = Template.version t /\
    Template.username t' = Template.username t /\
    Template.task_type t' = Template.task_type t /\
    Template.created_at t' = Template.created_at t /\
    Template.last_used t' = Template.last_used t /\
    (fst (template_load alloc_ok fs (Some path) (Some out) g) = 0 ->
     exists fv', Template.features t' = Some fv' /\
                 FeatureVector.features fv' = FeatureVector.features fv /\
                 FeatureVector.size fv' = FeatureVector.size fv).
Proof.
  intros (Hu & Hver & Htask & Hcr & Hlu & Hwf & Hval) Hfile Halloc.
  unfold FeatureVector.wf in Hwf.
  unfold template_load. rewrite Hfile. cbv zeta.
  set (c := concat (template_save_writes t fv hd)).
  set (w1 := le_encode 4 (Template.version t)).
  set (w2 := username_bytes (Template.username t)).
  set (w3 := le_encode 4 (Template.task_type t)).
  set (w4 := le_encode 8 (Template.created_at t)).
  set (w5 := le_encode 8 (Template.last_used t)).
  set (w6 := le_encode 8 (FeatureVector.size fv)).
  set (w7 := floats_bytes (FeatureVector.features fv)).
  assert (exists rest, c = w1 ++ w2 ++ w3 ++ w4 ++ w5 ++ w6 ++ w7 ++ rest) as [rest Hc].
  { eexists. subst c. unfold template_save_writes. cbn [concat].
    rewrite (firstn_all2 (FeatureVector.features fv)) by lia. reflexivity. }
  assert (length w1 = 4%nat) as L1 by apply le_encode_length.
  assert (length w2 = 64%nat) as L2 by apply username_bytes_length.
  assert (length w3 = 4%nat) as L3 by apply le_encode_length.
  assert (length w4 = 8%nat) as L4 by apply le_encode_length.
  assert (length w5 = 8%nat) as L5 by apply le_encode_length.
  assert (length w6 = 8%nat) as L6 by apply le_encode_length.
  rewrite (read_chunk _ 4 1 c [] w1 _ 0 Hc)
    by (rewrite ?le_encode_length, ?L1; reflexivity).
  cbv beta iota.
  rewrite (read_chunk _ 1 64 c w1 w2 (w3 ++ w4 ++ w5 ++ w6 ++ w7 ++ rest) _)
    by (rewrite ?Hc, ?L1, ?L2, ?username_bytes_length; reflexivity).
  cbv beta iota.
  rewrite (read_chunk _ 4 1 c (w1 ++ w2) w3 (w4 ++ w5 ++ w6 ++ w7 ++ rest) _)
    by (rewrite ?Hc, ?length_app, ?L1, ?L2, ?L3, ?le_encode_length, <- ?app_assoc;
        reflexivity).
  cbv beta iota.
  rewrite (read_chunk _ 8 1 c (w1 ++ w2 ++ w3) w4 (w5 ++ w6 ++ w7 ++ rest) _)
    by (rewrite ?Hc, ?length_app, ?L1, ?L2, ?L3, ?L4, ?le_encode_length, <- ?app_assoc;
        reflexivity).
  cbv beta iota.
  rewrite (read_chunk _ 8 1 c (w1 ++ w2 ++ w3 ++ w4) w5 (w6 ++ w7 ++ rest) _)
    by (rewrite ?Hc, ?length_app, ?L1, ?L2, ?L3, ?L4, ?L5, ?le_encode_length, <- ?app_assoc;
        reflexivity).
  cbv beta iota.
  rewrite (read_chunk _ 8 1 c (w1 ++ w2 ++ w3 ++ w4 ++ w5) w6 (w7 ++ rest) _)
    by (rewrite ?Hc, ?length_app, ?L1, ?L2, ?L3, ?L4, ?L5, ?L6, ?le_encode_length,
          <- ?app_assoc; reflexivity).
  cbv beta iota.
  assert (FeatureVector.size fv * 4 < 2 ^ 64) as Hsz.
  { unfold feature_vector_alloc, calloc_ok in Halloc.
    destruct (negb (alloc_ok sizeof_FeatureVector)); [congruence|].
    destruct (FeatureVector.size fv * 4 <? 2 ^ 64) eqn:E; [apply Z.ltb_lt; exact E|].
    cbn in Halloc. congruence. }
  assert (le_decode w6 = FeatureVector.size fv) as D6.
  { subst w6. rewrite le_decode_encode. apply Z.mod_small. change (8 * Z.of_nat 8) with 64. lia. }
  rewrite D6.
  destruct (feature_vector_alloc alloc_ok (FeatureVector.size fv)) as [fv0|] eqn:Efv;
    [clear Halloc|congruence].
  assert (FeatureVector.features fv0
          = replicate (length (FeatureVector.features fv)) F32.zero
          /\ FeatureVector.size fv0 = FeatureVector.size fv) as [Hf0 Hs0].
  { unfold feature_vector_alloc in Efv.
    destruct (negb (alloc_ok sizeof_FeatureVector)); [discriminate|].
    destruct (negb (calloc_ok alloc_ok (FeatureVector.size fv) 4)); [discriminate|].
    injection Efv as <-. cbn. rewrite <- Hwf, Nat2Z.id. auto. }
  assert (length w7 = (4 * length (FeatureVector.features fv))%nat) as L7
      by apply floats_bytes_length.
  rewrite (read_chunk _ 4 (FeatureVector.size fv) c (w1 ++ w2 ++ w3 ++ w4 ++ w5 ++ w6) w7 rest _)
    by (rewrite ?Hc, ?Hf0, ?floats_bytes_length, ?length_replicate, ?length_app,
          ?L1, ?L2, ?L3, ?L4, ?L5, ?L6, ?L7, <- ?app_assoc; try reflexivity; lia).
  cbv beta iota.
  assert (bytes_floats (Z.to_nat (FeatureVector.size fv)) w7 = FeatureVector.features fv) as D7.
  { rewrite <- Hwf, Nat2Z.id. rewrite <- (app_nil_r w7).
    apply bytes_floats_roundtrip. exact Hval. }
  rewrite D7.
  assert (le_decode w1 = Template.version t) as D1.
  { subst w1. rewrite le_decode_encode. apply Z.mod_small. change (8 * Z.of_nat 4) with 32. lia. }
  assert (to_signed 32 (le_decode w3) = Template.task_type t) as D3.
  { subst w3. rewrite le_decode_encode. change (8 * Z.of_nat 4) with 32.
    apply to_signed_wrap; [lia|exact Htask]. }
  assert (to_signed 64 (le_decode w4) = Template.created_at t) as D4.
  { subst w4. rewrite le_decode_encode. change (8 * Z.of_nat 8) with 64.
    apply to_signed_wrap; [lia|exact Hcr]. }
  assert (to_signed 64 (le_decode w5) = Template.last_used t) as D5.
  { subst w5. rewrite le_decode_encode. change (8 * Z.of_nat 8) with 64.
    apply to_signed_wrap; [lia|exact Hlu]. }
  assert (w2 = Template.username t) as D2 by (apply username_bytes_id; exact Hu).
  rewrite D1, D2, D3, D4, D5.
  repeat match goal with
         | |- context [fread ?b ?s ?n ?fp] => destruct (fread b s n fp) as [? ?]
         end.
  destruct (hash_data_alloc alloc_ok _ _) as [hd0|].
  - repeat match goal with
           | |- context [fread ?b ?s ?n ?fp] => destruct (fread b s n fp) as [? ?]
           end.
    eexists. split; [reflexivity|]. cbn [Template.version Template.username
      Template.task_type Template.created_at Template.last_used Template.features fst].
    repeat (split; [reflexivity|]). intros _. eexists. split; [reflexivity|].
    cbn. auto.
  - eexists. split; [reflexivity|]. cbn [Template.version Template.username
      Template.task_type Template.created_at Template.last_used Template.features fst].
    repeat (split; [reflexivity|]). intros H. discriminate H.
Qed.

Lemma template_reload_metadata_witness :
  storable small_template small_features /\
  exists t',
    snd (template_load always_served
           (<["al.nlt"%string := small_record]> no_files)
           (Some "al.nlt"%string) (Some blank_template) (0, 0, 0)) = Some t' /\
    Template.username t' = Template.username small_template /\
    Template.created_at t' = 1000.
Proof.
  assert (storable small_template small_features) as W.
  { unfold storable. split; [reflexivity|].
    repeat split; try (vm_compute; congruence).
    repeat constructor. }
  split; [exact W|].
  destruct (template_reload_metadata always_served
              (<["al.nlt"%string := small_record]> no_files) "al.nlt"
              small_template small_features small_hash blank_template (0, 0, 0) W)
    as (t' & E & _ & Hu & _ & Hc & _).
  - apply lookup_insert_eq.
  - vm_compute. discriminate.
  - exists t'. split; [exact E|]. split; [exact Hu|exact Hc].
Defined.

(** ** The capture device (capture.c) *)

Lemma strncpy_length (dst src : list byte) (n : nat) :
  (n <= length dst)%nat -> length (strncpy dst src n) = length dst.
Proof.
  intros H. unfold strncpy.
  rewrite length_app, length_take, length_app, length_replicate, length_drop. lia.
Qed.

Lemma strncpy_keeps (dst src : list byte) (n k : nat) :
  (n <= k)%nat -> strncpy dst src n !! k = dst !! k.
Proof.
  intros H. unfold strncpy.
  assert (length (take n (src ++ replicate n x00)) = n) as Hl
    by (rewrite length_take, length_app, length_replicate; lia).
  rewrite lookup_app_r by lia. rewrite Hl, lookup_drop. f_equal. lia.
Qed.

Lemma capture_do_invariant (s : Device.t) (c : capture_call) :
  Device.device_status s <> DEVICE_ERROR /\
  length (Device.device_name s) = 256%nat /\
  Device.device_name s !! 255%nat = Some x00 ->
  Device.device_status (capture_do s c) <> DEVICE_ERROR /\
  length (Device.device_name (capture_do s c)) = 256%nat /\
  Device.device_name (capture_do s c) !! 255%nat = Some x00.
Proof.
  intros (Hs & Hl & Hz). destruct s as [st name]. cbn [Device.device_status Device.device_name] in *.
  destruct c as [|[n|]| | | |]; cbn [capture_do capture_init capture_connect snd
                                      Device.device_status Device.device_name].
  - split; [discriminate|]. split; [exact Hl|exact Hz].
  - split; [discriminate|]. split.
    + rewrite strncpy_length by lia. exact Hl.
    + rewrite strncpy_keeps by lia. exact Hz.
  - split; [exact Hs|]. split; [exact Hl|exact Hz].
  - unfold capture_start_streaming.
    destruct st; cbn; (split; [first [exact Hs|discriminate]|split; [exact Hl|exact Hz]]).
  - unfold capture_stop_streaming.
    destruct st; cbn; (split; [first [exact Hs|discriminate]|split; [exact Hl|exact Hz]]).
  - unfold capture_disconnect. cbn [snd Device.device_status Device.device_name].
    split; [discriminate|]. split; reflexivity.
  - unfold capture_cleanup, capture_disconnect.
    destruct st; cbn [status_eqb negb snd Device.device_status Device.device_name];
      (split; [first [exact Hs|discriminate]|split; first [exact Hl|exact Hz|reflexivity]]).
Qed.

(** Whatever sequence of interface calls is made from the initial state, the
    status never becomes [DEVICE_ERROR], and the name buffer keeps its 256
    bytes with a zero in the last one: the name stays terminated although
    [strncpy] does not terminate a name of 255 characters or more. *)
Theorem capture_status_invariant (calls : list capture_call) :
  let s := capture_run calls device_initial in
  capture_get_status s <> DEVICE_ERROR /\
  length (Device.device_name s) = 256%nat /\
  Device.device_name s !! 255%nat = Some x00.
Proof.
  unfold capture_run, capture_get_status.
  assert (Device.device_status device_initial <> DEVICE_ERROR /\
          length (Device.device_name device_initial) = 256%nat /\
          Device.device_name device_initial !! 255%nat = Some x00) as H0
    by (split; [discriminate|split; reflexivity]).
  revert H0. generalize device_initial as s.
  induction calls as [|c calls IH]; intros s H0; cbn [fold_left].
  - exact H0.
  - apply IH. apply capture_do_invariant. exact H0.
Qed.

(** The call sequence of [cmd_enroll] and [cmd_authenticate] (init, connect,
    start streaming) succeeds at every step from any state of the device and
    ends in [DEVICE_STREAMING] with the first 255 characters of the name
    stored; [capture_connect] never refuses a name, also when the device is
    streaming.  A second [capture_start_streaming] is refused.
    [capture_cleanup] then leaves the device disconnected with the name
    erased, whereas [capture_init] followed by [capture_cleanup] leaves the
    name in place. *)
Theorem capture_session (s : Device.t) (name : list byte) :
  let s1 := snd (capture_init s) in
  let s2 := snd (capture_connect (Some name) s1) in
  let s3 := snd (capture_start_streaming s2) in
  fst (capture_init s) = 0 /\
  fst (capture_connect (Some name) s1) = 0 /\
  fst (capture_start_streaming s2) = 0 /\
  capture_get_status s3 = DEVICE_STREAMING /\
  take 255 (Device.device_name s3) = take 255 (name ++ replicate 255 x00) /\
  fst (capture_connect (Some name) s3) = 0 /\
  capture_start_streaming s3 = (-1, s3) /\
  capture_cleanup s3 = device_initial /\
  capture_cleanup (snd (capture_init s3))
  = Device.mk DEVICE_DISCONNECTED (Device.device_name s3).
Proof.
  cbn. repeat split.
  unfold strncpy. rewrite take_app_length'; [reflexivity|].
  rewrite length_take, length_app, length_replicate. lia.
Qed.

(** ** Recording (capture.c, [capture_record]) *)




Lemma whole_seconds_checked : forallb whole_seconds_exact (seq 1 120) = true.
Proof. vm_compute. reflexivity. Qed.

Lemma whole_seconds_exact_spec (n : nat) :
  (1 <= n <= 120)%nat ->
  F64.to_size_t (F32.mul (F32.of_Z (Z.of_nat n)) (F32.of_Z SAMPLING_RATE))
  = Some (SAMPLING_RATE * Z.of_nat n) /\
  float_to_int (F32.of_Z (Z.of_nat n)) = Some (Z.of_nat n) /\
  progress_loop (Z.of_nat n) = Done tt.
Proof.
  intros Hn.
  pose proof whole_seconds_checked as H.
  rewrite forallb_forall in H. specialize (H n).
  assert (In n (seq 1 120)) as Hin by (apply in_seq; lia).
  specialize (H Hin). unfold whole_seconds_exact in H.
  destruct (F64.to_size_t _) as [ns|]; [|discriminate].
  destruct (float_to_int _) as [d|]; [|discriminate].
  apply andb_prop in H. destruct H as [H H3].
  apply andb_prop in H. destruct H as [H1 H2].
  apply Z.eqb_eq in H1. apply Z.eqb_eq in H2. subst ns d.
  split; [reflexivity|]. split; [reflexivity|].
  destruct (progress_loop (Z.of_nat n)) as [[]|]; [reflexivity|discriminate].
Qed.

(** For a duration of [n] whole seconds, [1 <= n <= 120], on a streaming
    device whose two allocations are served, [capture_record] returns 0 and
    hands over a well-formed recording of 8 channels with [256 n] samples
    each, at least one FFT window per channel, tagged with the sampling rate
    256, the task and the clock reading; sample [i] is computed from the
    [i]-th value of [rand()].  What [output] held before is not looked at:
    the buffer that [cmd_enroll] and [cmd_authenticate] allocate for it
    beforehand is replaced without being released. *)
Theorem capture_record_trial
        (alloc_ok : Z -> bool) (RAND_MAX : Z) (rand : nat -> Z)
        (s : Device.t) (n : nat) (task : MentalTask) (out : EEGData.t) (now_ms : Z) :
  Device.device_status s = DEVICE_STREAMING ->
  (1 <= n <= 120)%nat ->
  alloc_ok sizeof_EEGData = true ->
  alloc_ok (NUM_CHANNELS * (SAMPLING_RATE * Z.of_nat n) * 4) = true ->
  exists trial,
    capture_record alloc_ok RAND_MAX rand s (F32.of_Z (Z.of_nat n)) task (Some out) now_ms
    = Done (0, Some trial) /\
    (forall out',
       capture_record alloc_ok RAND_MAX rand s (F32.of_Z (Z.of_nat n)) task (Some out') now_ms
       = Done (0, Some trial)) /\
    EEGData.wf trial /\
    EEGData.num_channels trial = NUM_CHANNELS /\
    EEGData.num_samples trial = SAMPLING_RATE * Z.of_nat n /\
    WINDOW_SIZE <= EEGData.num_samples trial /\
    EEGData.sampling_rate trial = F32.of_Z SAMPLING_RATE /\
    EEGData.task_type trial = task /\
    EEGData.timestamp trial = now_ms /\
    (forall i, (Z.of_nat i < NUM_CHANNELS * (SAMPLING_RATE * Z.of_nat n)) ->
       EEGData.data trial !! i = Some (simulated_sample RAND_MAX (rand i))).
Proof.
  intros Hs Hn Ha1 Ha2.
  destruct (whole_seconds_exact_spec n Hn) as (E1 & E2 & E3).
  assert (wrap64 (NUM_CHANNELS * (SAMPLING_RATE * Z.of_nat n))
          = NUM_CHANNELS * (SAMPLING_RATE * Z.of_nat n)) as Hw.
  { unfold wrap64, NUM_CHANNELS, SAMPLING_RATE. apply Z.mod_small. lia. }
  assert (eeg_data_alloc alloc_ok NUM_CHANNELS (SAMPLING_RATE * Z.of_nat n)
          = Some (EEGData.mk
                    (replicate (Z.to_nat (NUM_CHANNELS * (SAMPLING_RATE * Z.of_nat n))) F32.zero)
                    NUM_CHANNELS (SAMPLING_RATE * Z.of_nat n)
                    (F32.of_Z SAMPLING_RATE) 0 TASK_EYES_CLOSED_REST)) as Ea.
  { unfold eeg_data_alloc, calloc_ok. rewrite Ha1, Hw, Ha2. cbn [negb].
    replace (NUM_CHANNELS * (SAMPLING_RATE * Z.of_nat n) * 4 <? 2 ^ 64) with true
      by (symmetry; apply Z.ltb_lt; unfold NUM_CHANNELS, SAMPLING_RATE; lia).
    reflexivity. }
  set (g := fun i : nat => simulated_sample RAND_MAX (rand i)).
  set (len := Z.to_nat (NUM_CHANNELS * (SAMPLING_RATE * Z.of_nat n))).
  assert (forall out',
            capture_record alloc_ok RAND_MAX rand s (F32.of_Z (Z.of_nat n)) task (Some out') now_ms
            = Done (0, Some (EEGData.mk (map g (seq 0 len)) NUM_CHANNELS
                                        (SAMPLING_RATE * Z.of_nat n)
                                        (F32.of_Z SAMPLING_RATE) now_ms task))) as Hrec.
  { intros out'. unfold capture_record. rewrite Hs. cbn [status_eqb negb].
    rewrite E1. cbn [of_cast obind]. rewrite Ea, Hw. cbn [EEGData.data].
    rewrite E2. cbn [of_cast obind]. rewrite E3. cbn [obind].
    fold len.
    pose proof (fill_loop_any g (replicate len F32.zero) len (length_replicate _ _)) as Hfill.
    unfold g in Hfill at 1. rewrite Hfill. reflexivity. }
  eexists. split; [apply Hrec|]. split; [exact Hrec|].
  cbn [EEGData.num_channels EEGData.num_samples EEGData.sampling_rate EEGData.task_type
       EEGData.timestamp EEGData.data].
  split.
  { unfold EEGData.wf.
    cbn [EEGData.num_channels EEGData.num_samples EEGData.data].
    rewrite length_map, length_seq. unfold len, NUM_CHANNELS, SAMPLING_RATE. lia. }
  split; [reflexivity|]. split; [reflexivity|].
  split; [unfold WINDOW_SIZE, SAMPLING_RATE; lia|].
  split; [reflexivity|]. split; [reflexivity|]. split; [reflexivity|].
  intros i Hi. rewrite list_lookup_fmap, lookup_seq_lt by (unfold len; lia). reflexivity.
Qed.

Lemma capture_record_trial_witness :
  Device.device_status streaming_device = DEVICE_STREAMING /\
  exists trial,
    capture_record always_served 2147483647 (fun i => Z.of_nat i) streaming_device
                   five_seconds TASK_MOTOR_IMAGERY (Some blank_trial) 42
    = Done (0, Some trial) /\
    EEGData.num_samples trial = 1280.
Proof.
  split; [reflexivity|].
  destruct (capture_record_trial always_served 2147483647 (fun i => Z.of_nat i)
              streaming_device 5 TASK_MOTOR_IMAGERY blank_trial 42)
    as (trial & E & _ & _ & _ & Hns & _).
  - reflexivity.
  - lia.
  - reflexivity.
  - reflexivity.
  - exists trial. split; [exact E|exact Hns].
Defined.

(** ** The band loop has no bound on the output index *)

Lemma put_band_steps (fft_size : Z) (res : f32) (low high : f64) (st : bp_state) :
  put_band fft_size res low high st = Undefined \/
  exists st', put_band fft_size res low high st = Done st' /\
              feature_idx st' = S (feature_idx st) /\
              length (out_features st') = length (out_features st) /\
              (feature_idx st < length (out_features st))%nat.
Proof.
  unfold put_band.
  destruct (band_power (fft_output st) fft_size res low high) as [v|]; cbn [obind];
    [|left; reflexivity].
  destruct (feature_idx st <? length (out_features st))%nat eqn:E; [|left; reflexivity].
  right. eexists. split; [reflexivity|]. cbn [feature_idx out_features].
  rewrite length_insert. apply Nat.ltb_lt in E. auto.
Qed.

Lemma band_power_channel_steps (cosf sinf : f32 -> f32) (d : EEGData.t) (fft_size : Z)
      (ch : nat) (st : bp_state) :
  WINDOW_SIZE <= EEGData.num_samples d ->
  band_power_channel cosf sinf d fft_size ch st = Undefined \/
  exists st', band_power_channel cosf sinf d fft_size ch st = Done st' /\
              feature_idx st' = (feature_idx st + 5)%nat /\
              length (out_features st') = length (out_features st) /\
              (feature_idx st + 5 <= length (out_features st))%nat.
Proof.
  intros Hns. unfold band_power_channel.
  apply Z.leb_le in Hns. rewrite Hns.
  destruct (Z.of_nat (length _) <? WINDOW_SIZE); [left; reflexivity|].
  set (res := F32.div (EEGData.sampling_rate d) (F32.of_Z WINDOW_SIZE)).
  set (st0 := mk_bp (feature_idx st) (out_features st) _).
  assert (feature_idx st0 = feature_idx st) as I0 by reflexivity.
  assert (length (out_features st0) = length (out_features st)) as L0 by reflexivity.
  clearbody st0.
  destruct (put_band_steps fft_size res DELTA_LOW DELTA_HIGH st0)
    as [->|(s1 & -> & I1 & L1 & B1)]; [left; reflexivity|]. cbn [obind].
  destruct (put_band_steps fft_size res THETA_LOW THETA_HIGH s1)
    as [->|(s2 & -> & I2 & L2 & B2)]; [left; reflexivity|]. cbn [obind].
  destruct (put_band_steps fft_size res ALPHA_LOW ALPHA_HIGH s2)
    as [->|(s3 & -> & I3 & L3 & B3)]; [left; reflexivity|]. cbn [obind].
  destruct (put_band_steps fft_size res BETA_LOW BETA_HIGH s3)
    as [->|(s4 & -> & I4 & L4 & B4)]; [left; reflexivity|]. cbn [obind].
  destruct (put_band_steps fft_size res GAMMA_LOW GAMMA_HIGH s4)
    as [->|(s5 & -> & I5 & L5 & B5)]; [left; reflexivity|].
  right. exists s5. split; [reflexivity|]. lia.
Qed.

(** [extract_band_power] writes five slots per channel without looking at
    the size of the output: when the channels have a full window and the
    output has fewer than [5 * num_channels] slots, the call writes past the
    end of [output->features] (or meets another undefined step before); it
    never returns.  With the 40 slots of [FEATURE_VECTOR_SIZE] this is any
    recording of more than 8 channels. *)
Theorem extract_band_power_overruns
        (alloc_ok : Z -> bool) (cosf sinf : f32 -> f32)
        (d : EEGData.t) (out : FeatureVector.t) :
  alloc_ok (WINDOW_SIZE / 2 * 4) = true ->
  WINDOW_SIZE <= EEGData.num_samples d ->
  Z.of_nat (length (FeatureVector.features out)) < 5 * EEGData.num_channels d ->
  extract_band_power alloc_ok cosf sinf (Some d) (Some out) = Undefined.
Proof.
  intros Hal Hns Hcap. unfold extract_band_power. rewrite Hal. cbn [negb].
  set (st0 := mk_bp 0 (FeatureVector.features out) _).
  set (nc := Z.to_nat (EEGData.num_channels d)).
  assert (for_loop nc
            (fun ch acc => st <- acc ;;; band_power_channel cosf sinf d (WINDOW_SIZE / 2) ch st)
            (Done st0) = Undefined \/
          exists st',
            for_loop nc
              (fun ch acc => st <- acc ;;; band_power_channel cosf sinf d (WINDOW_SIZE / 2) ch st)
              (Done st0) = Done st' /\
            feature_idx st' = (5 * nc)%nat /\
            length (out_features st') = length (FeatureVector.features out) /\
            (5 * nc <= length (FeatureVector.features out))%nat) as H.
  { apply (for_loop_invariant
             (fun i x => x = Undefined \/
                         exists st', x = Done st' /\
                                     feature_idx st' = (5 * i)%nat /\
                                     length (out_features st')
                                     = length (FeatureVector.features out) /\
                                     (5 * i <= length (FeatureVector.features out))%nat)).
    - right. exists st0. split; [reflexivity|]. cbn. split; [reflexivity|].
      split; [reflexivity|lia].
    - intros i x _ [->|(s & -> & Hi & Hl & Hb)]; [left; reflexivity|]. cbn [obind].
      destruct (band_power_channel_steps cosf sinf d (WINDOW_SIZE / 2) i s Hns)
        as [->|(s' & -> & Hi' & Hl' & Hb')]; [left; reflexivity|].
      right. exists s'. split; [reflexivity|]. lia. }
  destruct H as [->|(st' & _ & _ & _ & Hb)]; [reflexivity|].
  exfalso. unfold nc in Hb. lia.
Qed.

Lemma extract_band_power_overruns_witness :
  extract_band_power always_served id id (Some long_trial)
                     (Some (FeatureVector.mk (replicate 4 F32.zero) 4 0 0))
  = Undefined.
Proof.
  apply (extract_band_power_overruns always_served id id long_trial
           (FeatureVector.mk (replicate 4 F32.zero) 4 0 0)).
  - reflexivity.
  - vm_compute. discriminate.
  - vm_compute. reflexivity.
Defined.

(** ** Releasing storage *)

Lemma secure_wipe_loop_only (buf : list byte) (size : Z) :
  0 <= size <= Z.of_nat (length buf) ->
  secure_wipe false (Some buf) size
  = Done (Some (replicate (Z.to_nat size) x00 ++ drop (Z.to_nat size) buf)).
Proof.
  intros Hs. unfold secure_wipe.
  destruct (Z.eqb_spec size 0) as [->|Hne]; [reflexivity|].
  replace (Z.of_nat (length buf) <? size) with false by (symmetry; apply Z.ltb_ge; lia).
  rewrite zero_loop_spec by lia. reflexivity.
Qed.

Lemma secure_wipe_second_call (buf : list byte) (size : Z) :
  0 < size -> Z.of_nat (length buf) < 2 ^ 64 - 1 ->
  secure_wipe true (Some buf) size = Undefined.
Proof.
  intros Hs Hl. unfold secure_wipe.
  replace (size =? 0) with false by (symmetry; apply Z.eqb_neq; lia).
  destruct (Z.of_nat (length buf) <? size); [reflexivity|].
  change (wrap64 (0 - 1)) with (2 ^ 64 - 1).
  replace (Z.of_nat (length buf) <? 2 ^ 64 - 1) with true by (symmetry; apply Z.ltb_lt; lia).
  reflexivity.
Qed.

(** Releasing a well-formed, non-empty feature vector, recording or digest.
    In a build where [secure_wipe] is its loop alone, every byte of the
    buffers is zero when they are handed to [free].  In a build with the
    second call ([__GLIBC__] or [_WIN32]) each of the three functions
    overruns its buffer. *)
Theorem release_wipes (fv : FeatureVector.t) (d : EEGData.t) (h : HashData.t) :
  FeatureVector.wf fv -> 0 < FeatureVector.size fv < 2 ^ 62 ->
  EEGData.wf d -> 0 < EEGData.num_channels d * EEGData.num_samples d ->
  HashData.wf h -> 0 < HashData.hash_size h < 2 ^ 64 - 1 ->
  feature_vector_free false (Some fv)
  = Done (Some (replicate (4 * length (FeatureVector.features fv)) x00)) /\
  eeg_data_free false (Some d)
  = Done (Some (replicate (4 * length (EEGData.data d)) x00)) /\
  hash_data_free false (Some h)
  = Done (Some (replicate (length (HashData.hash h)) x00),
          Some (replicate (length (HashData.salt h)) x00)) /\
  feature_vector_free true (Some fv) = Undefined /\
  eeg_data_free true (Some d) = Undefined /\
  hash_data_free true (Some h) = Undefined.
Proof.
  intros Hfv Hfs (Hnc & Hns & Hdl & Hdw) Hdp (Hhl & Hsl) Hhs.
  unfold FeatureVector.wf in Hfv.
  assert (wrap64 (FeatureVector.size fv * 4) = Z.of_nat (length (floats_bytes (FeatureVector.features fv)))) as Ef.
  { rewrite floats_bytes_length. unfold wrap64. rewrite Z.mod_small by lia. lia. }
  assert (wrap64 (EEGData.num_channels d * EEGData.num_samples d * 4)
          = Z.of_nat (length (floats_bytes (EEGData.data d)))) as Ed.
  { rewrite floats_bytes_length. unfold wrap64. rewrite Z.mod_small by lia. lia. }
  split; [|split; [|split; [|split; [|split]]]].
  - unfold feature_vector_free. rewrite Ef, secure_wipe_loop_only by lia.
    rewrite Nat2Z.id, drop_all, app_nil_r, floats_bytes_length. reflexivity.
  - unfold eeg_data_free. rewrite Ed, secure_wipe_loop_only by lia.
    rewrite Nat2Z.id, drop_all, app_nil_r, floats_bytes_length. reflexivity.
  - unfold hash_data_free. rewrite <- Hhl, <- Hsl.
    rewrite !secure_wipe_loop_only by lia. cbn [obind].
    rewrite !Nat2Z.id, !drop_all, !app_nil_r. reflexivity.
  - unfold feature_vector_free. rewrite Ef. apply secure_wipe_second_call.
    + rewrite floats_bytes_length. lia.
    + rewrite floats_bytes_length. lia.
  - unfold eeg_data_free. rewrite Ed. apply secure_wipe_second_call.
    + rewrite floats_bytes_length. lia.
    + rewrite floats_bytes_length. lia.
  - unfold hash_data_free. rewrite secure_wipe_second_call by lia. reflexivity.
Qed.

Lemma release_wipes_witness :
  feature_vector_free false (Some small_vector) = Done (Some (replicate 8 x00)) /\
  feature_vector_free true (Some small_vector) = Undefined /\
  hash_data_free true (Some digest_a) = Undefined.
Proof.
  destruct (release_wipes small_vector two_channels digest_a)
    as (H1 & _ & _ & H4 & _ & H6).
  - reflexivity.
  - simpl. lia.
  - repeat split; vm_compute; congruence.
  - vm_compute. reflexivity.
  - split; reflexivity.
  - simpl. lia.
  - split; [exact H1|]. split; [exact H4|exact H6].
Defined.

Lemma obind_done {A : Type} (o : outcome A) : (r <- o ;;; Done r) = o.
Proof. destruct o; reflexivity. Qed.

Lemma eeg_data_alloc_data (alloc_ok : Z -> bool) (nc ns : Z) (fd : EEGData.t) :
  eeg_data_alloc alloc_ok nc ns = Some fd ->
  EEGData.data fd = replicate (Z.to_nat (wrap64 (nc * ns))) F32.zero /\
  wrap64 (nc * ns) * 4 < 2 ^ 64.
Proof.
  unfold eeg_data_alloc, calloc_ok. intros H.
  destruct (negb (alloc_ok sizeof_EEGData)); [discriminate|].
  destruct (wrap64 (nc * ns) * 4 <? 2 ^ 64) eqn:E; [|discriminate].
  destruct (alloc_ok (wrap64 (nc * ns) * 4)); [|discriminate].
  cbn in H. injection H as <-. split; [reflexivity|]. apply Z.ltb_lt. exact E.
Qed.

Lemma wrap64_range (z : Z) : 0 <= wrap64 z < 2 ^ 64.
Proof. unfold wrap64. apply Z.mod_pos_bound. lia. Qed.

Lemma working_copy_size (nc ns : Z) :
  wrap64 (nc * ns) * 4 < 2 ^ 64 -> wrap64 (nc * ns * 4) = wrap64 (nc * ns) * 4.
Proof.
  intros H. pose proof (wrap64_range (nc * ns)) as R. unfold wrap64 in *.
  rewrite <- Z.mul_mod_idemp_l by lia. apply Z.mod_small. lia.
Qed.

(** The release of the working copy at the end of [extract_features].  In a
    build where [secure_wipe] is its loop alone the release is always
    defined and changes nothing in the result.  In a build with the second
    call, every run on a non-empty recording that obtains its working copy
    overruns that copy when it releases it. *)
Theorem extract_features_release
        (alloc_ok : Z -> bool) (cosf sinf : f32 -> f32)
        (d : EEGData.t) (out : FeatureVector.t) (now_ms : Z) :
  EEGData.wf d -> 0 < EEGData.num_channels d * EEGData.num_samples d ->
  eeg_data_alloc alloc_ok (EEGData.num_channels d) (EEGData.num_samples d) <> None ->
  (forall data output,
     extract_features_with_release false alloc_ok cosf sinf data output now_ms
     = extract_features alloc_ok cosf sinf data output now_ms) /\
  extract_features_with_release true alloc_ok cosf sinf (Some d) (Some out) now_ms
  = Undefined.
Proof.
  intros (Hnc & Hns & Hlen & Hsz) Hpos Hfd. split.
  - intros data output. unfold extract_features_with_release.
    destruct data as [d'|]; [|apply obind_done].
    destruct output as [o|]; [|apply obind_done].
    destruct (eeg_data_alloc alloc_ok (EEGData.num_channels d') (EEGData.num_samples d'))
      as [fd|] eqn:Efd; [|apply obind_done].
    destruct (eeg_data_alloc_data _ _ _ _ Efd) as (Hd & Hb).
    unfold eeg_data_free. cbn [EEGData.data EEGData.num_channels EEGData.num_samples].
    rewrite working_copy_size by exact Hb.
    pose proof (wrap64_range (EEGData.num_channels d' * EEGData.num_samples d')) as R.
    rewrite secure_wipe_loop_only
      by (rewrite floats_bytes_length, Hd, length_replicate; lia).
    cbn [obind]. apply obind_done.
  - unfold extract_features_with_release.
    destruct (extract_features alloc_ok cosf sinf (Some d) (Some out) now_ms) as [r|];
      [|reflexivity].
    cbn [obind].
    destruct (eeg_data_alloc alloc_ok (EEGData.num_channels d) (EEGData.num_samples d))
      as [fd|] eqn:Efd; [|congruence].
    destruct (eeg_data_alloc_data _ _ _ _ Efd) as (Hd & Hb).
    unfold eeg_data_free. cbn [EEGData.data EEGData.num_channels EEGData.num_samples].
    rewrite working_copy_size by exact Hb.
    pose proof (wrap64_range (EEGData.num_channels d * EEGData.num_samples d)) as R.
    assert (wrap64 (EEGData.num_channels d * EEGData.num_samples d)
            = EEGData.num_channels d * EEGData.num_samples d) as Hw
      by (unfold wrap64; apply Z.mod_small; lia).
    rewrite secure_wipe_second_call; [reflexivity|lia|].
    rewrite floats_bytes_length, Hd, length_replicate. lia.
Qed.

Lemma extract_features_release_witness :
  extract_features_with_release true always_served id id (Some two_channels)
    (Some (FeatureVector.mk (replicate 40 F32.zero) 40 0 0)) 7
  = Undefined /\
  extract_features_with_release false always_served id id (Some two_channels)
    (Some (FeatureVector.mk (replicate 40 F32.zero) 40 0 0)) 7
  = extract_features always_served id id (Some two_channels)
      (Some (FeatureVector.mk (replicate 40 F32.zero) 40 0 0)) 7.
Proof.
  destruct (extract_features_release always_served id id two_channels
              (FeatureVector.mk (replicate 40 F32.zero) 40 0 0) 7) as (H1 & H2).
  - repeat split; vm_compute; congruence.
  - vm_compute. reflexivity.
  - vm_compute. discriminate.
  - split; [exact H2|apply H1].
Defined.

(** ** Hexadecimal text of a digest (hashing.c, [hash_to_hex]) *)

Lemma hex_of_bytes_length (l : list byte) : length (hex_of_bytes l) = (2 * length l)%nat.
Proof. induction l as [|b l IH]; cbn [hex_of_bytes flat_map app length] in *; [reflexivity|].
       unfold hex_of_bytes in IH. rewrite IH. lia. Qed.

Lemma hex_of_bytes_lookup (l : list byte) (i : nat) :
  (i < length l)%nat ->
  hex_of_bytes l !! (2 * i)%nat = Some (hex_digit (rdb l i / 16)) /\
  hex_of_bytes l !! (2 * i + 1)%nat = Some (hex_digit (rdb l i mod 16)).
Proof.
  revert i. induction l as [|b l IH]; intros i Hi; [cbn in Hi; lia|].
  destruct i as [|i].
  - split; reflexivity.
  - cbn [length] in Hi. destruct (IH i ltac:(lia)) as (H1 & H2).
    replace (2 * S i)%nat with (S (S (2 * i))) by lia.
    replace (S (S (2 * i)) + 1)%nat with (S (S (2 * i + 1))) by lia.
    unfold rdb. cbn [nth]. split; [exact H1|exact H2].
Qed.

Lemma hex_byte_roundtrip (b : byte) :
  byte_of_Z (16 * hex_value (hex_digit (Z_of_byte b / 16))
             + hex_value (hex_digit (Z_of_byte b mod 16))) = b.
Proof. destruct b; vm_compute; reflexivity. Qed.

Lemma bytes_of_hex_of_bytes (l : list byte) : bytes_of_hex (hex_of_bytes l) = l.
Proof.
  induction l as [|b l IH]; [reflexivity|].
  change (hex_of_bytes (b :: l))
    with (hex_digit (Z_of_byte b / 16) :: hex_digit (Z_of_byte b mod 16) :: hex_of_bytes l).
  cbn [bytes_of_hex]. rewrite hex_byte_roundtrip, IH. reflexivity.
Qed.

Lemma hex_loop_spec (hash out : list byte) (n : nat) :
  (n <= length hash)%nat -> (2 * n + 1 <= length out)%nat ->
  let r := for_loop n
             (fun i o =>
                let b := rdb hash i in
                <[(2 * i + 2)%nat := x00]>
                  (<[(2 * i + 1)%nat := hex_digit (b mod 16)]>
                     (<[(2 * i)%nat := hex_digit (b / 16)]> o)))
             out in
  length r = length out /\
  (forall j, (j < 2 * n)%nat -> r !! j = hex_of_bytes hash !! j) /\
  (forall j, (2 * n < j)%nat -> r !! j = out !! j).
Proof.
  intros Hn Hout.
  apply (for_loop_invariant
           (fun k b => length b = length out /\
                       (forall j, (j < 2 * k)%nat -> b !! j = hex_of_bytes hash !! j) /\
                       (forall j, (2 * k < j)%nat -> b !! j = out !! j))).
  - split; [reflexivity|]. split; [intros; lia|reflexivity].
  - intros k b Hk (Hl & Hd & Hr). cbv zeta.
    destruct (hex_of_bytes_lookup hash k ltac:(lia)) as (E1 & E2).
    split; [rewrite !length_insert; exact Hl|]. split.
    + intros j Hj.
      rewrite list_lookup_insert_ne by lia.
      destruct (Nat.eq_dec j (2 * k + 1)%nat) as [->|N1].
      { rewrite list_lookup_insert_eq by (rewrite length_insert; lia). symmetry. exact E2. }
      rewrite list_lookup_insert_ne by lia.
      destruct (Nat.eq_dec j (2 * k)%nat) as [->|N0].
      { rewrite list_lookup_insert_eq by lia. symmetry. exact E1. }
      rewrite list_lookup_insert_ne by lia. apply Hd. lia.
    + intros j Hj. rewrite !list_lookup_insert_ne by lia. apply Hr. lia.
Qed.

(** [hash_to_hex] on a well-formed digest of [n] bytes and a buffer of at
    least [2 n + 1] bytes returns 0 and leaves in the buffer the [2 n]
    lower-case hexadecimal digits of the hash, a terminator, and then what
    the buffer held; the text determines the hash (reading the digits back
    gives its bytes).  A buffer of fewer than [2 n + 1] bytes is overrun. *)
Theorem hash_to_hex_spec (h : HashData.t) (out : list byte) :
  HashData.wf h ->
  2 * HashData.hash_size h + 1 <= Z.of_nat (length out) ->
  hash_to_hex (Some h) (Some out)
  = Done (0, Some (hex_of_bytes (HashData.hash h)
                   ++ x00 :: drop (2 * length (HashData.hash h) + 1) out)) /\
  bytes_of_hex (hex_of_bytes (HashData.hash h)) = HashData.hash h /\
  (forall short, Z.of_nat (length short) < 2 * HashData.hash_size h + 1 ->
     hash_to_hex (Some h) (Some short) = Undefined).
Proof.
  intros (Hh & _) Hout. split; [|split].
  - unfold hash_to_hex.
    replace (Z.of_nat (length (HashData.hash h)) <? HashData.hash_size h) with false
      by (symmetry; apply Z.ltb_ge; lia).
    replace (Z.of_nat (length out) <? 2 * HashData.hash_size h + 1) with false
      by (symmetry; apply Z.ltb_ge; lia).
    rewrite <- Hh.
    replace (Z.to_nat (2 * Z.of_nat (length (HashData.hash h))))
      with (2 * length (HashData.hash h))%nat by lia.
    rewrite Nat2Z.id.
    set (n := length (HashData.hash h)) in *.
    destruct (hex_loop_spec (HashData.hash h) out n ltac:(lia) ltac:(lia)) as (Hl & Hd & Hr).
    set (r := for_loop n _ out) in *. clearbody r.
    f_equal. f_equal. f_equal. apply list_eq. intros j.
    pose proof (hex_of_bytes_length (HashData.hash h)) as Hhl. fold n in Hhl.
    destruct (Nat.lt_trichotomy j (2 * n)%nat) as [Hj|[->|Hj]].
    + rewrite list_lookup_insert_ne by lia. rewrite Hd by lia.
      rewrite lookup_app_l by lia. reflexivity.
    + rewrite list_lookup_insert_eq by lia.
      rewrite lookup_app_r by lia. rewrite Hhl, Nat.sub_diag. reflexivity.
    + rewrite list_lookup_insert_ne by lia. rewrite Hr by lia.
      rewrite lookup_app_r by lia. rewrite Hhl.
      rewrite lookup_cons_ne_0 by lia. rewrite lookup_drop. f_equal. lia.
  - apply bytes_of_hex_of_bytes.
  - intros short Hs. unfold hash_to_hex.
    destruct (Z.of_nat (length (HashData.hash h)) <? HashData.hash_size h); [reflexivity|].
    replace (Z.of_nat (length short) <? 2 * HashData.hash_size h + 1) with true
      by (symmetry; apply Z.ltb_lt; lia).
    reflexivity.
Qed.

Lemma hash_to_hex_spec_witness :
  hash_to_hex (Some digest_a) (Some (replicate 10 xff))
  = Done (0, Some (bytes_of [48; 49; 48; 50; 48; 51; 102; 102; 0; 255])).
Proof.
  destruct (hash_to_hex_spec digest_a (replicate 10 xff)) as (H & _).
  - split; reflexivity.
  - vm_compute. discriminate.
  - exact H.
Defined.

(** ** Whole-file input and output (utils.c) *)




(** ** The clock reading (utils.c, [get_timestamp_ms]) *)

(** For a [timespec] with [tv_sec] below [2^53] and [tv_nsec] below one
    second, [get_timestamp_ms] is the time in whole milliseconds, rounded
    down; hence it never decreases when the [timespec] does not. *)
Theorem get_timestamp_ms_floor (s1 n1 s2 n2 : Z) :
  0 <= s1 < 2 ^ 53 -> 0 <= n1 < 1000000000 ->
  0 <= s2 < 2 ^ 53 -> 0 <= n2 < 1000000000 ->
  get_timestamp_ms s1 n1 = (s1 * 1000000000 + n1) / 1000000 /\
  (s1 * 1000000000 + n1 <= s2 * 1000000000 + n2 ->
   get_timestamp_ms s1 n1 <= get_timestamp_ms s2 n2).
Proof.
  intros H1 H2 H3 H4.
  assert (forall s n, 0 <= s < 2 ^ 53 -> 0 <= n < 1000000000 ->
            get_timestamp_ms s n = (s * 1000000000 + n) / 1000000) as E.
  { intros s n Hs Hn. unfold get_timestamp_ms, wrap64.
    assert (0 <= n / 1000000 < 1000) as Hq
      by (split; [apply Z.div_pos; lia|apply Z.div_lt_upper_bound; lia]).
    rewrite (Z.mod_small s) by lia.
    rewrite (Z.mod_small n) by lia.
    rewrite (Z.mod_small (s * 1000)) by lia.
    rewrite Z.mod_small by lia.
    replace (s * 1000000000 + n) with (n + (s * 1000) * 1000000) by lia.
    rewrite Z.div_add by lia. lia. }
  split; [apply E; assumption|].
  intros Hle. rewrite !E by assumption. apply Z.div_le_mono; lia.
Qed.

Lemma get_timestamp_ms_floor_witness :
  get_timestamp_ms 1700000000 123456789 = 1700000000123.
Proof.
  destruct (get_timestamp_ms_floor 1700000000 123456789 1700000000 123456789) as (H & _);
    [lia|lia|lia|lia|].
  rewrite H. reflexivity.
Defined.

(** ** Enrolment (template.c, [template_create]) *)

Lemma extract_features_done
      (alloc_ok : Z -> bool) (cosf sinf : f32 -> f32)
      (d : EEGData.t) (out : FeatureVector.t) (now_ms : Z) :
  EEGData.wf d ->
  eeg_data_alloc alloc_ok (EEGData.num_channels d) (EEGData.num_samples d) <> None ->
  alloc_ok (WINDOW_SIZE / 2 * 4) = true ->
  EEGData.num_samples d < WINDOW_SIZE \/
  (band_edges_defined (EEGData.sampling_rate d) = true /\
   5 * EEGData.num_channels d <= Z.of_nat (length (FeatureVector.features out))) ->
  exists feats,
    extract_features alloc_ok cosf sinf (Some d) (Some out) now_ms
    = Done (0, Some (FeatureVector.mk feats (FeatureVector.size out)
                                      (EEGData.task_type d) now_ms)) /\
    length feats = length (FeatureVector.features out).
Proof.
  intros Hwf Hfd Hal Hband.
  destruct (eeg_data_alloc alloc_ok (EEGData.num_channels d) (EEGData.num_samples d))
    as [fd|] eqn:Efd; [clear Hfd|congruence].
  pose proof (memcpy_count d Hwf) as Hcount.
  destruct (eeg_data_alloc_data _ _ _ _ Efd) as (Hfdd & _).
  assert (Z.to_nat (wrap64 (EEGData.num_channels d * EEGData.num_samples d))
          = length (EEGData.data d)) as Hn.
  { destruct Hwf as (Hnc & Hns & Hlen & Hsz). unfold wrap64.
    rewrite Z.mod_small by (split; [apply Z.mul_nonneg_nonneg; lia|lia]).
    rewrite <- Hlen. apply Nat2Z.id. }
  rewrite Hn in Hfdd.
  rewrite (extract_features_unfold alloc_ok cosf sinf d out now_ms fd Efd)
    by (rewrite Hcount; apply Nat.ltb_ge; lia).
  rewrite Hcount, firstn_all, Hfdd, drop_replicate, Nat.sub_diag, app_nil_r.
  set (fdata := EEGData.mk (EEGData.data d) _ _ _ _ _).
  destruct Hwf as (Hnc & Hns & Hlen & Hsz).
  destruct (normalize_signal_done fdata) as (buf & En & _ & Hbuf); [simpl; lia|].
  rewrite En. cbn [obind snd].
  simpl EEGData.num_channels in *. simpl EEGData.num_samples in *.
  set (nd := EEGData.mk buf _ _ _ _ _).
  destruct (extract_band_power_done alloc_ok cosf sinf nd out Hal) as (feats & Eb & Hfe).
  - exact Hnc.
  - exact Hns.
  - simpl. rewrite Hbuf. simpl. lia.
  - exact Hband.
  - rewrite Eb. cbn [obind fst snd option_map]. exists feats. split; [reflexivity|exact Hfe].
Qed.

Lemma feature_vector_alloc_served (alloc_ok : Z -> bool) :
  (forall n, alloc_ok n = true) ->
  feature_vector_alloc alloc_ok FEATURE_VECTOR_SIZE
  = Some (FeatureVector.mk (replicate 40 F32.zero) 40 TASK_EYES_CLOSED_REST 0).
Proof. intros H. unfold feature_vector_alloc, calloc_ok. rewrite !H. reflexivity. Qed.

Lemma hash_data_alloc_served (alloc_ok : Z -> bool) :
  (forall n, alloc_ok n = true) ->
  hash_data_alloc alloc_ok HASH_OUTPUT_SIZE SALT_LENGTH
  = Some (HashData.mk (replicate 32 x00) 32 (replicate 32 x00) 32).
Proof. intros H. unfold hash_data_alloc, calloc_ok. rewrite !H. reflexivity. Qed.

Lemma eeg_data_alloc_served (alloc_ok : Z -> bool) (d : EEGData.t) :
  (forall n, alloc_ok n = true) -> EEGData.wf d ->
  eeg_data_alloc alloc_ok (EEGData.num_channels d) (EEGData.num_samples d) <> None.
Proof.
  intros H (Hnc & Hns & Hlen & Hsz). unfold eeg_data_alloc, calloc_ok. rewrite !H.
  assert (wrap64 (EEGData.num_channels d * EEGData.num_samples d)
          = EEGData.num_channels d * EEGData.num_samples d) as ->
    by (unfold wrap64; apply Z.mod_small; split; [apply Z.mul_nonneg_nonneg; lia|lia]).
  replace (EEGData.num_channels d * EEGData.num_samples d * 4 <? 2 ^ 64) with true
    by (symmetry; apply Z.ltb_lt; exact Hsz).
  discriminate.
Qed.

Lemma extract_trials_done
      (alloc_ok : Z -> bool) (cosf sinf : f32 -> f32) (clock : nat -> Z)
      (trials : list (option EEGData.t)) :
  (forall n, alloc_ok n = true) ->
  Forall (fun t => exists d, t = Some d /\ extractable d) trials ->
  forall i, exists vs,
    extract_trials alloc_ok cosf sinf clock i trials = Done (Some vs) /\
    Forall2 (fun t v => exists d, t = Some d /\
                                  FeatureVector.task_type v = EEGData.task_type d) trials vs /\
    Forall (fun v => FeatureVector.size v = FEATURE_VECTOR_SIZE /\
                     length (FeatureVector.features v) = 40%nat) vs.
Proof.
  intros Ha H. induction H as [|t trials (d & -> & Hwf & Hband) _ IH]; intros i.
  - exists []. split; [reflexivity|]. split; constructor.
  - cbn [extract_trials]. rewrite feature_vector_alloc_served by exact Ha.
    destruct (extract_features_done alloc_ok cosf sinf d
                (FeatureVector.mk (replicate 40 F32.zero) 40 TASK_EYES_CLOSED_REST 0)
                (clock i)) as (feats & E & Hl).
    + exact Hwf.
    + apply eeg_data_alloc_served; assumption.
    + apply Ha.
    + destruct Hband as [Hs|[Hb Hc]]; [left; exact Hs|right].
      split; [exact Hb|]. cbn [FeatureVector.features]. rewrite length_replicate.
      unfold FEATURE_VECTOR_SIZE in Hc. lia.
    + rewrite E. cbn [obind snd fst FeatureVector.size]. change (0 =? 0) with true.
      cbn [negb].
      destruct (IH (S i)) as (vs & E' & F2 & Fa). rewrite E'. cbn [obind option_map].
      eexists. split; [reflexivity|]. split.
      * constructor; [|exact F2]. exists d. split; reflexivity.
      * constructor; [|exact Fa]. cbn [FeatureVector.size FeatureVector.features].
        split; [reflexivity|]. rewrite Hl. cbn [FeatureVector.features].
        apply length_replicate.
Qed.

Lemma average_feature_vectors_done
      (v0 : FeatureVector.t) (rest : list FeatureVector.t) (out : FeatureVector.t)
      (now_ms : Z) :
  Forall (fun v => FeatureVector.size v = FEATURE_VECTOR_SIZE /\
                   length (FeatureVector.features v) = 40%nat) (v0 :: rest) ->
  length (FeatureVector.features out) = 40%nat ->
  exists feats,
    average_feature_vectors (Some (v0 :: rest)) (Some out) now_ms
    = Done (0, Some (FeatureVector.mk feats FEATURE_VECTOR_SIZE
                                      (FeatureVector.task_type v0) now_ms)) /\
    length feats = 40%nat.
Proof.
  intros Hall Hout.
  assert (FeatureVector.size v0 = FEATURE_VECTOR_SIZE) as Hs0
    by (inversion Hall as [|? ? [H _] _]; exact H).
  unfold average_feature_vectors. rewrite Hs0.
  rewrite (existsb_false_Forall _ rest).
  2:{ inversion Hall as [|? ? _ Hr]; subst.
      eapply Forall_impl; [exact Hr|]. intros v [-> _]. reflexivity. }
  rewrite (existsb_false_Forall _ (v0 :: rest)).
  2:{ eapply Forall_impl; [exact Hall|]. intros v [_ ->]. reflexivity. }
  rewrite Hout. change (Z.of_nat 40 <? FEATURE_VECTOR_SIZE) with false. cbn [orb].
  eexists. split; [reflexivity|].
  rewrite <- Hout.
  apply (for_loop_invariant
           (fun _ o => length o = length (FeatureVector.features out))); [reflexivity|].
  intros j o _ Ho. rewrite length_insert. exact Ho.
Qed.







(** ** What authentication looks at *)

(** [template_authenticate] reads nothing of the template but its feature
    vector: two templates with the same features give the same return code
    and the same result, whatever their digest, salt, username, task and
    time stamps are.  A template whose digest was lost or replaced
    authenticates like the original. *)
Theorem template_authenticate_ignores_digest
        (alloc_ok : Z -> bool) (cosf sinf : f32 -> f32)
        (trial : option EEGData.t) (tpl1 tpl2 : Template.t) (res : option AuthResult.t)
        (now_ms now_s : Z) :
  Template.features tpl1 = Template.features tpl2 ->
  template_authenticate alloc_ok cosf sinf trial (Some tpl1) res now_ms now_s
  = template_authenticate alloc_ok cosf sinf trial (Some tpl2) res now_ms now_s.
Proof.
  intros H. unfold template_authenticate.
  destruct trial as [tr|]; [|reflexivity].
  destruct res as [r|]; [|reflexivity].
  rewrite H. reflexivity.
Qed.

Lemma template_authenticate_ignores_digest_witness :
  template_authenticate always_served id id (Some short_trial) (Some ones_template)
                        (Some blank_result) 5 6
  = template_authenticate always_served id id (Some short_trial)
      (Some (Template.mk [] (Some digest_b) (Template.features ones_template) 3 8 9 2))
      (Some blank_result) 5 6.
Proof.
  apply (template_authenticate_ignores_digest always_served id id (Some short_trial)
           ones_template
           (Template.mk [] (Some digest_b) (Template.features ones_template) 3 8 9 2)
           (Some blank_result) 5 6).
  reflexivity.
Defined.

(** ** The salt length that [template_load] reads *)

Lemma template_load_saved
        (alloc_ok : Z -> bool) (fs : gmap string (list byte)) (path : string)
        (t : Template.t) (fv : FeatureVector.t) (hd : HashData.t)
        (out : Template.t) (g : Z * Z * Z) :
  FeatureVector.wf fv -> HashData.wf hd ->
  8 <= HashData.hash_size hd < 2 ^ 64 ->
  fs !! path = Some (concat (template_save_writes t fv hd)) ->
  feature_vector_alloc alloc_ok (FeatureVector.size fv) <> None ->
  match hash_data_alloc alloc_ok (HashData.hash_size hd)
                        (le_decode (take 8 (HashData.hash hd))) with
  | Some _ => fst (template_load alloc_ok fs (Some path) (Some out) g) = 0
  | None =>
      exists t', template_load alloc_ok fs (Some path) (Some out) g = (-1, Some t') /\
                 Template.features t' <> None
  end.
Proof.
  intros Hwf (Hhl & Hsl) Hhs Hfile Halloc.
  unfold FeatureVector.wf in Hwf.
  unfold template_load. rewrite Hfile. cbv zeta.
  set (c := concat (template_save_writes t fv hd)).
  set (w1 := le_encode 4 (Template.version t)).
  set (w2 := username_bytes (Template.username t)).
  set (w3 := le_encode 4 (Template.task_type t)).
  set (w4 := le_encode 8 (Template.created_at t)).
  set (w5 := le_encode 8 (Template.last_used t)).
  set (w6 := le_encode 8 (FeatureVector.size fv)).
  set (w7 := floats_bytes (FeatureVector.features fv)).
  set (w8 := le_encode 8 (HashData.hash_size hd)).
  set (w9 := take 8 (HashData.hash hd)).
  assert (exists rest, c = w1 ++ w2 ++ w3 ++ w4 ++ w5 ++ w6 ++ w7 ++ w8 ++ w9 ++ rest)
    as [rest Hc].
  { eexists. subst c. unfold template_save_writes. cbn [concat].
    rewrite (firstn_all2 (FeatureVector.features fv)) by lia.
    rewrite (firstn_all2 (HashData.hash hd)) by lia.
    rewrite <- (take_drop 8 (HashData.hash hd)) at 1. fold w9.
    rewrite <- (app_assoc w9). reflexivity. }
  assert (length w1 = 4%nat) as L1 by apply le_encode_length.
  assert (length w2 = 64%nat) as L2 by apply username_bytes_length.
  assert (length w3 = 4%nat) as L3 by apply le_encode_length.
  assert (length w4 = 8%nat) as L4 by apply le_encode_length.
  assert (length w5 = 8%nat) as L5 by apply le_encode_length.
  assert (length w6 = 8%nat) as L6 by apply le_encode_length.
  assert (length w8 = 8%nat) as L8 by apply le_encode_length.
  assert (length w9 = 8%nat) as L9 by (subst w9; rewrite length_take; lia).
  rewrite (read_chunk _ 4 1 c [] w1 _ 0 Hc)
    by (rewrite ?le_encode_length, ?L1; reflexivity).
  cbv beta iota.
  rewrite (read_chunk _ 1 64 c w1 w2 (w3 ++ w4 ++ w5 ++ w6 ++ w7 ++ w8 ++ w9 ++ rest) _)
    by (rewrite ?Hc, ?L1, ?L2, ?username_bytes_length; reflexivity).
  cbv beta iota.
  rewrite (read_chunk _ 4 1 c (w1 ++ w2) w3 (w4 ++ w5 ++ w6 ++ w7 ++ w8 ++ w9 ++ rest) _)
    by (rewrite ?Hc, ?length_app, ?L1, ?L2, ?L3, ?le_encode_length, <- ?app_assoc;
        reflexivity).
  cbv beta iota.
  rewrite (read_chunk _ 8 1 c (w1 ++ w2 ++ w3) w4 (w5 ++ w6 ++ w7 ++ w8 ++ w9 ++ rest) _)
    by (rewrite ?Hc, ?length_app, ?L1, ?L2, ?L3, ?L4, ?le_encode_length, <- ?app_assoc;
        reflexivity).
  cbv beta iota.
  rewrite (read_chunk _ 8 1 c (w1 ++ w2 ++ w3 ++ w4) w5 (w6 ++ w7 ++ w8 ++ w9 ++ rest) _)
    by (rewrite ?Hc, ?length_app, ?L1, ?L2, ?L3, ?L4, ?L5, ?le_encode_length, <- ?app_assoc;
        reflexivity).
  cbv beta iota.
  rewrite (read_chunk _ 8 1 c (w1 ++ w2 ++ w3 ++ w4 ++ w5) w6 (w7 ++ w8 ++ w9 ++ rest) _)
    by (rewrite ?Hc, ?length_app, ?L1, ?L2, ?L3, ?L4, ?L5, ?L6, ?le_encode_length,
          <- ?app_assoc; reflexivity).
  cbv beta iota.
  assert (FeatureVector.size fv * 4 < 2 ^ 64) as Hsz.
  { unfold feature_vector_alloc, calloc_ok in Halloc.
    destruct (negb (alloc_ok sizeof_FeatureVector)); [congruence|].
    destruct (FeatureVector.size fv * 4 <? 2 ^ 64) eqn:E; [apply Z.ltb_lt; exact E|].
    cbn in Halloc. congruence. }
  assert (le_decode w6 = FeatureVector.size fv) as D6.
  { subst w6. rewrite le_decode_encode. apply Z.mod_small. change (8 * Z.of_nat 8) with 64. lia. }
  rewrite D6.
  destruct (feature_vector_alloc alloc_ok (FeatureVector.size fv)) as [fv0|] eqn:Efv;
    [clear Halloc|congruence].
  assert (FeatureVector.features fv0
          = replicate (length (FeatureVector.features fv)) F32.zero) as Hf0.
  { unfold feature_vector_alloc in Efv.
    destruct (negb (alloc_ok sizeof_FeatureVector)); [discriminate|].
    destruct (negb (calloc_ok alloc_ok (FeatureVector.size fv) 4)); [discriminate|].
    injection Efv as <-. cbn. rewrite <- Hwf, Nat2Z.id. reflexivity. }
  assert (length w7 = (4 * length (FeatureVector.features fv))%nat) as L7
      by apply floats_bytes_length.
  rewrite (read_chunk _ 4 (FeatureVector.size fv) c (w1 ++ w2 ++ w3 ++ w4 ++ w5 ++ w6) w7
             (w8 ++ w9 ++ rest) _)
    by (rewrite ?Hc, ?Hf0, ?floats_bytes_length, ?length_replicate, ?length_app,
          ?L1, ?L2, ?L3, ?L4, ?L5, ?L6, ?L7, <- ?app_assoc; try reflexivity; lia).
  cbv beta iota.
  rewrite (read_chunk _ 8 1 c (w1 ++ w2 ++ w3 ++ w4 ++ w5 ++ w6 ++ w7) w8 (w9 ++ rest) _)
    by (rewrite ?Hc, ?length_app, ?L1, ?L2, ?L3, ?L4, ?L5, ?L6, ?L7, ?L8, ?le_encode_length,
          <- ?app_assoc; try reflexivity; lia).
  cbv beta iota.
  rewrite (read_chunk _ 8 1 c (w1 ++ w2 ++ w3 ++ w4 ++ w5 ++ w6 ++ w7 ++ w8) w9 rest _)
    by (rewrite ?Hc, ?length_app, ?L1, ?L2, ?L3, ?L4, ?L5, ?L6, ?L7, ?L8, ?L9,
          ?le_encode_length, <- ?app_assoc; try reflexivity; lia).
  cbv beta iota.
  assert (le_decode w8 = HashData.hash_size hd) as D8.
  { subst w8. rewrite le_decode_encode. apply Z.mod_small. change (8 * Z.of_nat 8) with 64. lia. }
  rewrite D8.
  fold w9.
  destruct (hash_data_alloc alloc_ok (HashData.hash_size hd) (le_decode w9)) as [hd0|].
  - repeat match goal with
           | |- context [fread ?b ?s ?n ?fp] => destruct (fread b s n fp) as [? ?]
           end.
    reflexivity.
  - eexists. split; [reflexivity|]. cbn [Template.features]. discriminate.
Qed.

(** In the file that [template_save] writes, the hash follows its length
    field; [template_load] reads the salt length from there.  For a saved
    template with a well-formed feature vector and a well-formed digest of
    at least 8 hash bytes, the salt length that the load allocates is the
    number held by the first eight bytes of the hash, and the load returns
    0 exactly when the allocator serves a digest of that salt length, and -1
    otherwise: whether a saved template can be loaded at all depends on the
    value of its hash. *)
Theorem template_load_salt_size_from_hash
        (alloc_ok : Z -> bool) (fs : gmap string (list byte)) (path : string)
        (t : Template.t) (fv : FeatureVector.t) (hd : HashData.t)
        (out : Template.t) (g : Z * Z * Z) :
  FeatureVector.wf fv -> HashData.wf hd ->
  8 <= HashData.hash_size hd < 2 ^ 64 ->
  fs !! path = Some (concat (template_save_writes t fv hd)) ->
  feature_vector_alloc alloc_ok (FeatureVector.size fv) <> None ->
  fst (template_load alloc_ok fs (Some path) (Some out) g)
  = match hash_data_alloc alloc_ok (HashData.hash_size hd)
                          (le_decode (take 8 (HashData.hash hd))) with
    | Some _ => 0
    | None => -1
    end.
Proof.
  intros Hwf Hhd Hhs Hfile Halloc.
  pose proof (template_load_saved alloc_ok fs path t fv hd out g Hwf Hhd Hhs Hfile Halloc) as H.
  destruct (hash_data_alloc alloc_ok (HashData.hash_size hd)
                            (le_decode (take 8 (HashData.hash hd)))) as [hd0|].
  - exact H.
  - destruct H as (t' & E & _). rewrite E. reflexivity.
Qed.

Lemma template_load_salt_size_from_hash_witness :
  fst (template_load limited_alloc
         (<["al.nlt"%string := concat (template_save_writes enrolled_template
                                         enrolled_features enrolled_hash)]> no_files)
         (Some "al.nlt"%string) (Some blank_template) (0, 0, 0))
  = -1.
Proof.
  rewrite (template_load_salt_size_from_hash limited_alloc _ "al.nlt" enrolled_template
             enrolled_features enrolled_hash blank_template (0, 0, 0)).
  - vm_compute. reflexivity.
  - reflexivity.
  - split; reflexivity.
  - vm_compute. split; [discriminate|reflexivity].
  - apply lookup_insert_eq.
  - vm_compute. discriminate.
Defined.

(** ** Deleting a template from the command line (main.c, [cmd_delete]) *)







(** ** Enrolment and authentication from the command line (main.c) *)

Lemma capture_record_done
      (alloc_ok : Z -> bool) (RAND_MAX : Z) (rand : nat -> Z)
      (s : Device.t) (n : nat) (task : MentalTask) (out : EEGData.t) (now_ms : Z) :
  Device.device_status s = DEVICE_STREAMING ->
  (1 <= n <= 120)%nat ->
  alloc_ok sizeof_EEGData = true ->
  alloc_ok (NUM_CHANNELS * (SAMPLING_RATE * Z.of_nat n) * 4) = true ->
  capture_record alloc_ok RAND_MAX rand s (F32.of_Z (Z.of_nat n)) task (Some out) now_ms
  = Done (0, Some (EEGData.mk
                     (map (fun i => simulated_sample RAND_MAX (rand i))
                          (seq 0 (Z.to_nat (NUM_CHANNELS * (SAMPLING_RATE * Z.of_nat n)))))
                     NUM_CHANNELS (SAMPLING_RATE * Z.of_nat n)
                     (F32.of_Z SAMPLING_RATE) now_ms task)).
Proof.
  intros Hs Hn Ha1 Ha2.
  destruct (whole_seconds_exact_spec n Hn) as (E1 & E2 & E3).
  assert (wrap64 (NUM_CHANNELS * (SAMPLING_RATE * Z.of_nat n))
          = NUM_CHANNELS * (SAMPLING_RATE * Z.of_nat n)) as Hw.
  { unfold wrap64, NUM_CHANNELS, SAMPLING_RATE. apply Z.mod_small. lia. }
  assert (eeg_data_alloc alloc_ok NUM_CHANNELS (SAMPLING_RATE * Z.of_nat n)
          = Some (EEGData.mk
                    (replicate (Z.to_nat (NUM_CHANNELS * (SAMPLING_RATE * Z.of_nat n))) F32.zero)
                    NUM_CHANNELS (SAMPLING_RATE * Z.of_nat n)
                    (F32.of_Z SAMPLING_RATE) 0 TASK_EYES_CLOSED_REST)) as Ea.
  { unfold eeg_data_alloc, calloc_ok. rewrite Ha1, Hw, Ha2. cbn [negb].
    replace (NUM_CHANNELS * (SAMPLING_RATE * Z.of_nat n) * 4 <? 2 ^ 64) with true
      by (symmetry; apply Z.ltb_lt; unfold NUM_CHANNELS, SAMPLING_RATE; lia).
    reflexivity. }
  set (g := fun i : nat => simulated_sample RAND_MAX (rand i)).
  set (len := Z.to_nat (NUM_CHANNELS * (SAMPLING_RATE * Z.of_nat n))).
  unfold capture_record. rewrite Hs. cbn [status_eqb negb].
  rewrite E1. cbn [of_cast obind]. rewrite Ea, Hw. cbn [EEGData.data].
  rewrite E2. cbn [of_cast obind]. rewrite E3. cbn [obind].
  fold len.
  pose proof (fill_loop_any g (replicate len F32.zero) len (length_replicate _ _)) as Hfill.
  unfold g in Hfill at 1. rewrite Hfill. reflexivity.
Qed.

Lemma recorded_trial_extractable (g : nat -> f32) (now_ms : Z) (task : MentalTask) :
  extractable (EEGData.mk (map g (seq 0 samples_per_trial)) NUM_CHANNELS
                          (SAMPLING_RATE * CAPTURE_DURATION) (F32.of_Z SAMPLING_RATE)
                          now_ms task).
Proof.
  split.
  - unfold EEGData.wf. cbn [EEGData.num_channels EEGData.num_samples EEGData.data].
    rewrite length_map, length_seq. unfold samples_per_trial.
    repeat split; vm_compute; congruence.
  - right. cbn [EEGData.sampling_rate EEGData.num_channels].
    split; [vm_compute; reflexivity|vm_compute; discriminate].
Qed.

Lemma capture_trials_done
      (alloc_ok : Z -> bool) (RAND_MAX : Z) (rand clock : nat -> Z)
      (s : Device.t) (task : MentalTask) (count : nat) :
  (forall n, alloc_ok n = true) ->
  Device.device_status s = DEVICE_STREAMING ->
  forall i, exists trials,
    capture_trials alloc_ok RAND_MAX rand clock s task i count = Done (Some trials) /\
    length trials = count /\
    Forall extractable trials.
Proof.
  intros Ha Hs. induction count as [|count IH]; intros i.
  - exists []. split; [reflexivity|]. split; [reflexivity|constructor].
  - cbn [capture_trials].
    destruct (eeg_data_alloc alloc_ok NUM_CHANNELS (SAMPLING_RATE * CAPTURE_DURATION))
      as [slot|] eqn:Es.
    2:{ exfalso. revert Es. unfold eeg_data_alloc, calloc_ok. rewrite !Ha. discriminate. }
    change (F32.of_Z CAPTURE_DURATION) with (F32.of_Z (Z.of_nat 5)).
    rewrite (capture_record_done alloc_ok RAND_MAX _ s 5 task slot (clock i) Hs)
      by (try apply Ha; lia).
    cbn [obind snd fst]. change (0 =? 0) with true. cbn [negb].
    destruct (IH (S i)) as (rest & E & Hl & Hx). rewrite E. cbn [obind option_map].
    eexists. split; [reflexivity|]. split; [cbn [length]; rewrite Hl; reflexivity|].
    constructor; [|exact Hx].
    apply (recorded_trial_extractable
             (fun j => simulated_sample RAND_MAX (rand (i * samples_per_trial + j)%nat))).
Qed.

Lemma template_alloc_served (alloc_ok : Z -> bool) :
  (forall n, alloc_ok n = true) ->
  template_alloc alloc_ok = Some (Template.mk (replicate 64 x00) None None 0 0 0 0).
Proof. intros H. unfold template_alloc, calloc_ok. rewrite H. reflexivity. Qed.



(** [/dev/urandom] does not deliver the 32 bytes of the salt. *)
Lemma generate_salt_fails (dev : urandom) :
  match dev with UrandomBytes b => (length b < 32)%nat | _ => True end ->
  exists buf, generate_salt dev (Some (replicate 32 x00)) SALT_LENGTH = Done (-1, Some buf).
Proof.
  intros H. unfold generate_salt, SALT_LENGTH. change (32 =? 0) with false. cbv iota.
  destruct dev as [| |b].
  - eexists. reflexivity.
  - eexists. reflexivity.
  - change (Z.to_nat 32) with 32%nat.
    rewrite firstn_all2 by lia. rewrite length_replicate.
    replace (32 <? length b)%nat with false by (symmetry; apply Nat.ltb_ge; lia).
    change (to_signed 64 32) with 32.
    replace (Z.of_nat (length b) =? 32) with false by (symmetry; apply Z.eqb_neq; lia).
    eexists. reflexivity.
Qed.

Lemma template_create_salt_failure
      (alloc_ok : Z -> bool) (cosf sinf : f32 -> f32) (sha256 : list byte -> list byte)
      (evp_ok memcpy_same_ok : bool)
      (name : list byte) (trial : EEGData.t) (more : list (option EEGData.t))
      (task : MentalTask) (out : Template.t) (dev : urandom)
      (clock : nat -> Z) (now_s : Z) :
  (forall n, alloc_ok n = true) ->
  Forall (fun t => exists d, t = Some d /\ extractable d) (Some trial :: more) ->
  match dev with UrandomBytes b => (length b < 32)%nat | _ => True end ->
  exists t',
    template_create alloc_ok cosf sinf sha256 evp_ok memcpy_same_ok (Some name)
                    (Some (Some trial :: more)) task (Some out) dev clock now_s
    = Done (-1, Some t') /\
    Template.features t' <> None.
Proof.
  intros Ha Htrials Hdev.
  destruct (extract_trials_done alloc_ok cosf sinf clock (Some trial :: more) Ha Htrials 0%nat)
    as (vs & Ev & F2 & Fa).
  destruct vs as [|v0 rest]; [inversion F2|].
  destruct (average_feature_vectors_done v0 rest
              (FeatureVector.mk (replicate 40 F32.zero) 40 TASK_EYES_CLOSED_REST 0)
              (clock (length (Some trial :: more))) Fa (length_replicate _ _))
    as (feats & Eavg & Hfl).
  destruct (generate_salt_fails dev Hdev) as (buf & Eg).
  unfold template_create.
  change (Z.of_nat (length (Some trial :: more)) =? 0) with false. cbv iota.
  rewrite Ha. cbn [negb]. rewrite Ev. cbn [obind].
  rewrite feature_vector_alloc_served by exact Ha.
  rewrite Eavg. cbn [obind snd fst]. change (0 =? 0) with true. cbn [negb].
  rewrite hash_data_alloc_served by exact Ha.
  cbn [HashData.salt HashData.hash HashData.hash_size HashData.salt_size].
  rewrite Eg. cbn [obind snd fst]. change (-1 =? 0) with false. cbn [negb].
  eexists. split; [reflexivity|]. cbn [Template.features]. discriminate.
Qed.

(** When [/dev/urandom] cannot be opened or read, or delivers fewer than 32
    bytes, a first enrolment whose other resources are served does not
    return: [template_create] fails after it has released the averaged
    features and the digest, leaving their pointers in the template, and
    [cmd_enroll] then calls [template_free], which releases them a second
    time (undefined behaviour). *)
Theorem cmd_enroll_releases_twice
        (alloc_ok : Z -> bool) (cosf sinf : f32 -> f32) (sha256 : list byte -> list byte)
        (evp_ok memcpy_same_ok : bool) (RAND_MAX : Z) (create_directory_ok : bool)
        (fopen_w_ok : string -> bool) (rand clock : nat -> Z)
        (fs : gmap string (list byte)) (s : Device.t) (username : string)
        (device_name : list byte) (task : MentalTask) (dev : urandom) (now_s : Z) :
  (forall n, alloc_ok n = true) ->
  template_exists fs username = 0 ->
  match dev with UrandomBytes b => (length b < 32)%nat | _ => True end ->
  cmd_enroll alloc_ok cosf sinf sha256 evp_ok memcpy_same_ok RAND_MAX create_directory_ok
             fopen_w_ok rand clock fs s username (Some device_name) task dev now_s
  = Undefined.
Proof.
  intros Ha Hnew Hdev.
  set (s3 := snd (capture_start_streaming
                    (snd (capture_connect (Some device_name) (snd (capture_init s)))))).
  assert (Device.device_status s3 = DEVICE_STREAMING) as Hs3 by reflexivity.
  destruct (capture_trials_done alloc_ok RAND_MAX rand clock s3 task
              (Z.to_nat NUM_ENROLMENT_TRIALS) Ha Hs3 0%nat) as (trials & Et & Hlen & Hx).
  destruct trials as [|trial more]; [discriminate Hlen|].
  assert (Forall (fun t => exists d, t = Some d /\ extractable d)
                 (Some trial :: map Some more)) as Hall.
  { change (Some trial :: map Some more) with (map Some (trial :: more)).
    apply Forall_fmap. eapply Forall_impl; [exact Hx|].
    intros d Hd. exists d. split; [reflexivity|exact Hd]. }
  destruct (template_create_salt_failure alloc_ok cosf sinf sha256 evp_ok memcpy_same_ok
              (list_byte_of_string username) trial (map Some more) task
              (Template.mk (replicate 64 x00) None None 0 0 0 0) dev
              (fun k => clock (Z.to_nat NUM_ENROLMENT_TRIALS + k)%nat) now_s Ha Hall Hdev)
    as (t' & Ec & Hf).
  unfold cmd_enroll. rewrite Hnew.
  change (fst (capture_init s)) with 0.
  change (fst (capture_connect (Some device_name) (snd (capture_init s)))) with 0.
  change (fst (capture_start_streaming
                 (snd (capture_connect (Some device_name) (snd (capture_init s))))))
    with 0.
  fold s3. change (negb (0 =? 0)) with false. cbv iota.
  rewrite Ha. change (negb true) with false. cbv iota.
  rewrite Et. cbn [obind]. rewrite template_alloc_served by exact Ha.
  change (map Some (trial :: more)) with (Some trial :: map Some more).
  rewrite Ec. cbn [obind fst snd]. change (negb (-1 =? 0)) with true. cbv iota.
  unfold template_free_after_failure.
  destruct (Template.features t'); [reflexivity|congruence].
Qed.

Lemma cmd_enroll_releases_twice_witness :
  cmd_enroll always_served id id fake_digest true true 2147483647 true accept_any
             (fun i => Z.of_nat i) (fun _ => 0)
             no_files device_initial "al" (Some (bytes_of [100])) TASK_MOTOR_IMAGERY
             UrandomUnavailable 1000
  = Undefined.
Proof.
  apply (cmd_enroll_releases_twice always_served id id fake_digest true true 2147483647 true
           accept_any (fun i => Z.of_nat i) (fun _ => 0) no_files device_initial "al"
           (bytes_of [100]) TASK_MOTOR_IMAGERY UrandomUnavailable 1000).
  - intros n. reflexivity.
  - reflexivity.
  - exact I.
Defined.

(** Authentication of a user whose saved template cannot be loaded.  When
    the number held by the first eight bytes of the stored hash is a salt
    length that the allocator does not serve, [template_load] fails after it
    has read and released the feature vector, leaving its pointer in the
    template; [cmd_authenticate] then calls [template_free], which releases
    it a second time (undefined behaviour), before any signal is
    recorded. *)
Theorem cmd_authenticate_releases_twice
        (alloc_ok : Z -> bool) (cosf sinf : f32 -> f32) (RAND_MAX : Z)
        (rand clock : nat -> Z)
        (fs : gmap string (list byte)) (s : Device.t) (username : string)
        (device_name : option (list byte)) (task : MentalTask) (g : Z * Z * Z) (now_s : Z)
        (t : Template.t) (fv : FeatureVector.t) (hd : HashData.t) :
  FeatureVector.wf fv -> HashData.wf hd ->
  8 <= HashData.hash_size hd < 2 ^ 64 ->
  fs !! default_filepath username = Some (concat (template_save_writes t fv hd)) ->
  template_alloc alloc_ok <> None ->
  feature_vector_alloc alloc_ok (FeatureVector.size fv) <> None ->
  hash_data_alloc alloc_ok (HashData.hash_size hd) (le_decode (take 8 (HashData.hash hd)))
  = None ->
  cmd_authenticate alloc_ok cosf sinf RAND_MAX rand clock fs s username device_name task
                   g now_s
  = Undefined.
Proof.
  intros Hwf Hhd Hhs Hfile Hta Hfa Hha.
  unfold cmd_authenticate.
  assert (template_exists fs username = 1) as ->
    by (unfold template_exists, file_exists; rewrite Hfile; reflexivity).
  change (1 =? 0) with false. cbv iota.
  destruct (template_alloc alloc_ok) as [template|]; [clear Hta|congruence].
  pose proof (template_load_saved alloc_ok fs (default_filepath username) t fv hd template g
                Hwf Hhd Hhs Hfile Hfa) as H.
  rewrite Hha in H. destruct H as (t' & -> & Hf).
  cbn [fst snd]. change (negb (-1 =? 0)) with true. cbv iota.
  unfold template_free_after_failure.
  destruct (Template.features t'); [reflexivity|congruence].
Qed.

Lemma cmd_authenticate_releases_twice_witness :
  cmd_authenticate limited_alloc id id 2147483647 (fun i => Z.of_nat i) (fun _ => 0)
    (<[default_filepath "al" := concat (template_save_writes enrolled_template
                                          enrolled_features enrolled_hash)]> no_files)
    device_initial "al" (Some (bytes_of [100])) TASK_MOTOR_IMAGERY (0, 0, 0) 1000
  = Undefined.
Proof.
  apply (cmd_authenticate_releases_twice limited_alloc id id 2147483647
           (fun i => Z.of_nat i) (fun _ => 0) _ device_initial "al" (Some (bytes_of [100]))
           TASK_MOTOR_IMAGERY (0, 0, 0) 1000 enrolled_template enrolled_features
           enrolled_hash).
  - reflexivity.
  - split; reflexivity.
  - vm_compute. split; [discriminate|reflexivity].
  - apply lookup_insert_eq.
  - vm_compute. discriminate.
  - vm_compute. discriminate.
  - vm_compute. reflexivity.
Defined.
